(** * File-management service: metadata lifecycle, listing and file-name
    sanitization.

    A shallow embedding of the backend of the repository:
    - [utils/file.utils.ts] ([sanitizeFileName], [getFileExtension]),
    - [services/s3.service.ts] ([S3Service]),
    - [services/dynamodb.service.ts] ([DynamoDBService]),
    - [controllers/projects.controller.ts] and
      [controllers/files.controller.ts] (all request handlers),
    - [config/aws.config.ts] (the allowed MIME types),
    - [utils/response.utils.ts] (the response envelope),
    - [routes/projects.routes.ts] and [routes/files.routes.ts] (the routes,
      and histories of requests served one after the other).

    Modelling conventions.
    - A JavaScript string is a [string] whose characters are read as code
      units below 256 (Latin-1); [toLowerCase], [trim] and [parseInt] are
      modelled on that range.
    - A JavaScript number is a [Z]: sizes, counters and limits are
      integers, and exact ones, where JavaScript has doubles (the same
      numbers below 2^53).
    - The fields of a request body are read at the types that the handlers
      declare for them; the handlers cast the body without a check, and a
      body whose [fileSize] is no number is outside the model.
    - The metadata table is a finite map from the composite key (PK, SK) to
      an item, an item being a finite map from attribute names to values, as
      the document client sees it.  The bucket is the finite set of keys at
      which an object is stored.
    - [async] functions are computations in a state-and-exception monad over
      the two stores; [try]/[catch] and [.catch] are [try_catch].
    - What the process reads from its platform (clock, generated identifiers,
      URL signer, cursor codec, failures of the managed services) is gathered
      in a record [Env] passed to every handler. *)

From Stdlib Require Import ZArith String Ascii List Bool Lia.
From stdpp Require Import base gmap strings list fin_maps relations.

Local Open Scope string_scope.
Local Open Scope Z_scope.

(** ** JavaScript strings *)

Module JS.

Definition code (c : ascii) : Z := Z.of_nat (nat_of_ascii c).

Definition ofCode (n : Z) : ascii := ascii_of_nat (Z.to_nat n).

Definition isUpperAZ (c : ascii) : bool := (65 <=? code c) && (code c <=? 90).
Definition isLowerAZ (c : ascii) : bool := (97 <=? code c) && (code c <=? 122).
Definition isDigit (c : ascii) : bool := (48 <=? code c) && (code c <=? 57).

(** The upper-case letters of the Latin-1 supplement, U+00C0..U+00DE
    without the multiplication sign U+00D7. *)
Definition isUpperLatin1 (c : ascii) : bool :=
  (192 <=? code c) && (code c <=? 222) && negb (code c =? 215).

(** [String.prototype.toLowerCase] on one code unit below 256. *)
Definition lowerChar (c : ascii) : ascii :=
  if isUpperAZ c || isUpperLatin1 c then ofCode (code c + 32) else c.

Definition toLowerCase (s : list ascii) : list ascii := map lowerChar s.

(** WhiteSpace and LineTerminator code units below 256: TAB, LF, VT, FF,
    CR, SP and NBSP. *)
Definition isSpace (c : ascii) : bool :=
  let n := code c in
  (n =? 9) || (n =? 10) || (n =? 11) || (n =? 12) || (n =? 13) || (n =? 32)
  || (n =? 160).

Fixpoint trimStart (s : list ascii) : list ascii :=
  match s with
  | c :: r => if isSpace c then trimStart r else s
  | [] => []
  end.

Definition trimEnd (s : list ascii) : list ascii := rev (trimStart (rev s)).

(** [String.prototype.trim]. *)
Definition trim (s : string) : string :=
  string_of_list_ascii (trimEnd (trimStart (list_ascii_of_string s))).

(** [s.length]. *)
Definition length (s : string) : Z := Z.of_nat (String.length s).

(** [s.slice(start, end)] for [0 <= start] and [0 <= end]. *)
Definition slice (s : list ascii) (start stop : Z) : list ascii :=
  firstn (Z.to_nat (stop - start)) (skipn (Z.to_nat start) s).

(** [s.charCodeAt(i)] for an index in range. *)
Definition charAt (s : list ascii) (i : nat) : ascii := nth i s "000"%char.

(** The decimal digits at the head of a string, as [parseInt] reads them:
    [Some n] when there is at least one digit. *)
Fixpoint digits (acc : option Z) (s : list ascii) : option Z :=
  match s with
  | c :: r =>
      if isDigit c
      then digits (Some (10 * default 0 acc + (code c - 48))) r
      else acc
  | [] => acc
  end.

(** [parseInt(s, 10)]: leading white space is skipped, one sign is read,
    then the longest run of decimal digits; [None] is NaN.  The result is
    the exact integer: JavaScript rounds it to a double, which is the same
    number below 2^53 and an infinity for a run of more than 308 digits. *)
Definition parseInt (s : string) : option Z :=
  match trimStart (list_ascii_of_string s) with
  | "-"%char :: r => Z.opp <$> digits None r
  | "+"%char :: r => digits None r
  | r => digits None r
  end.

End JS.

(** ** Node's [path] module (POSIX flavour)

    [basename] and [extname] follow the loops of [lib/path.js]: the index
    runs from the last character down to the first, the variables of the
    loop are the fields of the state, a [break] returns the state at
    once. *)

Module Path.

Definition isSlash (c : ascii) : bool := JS.code c =? 47.
Definition isDot (c : ascii) : bool := JS.code c =? 46.

(** The loop of [basename(path)] without suffix: [i] runs from
    [path.length - 1] down to 0; the state is [(start, end, matchedSlash)].
    A [break] returns the state at once. *)
Fixpoint basenameLoop (path : list ascii) (n : nat) (st : Z * Z * bool)
  : Z * Z * bool :=
  match n with
  | O => st
  | S i =>
      let '(start, stop, matchedSlash) := st in
      if isSlash (JS.charAt path i) then
        if negb matchedSlash then (Z.of_nat i + 1, stop, matchedSlash)
        else basenameLoop path i st
      else if stop =? -1 then basenameLoop path i (start, Z.of_nat i + 1, false)
      else basenameLoop path i st
  end.

Definition basename (path : list ascii) : list ascii :=
  let '(start, stop, _) :=
    basenameLoop path (List.length path) (0, -1, true) in
  if stop =? -1 then [] else JS.slice path start stop.

Record SuffixState := {
  sStart : Z;
  sEnd : Z;
  sMatchedSlash : bool;
  sExtIdx : Z;
  sFirstNonSlashEnd : Z
}.

(** The loop of [basename(path, suffix)] for a non-empty suffix no longer
    than the path. *)
Fixpoint basenameSuffixLoop (path suffix : list ascii) (n : nat)
  (st : SuffixState) : SuffixState :=
  match n with
  | O => st
  | S i =>
      let c := JS.charAt path i in
      if isSlash c then
        if negb (sMatchedSlash st) then
          {| sStart := Z.of_nat i + 1; sEnd := sEnd st;
             sMatchedSlash := sMatchedSlash st; sExtIdx := sExtIdx st;
             sFirstNonSlashEnd := sFirstNonSlashEnd st |}
        else basenameSuffixLoop path suffix i st
      else
        let st1 :=
          if sFirstNonSlashEnd st =? -1 then
            {| sStart := sStart st; sEnd := sEnd st; sMatchedSlash := false;
               sExtIdx := sExtIdx st;
               sFirstNonSlashEnd := Z.of_nat i + 1 |}
          else st in
        let st2 :=
          if 0 <=? sExtIdx st1 then
            if Ascii.eqb c (JS.charAt suffix (Z.to_nat (sExtIdx st1))) then
              if sExtIdx st1 - 1 =? -1 then
                {| sStart := sStart st1; sEnd := Z.of_nat i;
                   sMatchedSlash := sMatchedSlash st1;
                   sExtIdx := sExtIdx st1 - 1;
                   sFirstNonSlashEnd := sFirstNonSlashEnd st1 |}
              else
                {| sStart := sStart st1; sEnd := sEnd st1;
                   sMatchedSlash := sMatchedSlash st1;
                   sExtIdx := sExtIdx st1 - 1;
                   sFirstNonSlashEnd := sFirstNonSlashEnd st1 |}
            else
              {| sStart := sStart st1; sEnd := sFirstNonSlashEnd st1;
                 sMatchedSlash := sMatchedSlash st1; sExtIdx := -1;
                 sFirstNonSlashEnd := sFirstNonSlashEnd st1 |}
          else st1 in
        basenameSuffixLoop path suffix i st2
  end.

Definition listEqb (a b : list ascii) : bool :=
  String.eqb (string_of_list_ascii a) (string_of_list_ascii b).

Definition basenameSuffix (path suffix : list ascii) : list ascii :=
  let plen := List.length path in
  let slen := List.length suffix in
  if (0 <? Z.of_nat slen) && (Z.of_nat slen <=? Z.of_nat plen) then
    if listEqb suffix path then []
    else
      let st := basenameSuffixLoop path suffix plen
                  {| sStart := 0; sEnd := -1; sMatchedSlash := true;
                     sExtIdx := Z.of_nat slen - 1;
                     sFirstNonSlashEnd := -1 |} in
      let stop :=
        if sStart st =? sEnd st then sFirstNonSlashEnd st
        else if sEnd st =? -1 then Z.of_nat plen
        else sEnd st in
      JS.slice path (sStart st) stop
  else basename path.

Record ExtState := {
  startDot : Z;
  startPart : Z;
  eEnd : Z;
  matchedSlash : bool;
  preDotState : Z
}.

(** The loop of [extname(path)]. *)
Fixpoint extnameLoop (path : list ascii) (n : nat) (st : ExtState)
  : ExtState :=
  match n with
  | O => st
  | S i =>
      let c := JS.charAt path i in
      if isSlash c then
        if negb (matchedSlash st) then
          {| startDot := startDot st; startPart := Z.of_nat i + 1;
             eEnd := eEnd st; matchedSlash := matchedSlash st;
             preDotState := preDotState st |}
        else extnameLoop path i st
      else
        let st1 :=
          if eEnd st =? -1 then
            {| startDot := startDot st; startPart := startPart st;
               eEnd := Z.of_nat i + 1; matchedSlash := false;
               preDotState := preDotState st |}
          else st in
        let st2 :=
          if isDot c then
            if startDot st1 =? -1 then
              {| startDot := Z.of_nat i; startPart := startPart st1;
                 eEnd := eEnd st1; matchedSlash := matchedSlash st1;
                 preDotState := preDotState st1 |}
            else if negb (preDotState st1 =? 1) then
              {| startDot := startDot st1; startPart := startPart st1;
                 eEnd := eEnd st1; matchedSlash := matchedSlash st1;
                 preDotState := 1 |}
            else st1
          else if negb (startDot st1 =? -1) then
            {| startDot := startDot st1; startPart := startPart st1;
               eEnd := eEnd st1; matchedSlash := matchedSlash st1;
               preDotState := -1 |}
          else st1 in
        extnameLoop path i st2
  end.

Definition extname (path : list ascii) : list ascii :=
  let st := extnameLoop path (List.length path)
              {| startDot := -1; startPart := 0; eEnd := -1;
                 matchedSlash := true; preDotState := 0 |} in
  if (startDot st =? -1) || (eEnd st =? -1) || (preDotState st =? 0)
     || ((preDotState st =? 1) && (startDot st =? eEnd st - 1)
         && (startDot st =? startPart st + 1))
  then []
  else JS.slice path (startDot st) (eEnd st).

End Path.

(** ** [utils/file.utils.ts] *)

(** The character class [[a-zA-Z0-9._-]]. *)
Definition inClass (c : ascii) : bool :=
  JS.isLowerAZ c || JS.isUpperAZ c || JS.isDigit c
  || (JS.code c =? 46) || (JS.code c =? 95) || (JS.code c =? 45).

Definition underscore : ascii := "_"%char.

(** [s.replace(/[^a-zA-Z0-9._-]/g, '_')]. *)
Definition replaceSpecial (s : list ascii) : list ascii :=
  map (fun c => if inClass c then c else underscore) s.

(** [s.replace(/_{2,}/g, '_')]: every maximal run of two or more
    underscores becomes one underscore. *)
Fixpoint collapseUnderscores (s : list ascii) : list ascii :=
  match s with
  | c :: r =>
      if Ascii.eqb c underscore then
        match r with
        | d :: _ =>
            if Ascii.eqb d underscore then collapseUnderscores r
            else c :: collapseUnderscores r
        | [] => [c]
        end
      else c :: collapseUnderscores r
  | [] => []
  end.

(** The [sanitized] constant of [sanitizeFileName]: the stem of the base
    name after the two replacements and [substring(0, 200)]. *)
Definition sanitizedStem (fileName : list ascii) : list ascii :=
  let baseName := Path.basename fileName in
  let ext := Path.extname baseName in
  let nameWithoutExt := Path.basenameSuffix baseName ext in
  firstn 200 (collapseUnderscores (replaceSpecial nameWithoutExt)).

(** The extension that [sanitizeFileName] appends: [ext.toLowerCase()]. *)
Definition loweredExt (fileName : list ascii) : list ascii :=
  JS.toLowerCase (Path.extname (Path.basename fileName)).

Definition sanitizeFileNameChars (fileName : list ascii) : list ascii :=
  let baseName := Path.basename fileName in
  let ext := Path.extname baseName in
  let nameWithoutExt := Path.basenameSuffix baseName ext in
  let sanitized :=
    firstn 200 (collapseUnderscores (replaceSpecial nameWithoutExt)) in
  sanitized ++ JS.toLowerCase ext.

Definition sanitizeFileName (fileName : string) : string :=
  string_of_list_ascii (sanitizeFileNameChars (list_ascii_of_string fileName)).

Definition getFileExtension (fileName : string) : string :=
  string_of_list_ascii
    (JS.toLowerCase (Path.extname (list_ascii_of_string fileName))).

(** ** Vocabulary for the loops of [path]

    Names for the updates that the loop of [extname] makes to its state. *)

Definition notSlash (c : ascii) : Prop := Path.isSlash c = false.

Definition notDot (c : ascii) : Prop := Path.isDot c = false.

(** The first character seen that is no separator marks the end. *)
Definition extMark (i : nat) (st : Path.ExtState) : Path.ExtState :=
  if Path.eEnd st =? -1 then
    {| Path.startDot := Path.startDot st; Path.startPart := Path.startPart st;
       Path.eEnd := Z.of_nat i + 1; Path.matchedSlash := false;
       Path.preDotState := Path.preDotState st |}
  else st.

(** The first dot seen marks the start of the extension. *)
Definition extSetDot (i : nat) (st : Path.ExtState) : Path.ExtState :=
  {| Path.startDot := Z.of_nat i; Path.startPart := Path.startPart st;
     Path.eEnd := Path.eEnd st; Path.matchedSlash := Path.matchedSlash st;
     Path.preDotState := Path.preDotState st |}.

Definition extSetPre (v : Z) (st : Path.ExtState) : Path.ExtState :=
  {| Path.startDot := Path.startDot st; Path.startPart := Path.startPart st;
     Path.eEnd := Path.eEnd st; Path.matchedSlash := Path.matchedSlash st;
     Path.preDotState := v |}.

(** The state in which [extname] enters its loop. *)
Definition extInit : Path.ExtState :=
  {| Path.startDot := -1; Path.startPart := 0; Path.eEnd := -1;
     Path.matchedSlash := true; Path.preDotState := 0 |}.

(** The two replacements and the cut of [sanitizeFileName]. *)
Definition sanitize (s : list ascii) : list ascii :=
  firstn 200 (collapseUnderscores (replaceSpecial s)).

(** ** The two managed stores *)

(** An attribute value of the document client: a string or a number. *)
Inductive Attr :=
| AStr (s : string)
| ANum (n : Z).

#[global] Instance Attr_eq_dec : EqDecision Attr.
Proof. solve_decision. Defined.

(** An item is a map from attribute names to values; the table maps the
    composite primary key (PK, SK) to the item stored under it. *)
Abbreviation Item := (gmap string Attr).
Abbreviation Key := (string * string)%type.
Abbreviation Table := (gmap (string * string) (gmap string Attr)).

Record World := {
  table : Table;
  bucket : gset string
}.

Definition setTable (t : Table) (w : World) : World :=
  {| table := t; bucket := bucket w |}.

Definition setBucket (b : gset string) (w : World) : World :=
  {| table := table w; bucket := b |}.

(** ** Computations: state over [World], exceptions by name *)

Inductive Outcome (A : Type) :=
| Returns (a : A)
| Throws (name : string).
Arguments Returns {A} a.
Arguments Throws {A} name.

Definition M (A : Type) : Type := World -> Outcome A * World.

#[global] Instance M_ret : MRet M := fun A a w => (Returns a, w).

#[global] Instance M_bind : MBind M := fun A B f m w =>
  match m w with
  | (Returns a, w') => f a w'
  | (Throws e, w') => (Throws e, w')
  end.

Definition throw {A} (name : string) : M A := fun w => (Throws name, w).

(** [try { m } catch (e) { h e }], also [m.catch(h)]. *)
Definition try_catch {A} (m : M A) (h : string -> M A) : M A := fun w =>
  match m w with
  | (Returns a, w') => (Returns a, w')
  | (Throws e, w') => h e w'
  end.

(** ** The platform of one request *)

(** What [JSON.parse(Buffer.from(lastKey, 'base64').toString())] yields
    when it does not throw: an object with exactly the two key attributes,
    or any other JSON value. *)
Inductive Json :=
| JKey (pk sk : string)
| JOther.

(** The service methods that send a command to a managed service. *)
Inductive Call :=
| AtCreateFileMetadata | AtGetFileById | AtGetFilesByProject
| AtUpdateFileStatus | AtHardDeleteFile | AtCreateProject | AtGetProjectById
| AtGetProjectsByUser | AtUpdateProject | AtUpdateProjectStats
| AtHeadObject | AtDeleteObject | AtSignUrl.

Record Env := {
  (** [new Date().toISOString()] *)
  now : string;
  (** [uuidv4()] *)
  uuidv4 : string;
  (** the command sent by this method is rejected with an error of this
      name (throttling, network, access denied, ...) *)
  fault : Call -> option string;
  (** [getSignedUrl] for a verb, an object key and the file name of the
      [ResponseContentDisposition], if any *)
  getSignedUrl : string -> string -> option string -> string;
  (** [JSON.parse(Buffer.from(s, 'base64').toString())]; [None] when
      [JSON.parse] throws *)
  jsonOfBase64 : string -> option Json;
  (** [Buffer.from(JSON.stringify(key)).toString('base64')] *)
  base64OfKey : string * string -> string;
  (** [S3_CONFIG.presignedUrlExpiry] *)
  presignedUrlExpiry : Z;
  (** [S3_CONFIG.maxFileSize] *)
  maxFileSize : Z;
  (** [formatFileSize], a floating-point rendering used in one message *)
  formatFileSize : Z -> string
}.

(** [client.send(command)]: the command fails with the injected error, or
    takes effect on the stores. *)
Definition send {A} (env : Env) (c : Call) (command : M A) : M A := fun w =>
  match fault env c with
  | Some e => (Throws e, w)
  | None => command w
  end.

(** ** Commands of the metadata store

    The commands of the document client as the service uses them: a put
    with a condition on the stored item, a get, an unconditional delete, an
    update by [SET] actions that creates the item when there is none, and a
    query over one partition key with a prefix of the sort key. *)

Module Ddb.

Definition keyOf (i : Item) : option Key :=
  match i !! "PK", i !! "SK" with
  | Some (AStr p), Some (AStr s) => Some (p, s)
  | _, _ => None
  end.

(** [attribute_not_exists(a)] against the item stored under the key, if
    any. *)
Definition attribute_not_exists (a : string) (old : option Item) : bool :=
  match old with
  | Some i => bool_decide (i !! a = None)
  | None => true
  end.

(** [PutCommand] with a [ConditionExpression]. *)
Definition put (item : Item) (condition : option Item -> bool) : M unit :=
  fun w =>
    match keyOf item with
    | None => (Throws "ValidationException", w)
    | Some k =>
        if condition (table w !! k)
        then (Returns tt, setTable (<[k := item]> (table w)) w)
        else (Throws "ConditionalCheckFailedException", w)
    end.

(** [GetCommand]: [result.Item]. *)
Definition get (k : Key) : M (option Item) := fun w =>
  (Returns (table w !! k), w).

(** [DeleteCommand], unconditional. *)
Definition delete (k : Key) : M unit := fun w =>
  (Returns tt, setTable (base.delete k (table w)) w).

(** One action of a [SET] update expression: [#a = :v] or
    [a = a + :delta]. *)
Inductive Action :=
| SetTo (a : string) (v : Attr)
| Increment (a : string) (delta : Z).

(** The value an action assigns, read against the item as it is before
    the update; [None] when the operand is missing or not a number. *)
Definition actionValue (old : Item) (a : Action) : option (string * Attr) :=
  match a with
  | SetTo n v => Some (n, v)
  | Increment n d =>
      match old !! n with
      | Some (ANum x) => Some (n, ANum (x + d))
      | _ => None
      end
  end.

Fixpoint actionValues (old : Item) (acts : list Action)
  : option (list (string * Attr)) :=
  match acts with
  | [] => Some []
  | a :: r =>
      match actionValue old a, actionValues old r with
      | Some nv, Some nvs => Some (nv :: nvs)
      | _, _ => None
      end
  end.

Definition assign (i : Item) (nvs : list (string * Attr)) : Item :=
  fold_left (fun acc nv => <[fst nv := snd nv]> acc) nvs i.

Definition keyItem (k : Key) : Item :=
  <["PK" := AStr (fst k)]> (<["SK" := AStr (snd k)]> ∅).

(** [UpdateCommand] without condition and with [ReturnValues: 'ALL_NEW']:
    the item under the key is edited, and an item holding the key
    attributes is created first when there is none. *)
Definition update (k : Key) (acts : list Action) : M Item := fun w =>
  let old := default (keyItem k) (table w !! k) in
  match actionValues old acts with
  | None => (Throws "ValidationException", w)
  | Some nvs =>
      let new := assign old nvs in
      (Returns new, setTable (<[k := new]> (table w)) w)
  end.

(** One comparison of a [FilterExpression]: [a = :v] or [a <> :v]. *)
Inductive Cond :=
| AttrEq (a : string) (v : Attr)
| AttrNe (a : string) (v : Attr).

Definition evalCond (i : Item) (c : Cond) : bool :=
  match c with
  | AttrEq a v => bool_decide (i !! a = Some v)
  | AttrNe a v => negb (bool_decide (i !! a = Some v))
  end.

(** The conjunction [filters.join(' AND ')]. *)
Definition evalFilter (filters : list Cond) (i : Item) : bool :=
  forallb (evalCond i) filters.

Fixpoint insertBySK (r : Key * Item) (l : list (Key * Item))
  : list (Key * Item) :=
  match l with
  | [] => [r]
  | x :: t =>
      if String.leb (snd (fst r)) (snd (fst x)) then r :: l
      else x :: insertBySK r t
  end.

Definition sortBySK (l : list (Key * Item)) : list (Key * Item) :=
  fold_right insertBySK [] l.

(** The rows selected by [PK = :pk AND begins_with(SK, :skPrefix)], in
    the order of the sort key. *)
Definition partition (pk skPrefix : string) (t : Table)
  : list (Key * Item) :=
  sortBySK
    (List.filter
       (fun r => String.eqb (fst (fst r)) pk
                 && String.prefix skPrefix (snd (fst r)))
       (map_to_list t)).

Definition lastKeyOf (l : list (Key * Item)) : option Key :=
  fst <$> last l.

(** [QueryCommand]: the rows after [ExclusiveStartKey] are read in key
    order, at most [Limit] of them; the filter is applied to the rows
    read.  [LastEvaluatedKey] is set when the reading stopped at the
    limit.  A start key that is not a key of the queried range, or a
    limit below 1, is rejected. *)
Definition query (pk skPrefix : string) (filters : list Cond)
  (limit : option Z) (start : option Json)
  : M (list Item * option Key) := fun w =>
  let rows := partition pk skPrefix (table w) in
  let from (rows : list (Key * Item)) :=
    match limit with
    | Some n =>
        if n <=? 0 then (Throws "ValidationException", w)
        else
          let scanned := firstn (Z.to_nat n) rows in
          (Returns
             (List.filter (evalFilter filters) (map snd scanned),
              if n <=? Z.of_nat (List.length rows)
              then lastKeyOf scanned else None), w)
    | None =>
        (Returns (List.filter (evalFilter filters) (map snd rows), None), w)
    end in
  match start with
  | None => from rows
  | Some (JKey p s) =>
      if String.eqb p pk && String.prefix skPrefix s
      then from (List.filter (fun r => String.ltb s (snd (fst r))) rows)
      else (Throws "ValidationException", w)
  | Some JOther => (Throws "ValidationException", w)
  end.

End Ddb.

(** ** Reading a row the way the handlers do *)

(** A field read as a string, [None] when it is missing or no string. *)
Definition jsStr (a : option Attr) : option string :=
  match a with
  | Some (AStr s) => Some s
  | _ => None
  end.

(** A field read as a number, [None] when it is missing or no number. *)
Definition jsNum (a : option Attr) : option Z :=
  match a with
  | Some (ANum n) => Some n
  | _ => None
  end.

(** [row.status === s]. *)
Definition statusIs (s : string) (row : Item) : bool :=
  bool_decide (row !! "status" = Some (AStr s)).

(** Truthiness of an optional string: present and not empty. *)
Definition truthy (s : option string) : option string :=
  match s with
  | Some v => if String.eqb v "" then None else Some v
  | None => None
  end.

(** ** [config/aws.config.ts] and the validation of [utils/file.utils.ts] *)

Definition ALLOWED_MIME_TYPES : list string :=
  [ "image/jpeg"; "image/png"; "image/gif"; "image/webp"; "image/svg+xml";
    "application/pdf"; "application/msword";
    "application/vnd.openxmlformats-officedocument.wordprocessingml.document";
    "application/vnd.ms-excel";
    "application/vnd.openxmlformats-officedocument.spreadsheetml.sheet";
    "application/vnd.ms-powerpoint";
    "application/vnd.openxmlformats-officedocument.presentationml.presentation";
    "text/plain"; "text/csv"; "text/html"; "text/css"; "text/javascript";
    "application/json";
    "application/zip"; "application/x-rar-compressed"; "application/gzip";
    "video/mp4"; "video/webm"; "video/quicktime";
    "audio/mpeg"; "audio/wav"; "audio/ogg" ].

Definition isAllowedMimeType (mimeType : string) : bool :=
  existsb (String.eqb mimeType) ALLOWED_MIME_TYPES.

Definition isFileSizeAllowed (env : Env) (fileSize : Z) : bool :=
  (0 <? fileSize) && (fileSize <=? maxFileSize env).

(** [validateUploadRequest]: [None] when the request is valid, the error
    message otherwise. *)
Definition validateUploadRequest (env : Env)
  (fileName fileType : option string) (fileSize : option Z)
  : option string :=
  match truthy fileName with
  | None => Some "File name is required"
  | Some name =>
      if JS.length (JS.trim name) =? 0 then Some "File name is required"
      else
        match truthy fileType with
        | None => Some "File type is required"
        | Some type =>
            if JS.length (JS.trim type) =? 0 then Some "File type is required"
            else if negb (isAllowedMimeType type) then
              Some ("File type '" +:+ type +:+ "' is not allowed")
            else
              match fileSize with
              | None => Some "File size must be greater than 0"
              | Some size =>
                  if size <=? 0 then Some "File size must be greater than 0"
                  else if negb (isFileSizeAllowed env size) then
                    Some ("File size exceeds maximum allowed size of "
                          +:+ formatFileSize env (maxFileSize env))
                  else None
              end
        end
  end.

(** ** [services/s3.service.ts] *)

Module S3Service.

(** [generateS3Key]: the template literal
    [${projectId}/${fileId}/${sanitizedFileName}]. *)
Definition keyName (fileName : string) : string :=
  string_of_list_ascii (replaceSpecial (list_ascii_of_string fileName)).

Definition generateS3Key (projectId fileId fileName : string) : string :=
  projectId +:+ "/" +:+ fileId +:+ "/" +:+ keyName fileName.

(** [HeadObjectCommand]: rejected with [NotFound] when no object is
    stored at the key. *)
Definition headObject (s3Key : string) : M unit := fun w =>
  if decide (s3Key ∈ bucket w) then (Returns tt, w)
  else (Throws "NotFound", w).

Definition objectExists (env : Env) (s3Key : string) : M bool :=
  try_catch
    (_ ← send env AtHeadObject (headObject s3Key); mret true)
    (fun e => if String.eqb e "NotFound" then mret false else throw e).

Definition deleteObject (env : Env) (s3Key : string) : M unit :=
  send env AtDeleteObject
    (fun w => (Returns tt, setBucket (bucket w ∖ {[ s3Key ]}) w)).

Definition generateDownloadUrl (env : Env) (s3Key : string)
  (originalFileName : option string) : M (string * Z) :=
  downloadUrl ← send env AtSignUrl
    (mret (getSignedUrl env "GET" s3Key (truthy originalFileName)));
  mret (downloadUrl, presignedUrlExpiry env).

(** The content type, the content length and the metadata go into the
    signed command; they leave no trace in the stores. *)
Definition generateUploadUrl (env : Env)
  (projectId fileId fileName contentType : string) (fileSize : Z)
  : M (string * string * Z) :=
  let s3Key := generateS3Key projectId fileId fileName in
  uploadUrl ← send env AtSignUrl (mret (getSignedUrl env "PUT" s3Key None));
  mret (uploadUrl, s3Key, presignedUrlExpiry env).

End S3Service.

(** ** [services/dynamodb.service.ts] *)

Module DynamoDBService.

Definition fileKey (projectId fileId : string) : Key :=
  ("PROJECT#" +:+ projectId, "FILE#" +:+ fileId).

Definition projectKey (userId projectId : string) : Key :=
  ("USER#" +:+ userId, "PROJECT#" +:+ projectId).

Definition notExists (old : option Item) : bool :=
  Ddb.attribute_not_exists "PK" old && Ddb.attribute_not_exists "SK" old.

(** *** File operations *)

Record CreateFileMetadata := {
  cfFileId : string;
  cfProjectId : string;
  cfFileName : string;
  cfFileType : string;
  cfFileExtension : string;
  cfFileSize : Z;
  cfS3Key : string;
  cfUploadedBy : string
}.

Definition fileItem (env : Env) (m : CreateFileMetadata) : Item :=
  list_to_map
    [ ("PK", AStr ("PROJECT#" +:+ cfProjectId m));
      ("SK", AStr ("FILE#" +:+ cfFileId m));
      ("fileId", AStr (cfFileId m));
      ("projectId", AStr (cfProjectId m));
      ("fileName", AStr (cfFileName m));
      ("fileType", AStr (cfFileType m));
      ("fileExtension", AStr (cfFileExtension m));
      ("fileSize", ANum (cfFileSize m));
      ("s3Key", AStr (cfS3Key m));
      ("uploadedBy", AStr (cfUploadedBy m));
      ("uploadedAt", AStr (now env));
      ("status", AStr "pending") ].

Definition createFileMetadata (env : Env) (metadata : CreateFileMetadata)
  : M Item :=
  let item := fileItem env metadata in
  _ ← send env AtCreateFileMetadata (Ddb.put item notExists);
  mret item.

Definition getFileById (env : Env) (projectId fileId : string)
  : M (option Item) :=
  send env AtGetFileById (Ddb.get (fileKey projectId fileId)).

Record FileListOptions := {
  foFileType : option string;
  foStatus : option string;
  foLimit : option Z;
  foLastKey : option Json
}.

Definition fileFilters (options : FileListOptions) : list Ddb.Cond :=
  match truthy (foFileType options) with
  | Some t => [Ddb.AttrEq "fileType" (AStr t)]
  | None => []
  end
  ++ match truthy (foStatus options) with
     | Some s => [Ddb.AttrEq "status" (AStr s)]
     | None => [Ddb.AttrNe "status" (AStr "deleted")]
     end.

Definition getFilesByProject (env : Env) (projectId : string)
  (options : FileListOptions) : M (list Item * option Key) :=
  send env AtGetFilesByProject
    (Ddb.query ("PROJECT#" +:+ projectId) "FILE#" (fileFilters options)
       (foLimit options) (foLastKey options)).

Definition updateFileStatus (env : Env) (projectId fileId status : string)
  : M (option Item) :=
  attributes ← send env AtUpdateFileStatus
    (Ddb.update (fileKey projectId fileId)
       [Ddb.SetTo "status" (AStr status)]);
  mret (Some attributes).

Definition deleteFile (env : Env) (projectId fileId : string)
  : M (option Item) :=
  updateFileStatus env projectId fileId "deleted".

Definition hardDeleteFile (env : Env) (projectId fileId : string)
  : M unit :=
  send env AtHardDeleteFile (Ddb.delete (fileKey projectId fileId)).

(** *** Project operations *)

Definition projectItem (env : Env) (userId projectId name : string)
  (description : option string) : Item :=
  let item : Item :=
    list_to_map
      [ ("PK", AStr ("USER#" +:+ userId));
        ("SK", AStr ("PROJECT#" +:+ projectId));
        ("projectId", AStr projectId);
        ("name", AStr name);
        ("ownerId", AStr userId);
        ("createdAt", AStr (now env));
        ("updatedAt", AStr (now env));
        ("status", AStr "active");
        ("fileCount", ANum 0);
        ("totalSize", ANum 0) ] in
  match description with
  | Some d => <["description" := AStr d]> item
  | None => item
  end.

Definition createProject (env : Env) (userId projectId name : string)
  (description : option string) : M Item :=
  let item := projectItem env userId projectId name description in
  _ ← send env AtCreateProject (Ddb.put item notExists);
  mret item.

Definition getProjectById (env : Env) (userId projectId : string)
  : M (option Item) :=
  send env AtGetProjectById (Ddb.get (projectKey userId projectId)).

Record ProjectListOptions := {
  poStatus : option string;
  poLimit : option Z;
  poLastKey : option Json
}.

Definition projectFilters (options : ProjectListOptions) : list Ddb.Cond :=
  match truthy (poStatus options) with
  | Some s => [Ddb.AttrEq "status" (AStr s)]
  | None => [Ddb.AttrNe "status" (AStr "deleted")]
  end.

Definition getProjectsByUser (env : Env) (userId : string)
  (options : ProjectListOptions) : M (list Item * option Key) :=
  send env AtGetProjectsByUser
    (Ddb.query ("USER#" +:+ userId) "PROJECT#" (projectFilters options)
       (poLimit options) (poLastKey options)).

Record ProjectUpdates := {
  puName : option string;
  puDescription : option string;
  puStatus : option string
}.

Definition setIfDefined (a : string) (v : option string)
  : list Ddb.Action :=
  match v with
  | Some s => [Ddb.SetTo a (AStr s)]
  | None => []
  end.

Definition updateExpressions (env : Env) (updates : ProjectUpdates)
  : list Ddb.Action :=
  [Ddb.SetTo "updatedAt" (AStr (now env))]
  ++ setIfDefined "name" (puName updates)
  ++ setIfDefined "description" (puDescription updates)
  ++ setIfDefined "status" (puStatus updates).

Definition updateProject (env : Env) (userId projectId : string)
  (updates : ProjectUpdates) : M (option Item) :=
  attributes ← send env AtUpdateProject
    (Ddb.update (projectKey userId projectId)
       (updateExpressions env updates));
  mret (Some attributes).

Definition updateProjectStats (env : Env) (userId projectId : string)
  (fileCountDelta sizeDelta : Z) : M unit :=
  _ ← send env AtUpdateProjectStats
    (Ddb.update (projectKey userId projectId)
       [ Ddb.Increment "fileCount" fileCountDelta;
         Ddb.Increment "totalSize" sizeDelta;
         Ddb.SetTo "updatedAt" (AStr (now env)) ]);
  mret tt.

Definition deleteProject (env : Env) (userId projectId : string)
  : M (option Item) :=
  updateProject env userId projectId
    {| puName := None; puDescription := None; puStatus := Some "deleted" |}.

End DynamoDBService.

(** ** [utils/response.utils.ts] *)

Module ErrorCodes.
Definition VALIDATION_ERROR : string := "VALIDATION_ERROR".
Definition FILE_NOT_FOUND : string := "FILE_NOT_FOUND".
Definition PROJECT_NOT_FOUND : string := "PROJECT_NOT_FOUND".
Definition PROJECT_ALREADY_EXISTS : string := "PROJECT_ALREADY_EXISTS".
Definition INTERNAL_ERROR : string := "INTERNAL_ERROR".
End ErrorCodes.

(** The [data] of a success envelope. *)
Inductive Payload :=
| Row (row : option Item)
| Message (message : string)
| CreateProjectResponse (projectId name : string)
    (description : option string) (createdAt : string)
| UploadFileResponse (fileId uploadUrl : string) (expiresIn : Z)
| DownloadFileResponse (fileId fileName : option Attr) (downloadUrl : string)
    (expiresIn : Z)
| ListFilesResponse (files : list Item) (nextKey : option string)
| ListProjectsResponse (projects : list Item) (nextKey : option string).

(** The response: HTTP status with the success or the error envelope (the
    [meta.timestamp] of the envelope is left out). *)
Inductive Response :=
| Success (statusCode : Z) (data : Payload)
| Failure (statusCode : Z) (code message : string).

Definition sendSuccess (data : Payload) (statusCode : Z) : Response :=
  Success statusCode data.

Definition sendError (code message : string) (statusCode : Z) : Response :=
  Failure statusCode code message.

(** ** Requests *)

(** The parts of an Express request that the handlers read: the identity
    set by the authentication middleware, the route parameters, the query
    parameters (each absent or a string) and the fields of the JSON body,
    at the types of [CreateProjectRequest], [UpdateProjectRequest] and
    [UploadFileRequest].  The handlers take [req.body] at these types by
    an unchecked cast: a body with a field of another type is not a
    [Request]. *)
Record Request := {
  reqUserId : option string;
  projectId : string;
  fileId : string;
  qStatus : option string;
  qFileType : option string;
  qLimit : option string;
  qLastKey : option string;
  qHard : option string;
  bName : option string;
  bDescription : option string;
  bStatus : option string;
  bFileName : option string;
  bFileType : option string;
  bFileSize : option Z
}.

(** [req.userId || 'demo-user']. *)
Definition userIdOf (req : Request) : string :=
  default "demo-user" (truthy (reqUserId req)).

(** [if (limit) options.limit = Math.min(parseInt(limit, 10) || 50, 100)]:
    the [limit] option handed to the service. *)
Definition limitOption (limit : option string) : option Z :=
  match truthy limit with
  | Some l =>
      let parsed :=
        match JS.parseInt l with
        | Some n => if n =? 0 then 50 else n
        | None => 50
        end in
      Some (Z.min parsed 100)
  | None => None
  end.

(** [if (lastKey && typeof lastKey === 'string') try { options.lastKey =
    JSON.parse(...) } catch { }]: the [lastKey] option handed to the
    service. *)
Definition lastKeyOption (env : Env) (lastKey : option string)
  : option Json :=
  match truthy lastKey with
  | Some k => jsonOfBase64 env k
  | None => None
  end.

(** [result.lastKey ? Buffer.from(JSON.stringify(result.lastKey))
    .toString('base64') : undefined]. *)
Definition nextKeyOf (env : Env) (lastKey : option Key) : option string :=
  base64OfKey env <$> lastKey.

(** ** [controllers/projects.controller.ts] *)

Module ProjectsController.

Import ErrorCodes.

Definition createProject (env : Env) (req : Request) : M Response :=
  try_catch
    (let userId := userIdOf req in
     match truthy (bName req) with
     | None =>
         mret (sendError VALIDATION_ERROR "Project name is required" 400)
     | Some name =>
         if JS.length (JS.trim name) =? 0 then
           mret (sendError VALIDATION_ERROR "Project name is required" 400)
         else if 100 <? JS.length name then
           mret (sendError VALIDATION_ERROR
                   "Project name must be 100 characters or less" 400)
         else
           let projectId := uuidv4 env in
           _ ← DynamoDBService.createProject env userId projectId
                 (JS.trim name) (JS.trim <$> bDescription req);
           mret (sendSuccess
                   (CreateProjectResponse projectId (JS.trim name)
                      (JS.trim <$> bDescription req) (now env)) 201)
     end)
    (fun e =>
       if String.eqb e "ConditionalCheckFailedException" then
         mret (sendError PROJECT_ALREADY_EXISTS "Project already exists" 409)
       else
         mret (sendError INTERNAL_ERROR "Failed to create project" 500)).

Definition getProject (env : Env) (req : Request) : M Response :=
  try_catch
    (project ← DynamoDBService.getProjectById env (userIdOf req)
                 (projectId req);
     match project with
     | None => mret (sendError PROJECT_NOT_FOUND "Project not found" 404)
     | Some p =>
         if statusIs "deleted" p then
           mret (sendError PROJECT_NOT_FOUND "Project has been deleted" 404)
         else mret (sendSuccess (Row (Some p)) 200)
     end)
    (fun _ => mret (sendError INTERNAL_ERROR "Failed to get project" 500)).

Definition listOptions (env : Env) (req : Request)
  : DynamoDBService.ProjectListOptions :=
  {| DynamoDBService.poStatus := truthy (qStatus req);
     DynamoDBService.poLimit := limitOption (qLimit req);
     DynamoDBService.poLastKey := lastKeyOption env (qLastKey req) |}.

Definition listProjects (env : Env) (req : Request) : M Response :=
  try_catch
    (result ← DynamoDBService.getProjectsByUser env (userIdOf req)
                (listOptions env req);
     mret (sendSuccess
             (ListProjectsResponse (fst result) (nextKeyOf env (snd result)))
             200))
    (fun _ => mret (sendError INTERNAL_ERROR "Failed to list projects" 500)).

Definition updateProject (env : Env) (req : Request) : M Response :=
  try_catch
    (existingProject ← DynamoDBService.getProjectById env (userIdOf req)
                         (projectId req);
     match existingProject with
     | None => mret (sendError PROJECT_NOT_FOUND "Project not found" 404)
     | Some p =>
         if statusIs "deleted" p then
           mret (sendError PROJECT_NOT_FOUND
                   "Cannot update deleted project" 404)
         else if match bName req with
                 | Some name => JS.length (JS.trim name) =? 0
                 | None => false
                 end then
           mret (sendError VALIDATION_ERROR
                   "Project name cannot be empty" 400)
         else if match bName req with
                 | Some name => 100 <? JS.length name
                 | None => false
                 end then
           mret (sendError VALIDATION_ERROR
                   "Project name must be 100 characters or less" 400)
         else
           updatedProject ← DynamoDBService.updateProject env (userIdOf req)
             (projectId req)
             {| DynamoDBService.puName := JS.trim <$> bName req;
                DynamoDBService.puDescription :=
                  JS.trim <$> bDescription req;
                DynamoDBService.puStatus := bStatus req |};
           mret (sendSuccess (Row updatedProject) 200)
     end)
    (fun _ => mret (sendError INTERNAL_ERROR "Failed to update project" 500)).

Definition deleteProject (env : Env) (req : Request) : M Response :=
  try_catch
    (existingProject ← DynamoDBService.getProjectById env (userIdOf req)
                         (projectId req);
     match existingProject with
     | None => mret (sendError PROJECT_NOT_FOUND "Project not found" 404)
     | Some p =>
         if statusIs "deleted" p then
           mret (sendError PROJECT_NOT_FOUND "Project already deleted" 404)
         else
           _ ← DynamoDBService.deleteProject env (userIdOf req)
                 (projectId req);
           mret (sendSuccess (Message "Project deleted") 200)
     end)
    (fun _ => mret (sendError INTERNAL_ERROR "Failed to delete project" 500)).

End ProjectsController.

(** ** [controllers/files.controller.ts] *)

Module FilesController.

Import ErrorCodes.

(** A field passed where the services take a [string]: a row without it
    makes the call reject. *)
Definition withString {A} (a : option Attr) (k : string -> M A) : M A :=
  match jsStr a with
  | Some s => k s
  | None => throw "Error"
  end.

(** [updateProjectStats(userId, projectId, fileCountDelta, sizeDelta)
    .catch(() => { })] after a row mutation.  [sizeDelta] is computed from
    the [fileSize] field of the row, read as the number that [FileMetadata]
    declares; when that field is no number the call is taken to reject,
    which is caught alike.  So it is for [confirmUpload], which passes
    the field as it is.  In [deleteFile] the source negates the field
    before the call, and the negation turns a numeric string into a
    number; the model takes the adjustment for such a row to be rejected
    as well.  No row that the handlers write from a [Request] holds such
    a field. *)
Definition adjustStats (env : Env) (userId projectId : string)
  (fileCountDelta : Z) (sizeDelta : option Z) : M unit :=
  try_catch
    (match sizeDelta with
     | Some delta =>
         DynamoDBService.updateProjectStats env userId projectId
           fileCountDelta delta
     | None => throw "Error"
     end)
    (fun _ => mret tt).

Definition requestUpload (env : Env) (req : Request) : M Response :=
  try_catch
    (match validateUploadRequest env (bFileName req) (bFileType req)
             (bFileSize req) with
     | Some error => mret (sendError VALIDATION_ERROR error 400)
     | None =>
         let fileName := default "" (bFileName req) in
         let fileType := default "" (bFileType req) in
         let fileSize := default 0 (bFileSize req) in
         let fileId := uuidv4 env in
         let sanitizedFileName := sanitizeFileName fileName in
         let fileExtension := getFileExtension sanitizedFileName in
         signed ← S3Service.generateUploadUrl env (projectId req) fileId
                    sanitizedFileName fileType fileSize;
         let '(uploadUrl, s3Key, expiresIn) := signed in
         _ ← DynamoDBService.createFileMetadata env
               {| DynamoDBService.cfFileId := fileId;
                  DynamoDBService.cfProjectId := projectId req;
                  DynamoDBService.cfFileName := sanitizedFileName;
                  DynamoDBService.cfFileType := fileType;
                  DynamoDBService.cfFileExtension := fileExtension;
                  DynamoDBService.cfFileSize := fileSize;
                  DynamoDBService.cfS3Key := s3Key;
                  DynamoDBService.cfUploadedBy := userIdOf req |};
         mret (sendSuccess (UploadFileResponse fileId uploadUrl expiresIn) 201)
     end)
    (fun _ =>
       mret (sendError INTERNAL_ERROR "Failed to generate upload URL" 500)).

Definition confirmUpload (env : Env) (req : Request) : M Response :=
  try_catch
    (fileMetadata ← DynamoDBService.getFileById env (projectId req)
                      (fileId req);
     match fileMetadata with
     | None => mret (sendError FILE_NOT_FOUND "File not found" 404)
     | Some fm =>
         exists_ ← withString (fm !! "s3Key") (S3Service.objectExists env);
         if negb exists_ then
           mret (sendError VALIDATION_ERROR
                   "File has not been uploaded to storage" 400)
         else
           updatedFile ← DynamoDBService.updateFileStatus env
                           (projectId req) (fileId req) "uploaded";
           _ ← adjustStats env (userIdOf req) (projectId req) 1
                 (jsNum (fm !! "fileSize"));
           mret (sendSuccess (Row updatedFile) 200)
     end)
    (fun _ => mret (sendError INTERNAL_ERROR "Failed to confirm upload" 500)).

Definition getDownloadUrl (env : Env) (req : Request) : M Response :=
  try_catch
    (fileMetadata ← DynamoDBService.getFileById env (projectId req)
                      (fileId req);
     match fileMetadata with
     | None => mret (sendError FILE_NOT_FOUND "File not found" 404)
     | Some fm =>
         if statusIs "deleted" fm then
           mret (sendError FILE_NOT_FOUND "File has been deleted" 404)
         else
           signed ← withString (fm !! "s3Key")
                      (fun s3Key =>
                         S3Service.generateDownloadUrl env s3Key
                           (jsStr (fm !! "fileName")));
           mret (sendSuccess
                   (DownloadFileResponse (fm !! "fileId") (fm !! "fileName")
                      (fst signed) (snd signed)) 200)
     end)
    (fun _ =>
       mret (sendError INTERNAL_ERROR "Failed to generate download URL" 500)).

Definition getFileMetadata (env : Env) (req : Request) : M Response :=
  try_catch
    (fileMetadata ← DynamoDBService.getFileById env (projectId req)
                      (fileId req);
     match fileMetadata with
     | None => mret (sendError FILE_NOT_FOUND "File not found" 404)
     | Some fm =>
         if statusIs "deleted" fm then
           mret (sendError FILE_NOT_FOUND "File has been deleted" 404)
         else mret (sendSuccess (Row (Some fm)) 200)
     end)
    (fun _ =>
       mret (sendError INTERNAL_ERROR "Failed to get file metadata" 500)).

Definition listOptions (env : Env) (req : Request)
  : DynamoDBService.FileListOptions :=
  {| DynamoDBService.foFileType := truthy (qFileType req);
     DynamoDBService.foStatus := truthy (qStatus req);
     DynamoDBService.foLimit := limitOption (qLimit req);
     DynamoDBService.foLastKey := lastKeyOption env (qLastKey req) |}.

Definition listFiles (env : Env) (req : Request) : M Response :=
  try_catch
    (result ← DynamoDBService.getFilesByProject env (projectId req)
                (listOptions env req);
     mret (sendSuccess
             (ListFilesResponse (fst result) (nextKeyOf env (snd result)))
             200))
    (fun _ => mret (sendError INTERNAL_ERROR "Failed to list files" 500)).

(** [req.query.hard === 'true']. *)
Definition hardDelete (req : Request) : bool :=
  bool_decide (qHard req = Some "true").

Definition deleteFile (env : Env) (req : Request) : M Response :=
  try_catch
    (fileMetadata ← DynamoDBService.getFileById env (projectId req)
                      (fileId req);
     match fileMetadata with
     | None => mret (sendError FILE_NOT_FOUND "File not found" 404)
     | Some fm =>
         if statusIs "deleted" fm && negb (hardDelete req) then
           mret (sendError FILE_NOT_FOUND "File already deleted" 404)
         else if hardDelete req then
           _ ← withString (fm !! "s3Key") (S3Service.deleteObject env);
           _ ← DynamoDBService.hardDeleteFile env (projectId req)
                 (fileId req);
           _ ← adjustStats env (userIdOf req) (projectId req) (-1)
                 (Z.opp <$> jsNum (fm !! "fileSize"));
           mret (sendSuccess (Message "File permanently deleted") 200)
         else
           _ ← DynamoDBService.deleteFile env (projectId req) (fileId req);
           _ ← adjustStats env (userIdOf req) (projectId req) (-1)
                 (Z.opp <$> jsNum (fm !! "fileSize"));
           mret (sendSuccess (Message "File deleted") 200)
     end)
    (fun _ => mret (sendError INTERNAL_ERROR "Failed to delete file" 500)).

End FilesController.

(** ** Variations of a request and of its platform *)

#[global] Instance Call_eq_dec : EqDecision Call.
Proof. solve_decision. Defined.

(** The platform in which the command sent by method [c] meets the fate
    [f], everything else as in [env]. *)
Definition withFault (c : Call) (f : option string) (env : Env) : Env :=
  {| now := now env;
     uuidv4 := uuidv4 env;
     fault := fun c' => if decide (c' = c) then f else fault env c';
     getSignedUrl := getSignedUrl env;
     jsonOfBase64 := jsonOfBase64 env;
     base64OfKey := base64OfKey env;
     presignedUrlExpiry := presignedUrlExpiry env;
     maxFileSize := maxFileSize env;
     formatFileSize := formatFileSize env |}.

(** The platform in which [uuidv4()] yields [u]. *)
Definition withUuid (u : string) (env : Env) : Env :=
  {| now := now env;
     uuidv4 := u;
     fault := fault env;
     getSignedUrl := getSignedUrl env;
     jsonOfBase64 := jsonOfBase64 env;
     base64OfKey := base64OfKey env;
     presignedUrlExpiry := presignedUrlExpiry env;
     maxFileSize := maxFileSize env;
     formatFileSize := formatFileSize env |}.

(** The request with another [lastKey] query parameter. *)
Definition withLastKey (lastKey : option string) (req : Request) : Request :=
  {| reqUserId := reqUserId req;
     projectId := projectId req;
     fileId := fileId req;
     qStatus := qStatus req;
     qFileType := qFileType req;
     qLimit := qLimit req;
     qLastKey := lastKey;
     qHard := qHard req;
     bName := bName req;
     bDescription := bDescription req;
     bStatus := bStatus req;
     bFileName := bFileName req;
     bFileType := bFileType req;
     bFileSize := bFileSize req |}.

(** The rows listed by a response: those of a list payload, none for any
    other response. *)
Definition listedRows (r : Response) : list Item :=
  match r with
  | Success _ (ListFilesResponse files _) => files
  | Success _ (ListProjectsResponse projects _) => projects
  | _ => []
  end.

(** The response of a handler run, when it did not throw. *)
Definition responseOf (r : Outcome Response * World) : option Response :=
  match fst r with
  | Returns resp => Some resp
  | Throws _ => None
  end.

(** ** A scenario

    One owner, one project and one file, used to run the handlers on
    concrete stores. *)

Definition demoCursor : string :=
  "eyJQSyI6IlVTRVIjYWxpY2UiLCJTSyI6IlBST0pFQ1QjN2Q5ZjFjMmUifQ==".

(** A platform without failures.  Its cursor codec knows the one cursor of
    the scenario, the base64 form of
    [{"PK":"USER#alice","SK":"PROJECT#7d9f1c2e"}]; every other string is
    taken as one on which [JSON.parse] throws. *)
Definition demoEnv : Env :=
  {| now := "2024-05-01T10:00:00.000Z";
     uuidv4 := "7d9f1c2e";
     fault := fun _ => None;
     getSignedUrl := fun verb key _ =>
       "https://bucket.example/" +:+ key +:+ "?X-Verb=" +:+ verb;
     jsonOfBase64 := fun s =>
       if String.eqb s demoCursor
       then Some (JKey "USER#alice" "PROJECT#7d9f1c2e")
       else None;
     base64OfKey := fun _ => demoCursor;
     presignedUrlExpiry := 3600;
     maxFileSize := 104857600;
     formatFileSize := fun _ => "100 MB" |}.

(** The same platform with a codec that knows one more cursor, ["MTIz"],
    the base64 form of [123]: valid JSON that is no key. *)
Definition numberCursorEnv : Env :=
  {| now := now demoEnv;
     uuidv4 := uuidv4 demoEnv;
     fault := fault demoEnv;
     getSignedUrl := getSignedUrl demoEnv;
     jsonOfBase64 := fun s =>
       if String.eqb s "MTIz" then Some JOther else jsonOfBase64 demoEnv s;
     base64OfKey := base64OfKey demoEnv;
     presignedUrlExpiry := presignedUrlExpiry demoEnv;
     maxFileSize := maxFileSize demoEnv;
     formatFileSize := formatFileSize demoEnv |}.

Definition demoRequest : Request :=
  {| reqUserId := Some "alice";
     projectId := "7d9f1c2e";
     fileId := "f-001";
     qStatus := None;
     qFileType := None;
     qLimit := None;
     qLastKey := None;
     qHard := None;
     bName := Some "Site plans";
     bDescription := None;
     bStatus := None;
     bFileName := Some "../Site Plan (final).PDF";
     bFileType := Some "application/pdf";
     bFileSize := Some 2048 |}.

(** The platform of the upload request: the generated identifier is that
    of the file. *)
Definition uploadEnv : Env := withUuid "f-001" demoEnv.

(** The metadata that [requestUpload] derives from the request of the
    scenario. *)
Definition demoFile : DynamoDBService.CreateFileMetadata :=
  {| DynamoDBService.cfFileId := "f-001";
     DynamoDBService.cfProjectId := "7d9f1c2e";
     DynamoDBService.cfFileName := "Site_Plan_final_.pdf";
     DynamoDBService.cfFileType := "application/pdf";
     DynamoDBService.cfFileExtension := ".pdf";
     DynamoDBService.cfFileSize := 2048;
     DynamoDBService.cfS3Key := "7d9f1c2e/f-001/Site_Plan_final_.pdf";
     DynamoDBService.cfUploadedBy := "alice" |}.

Definition emptyWorld : World := {| table := ∅; bucket := ∅ |}.

(** The stores after the project was created through the handler. *)
Definition projectWorld : World :=
  snd (ProjectsController.createProject demoEnv demoRequest emptyWorld).

(** The stores after the upload was requested: the row of the file is
    there, nothing is uploaded yet. *)
Definition pendingWorld : World :=
  snd (FilesController.requestUpload uploadEnv demoRequest projectWorld).

(** The stores after the client has put the object. *)
Definition storedWorld : World :=
  setBucket ({[ DynamoDBService.cfS3Key demoFile ]} ∪ bucket pendingWorld)
    pendingWorld.

(** The stores after a soft delete of the file that was never confirmed. *)
Definition deletedWorld : World :=
  snd (FilesController.deleteFile demoEnv demoRequest storedWorld).

(** The same stores without the project row. *)
Definition orphanWorld : World :=
  setTable
    (base.delete (DynamoDBService.projectKey "alice" "7d9f1c2e")
       (table storedWorld)) storedWorld.

(** ** Statements of the page-limit claim *)

(** The claim of C5 for one value of the [limit] parameter: a limit
    within 1..100 is handed to the store, and it is 50 when the parameter
    is absent or does not parse as a number. *)
Definition limitClaim (limit : option string) : Prop :=
  exists n,
    limitOption limit = Some n
    /\ 1 <= n <= 100
    /\ (limit = None \/ (exists s, limit = Some s /\ JS.parseInt s = None)
        -> n = 50).

(** ** [utils/file.utils.ts], continued *)

(** [s.includes(sub)]. *)
Fixpoint includes (sub s : string) : bool :=
  String.prefix sub s
  || match s with
     | String _ r => includes sub r
     | EmptyString => false
     end.

(** [getMimeTypeCategory] of [utils/file.utils.ts]. *)
Definition getMimeTypeCategory (mimeType : string) : string :=
  if String.prefix "image/" mimeType then "image"
  else if String.prefix "video/" mimeType then "video"
  else if String.prefix "audio/" mimeType then "audio"
  else if String.prefix "text/" mimeType then "text"
  else if includes "pdf" mimeType then "pdf"
  else if includes "word" mimeType || includes "document" mimeType
  then "document"
  else if includes "excel" mimeType || includes "spreadsheet" mimeType
  then "spreadsheet"
  else if includes "powerpoint" mimeType || includes "presentation" mimeType
  then "presentation"
  else if includes "zip" mimeType || includes "rar" mimeType
          || includes "gzip" mimeType
  then "archive"
  else "other".

(** ** Further vocabulary *)

(** No two underscores in a row. *)
Fixpoint noUnderscoreRun (l : list ascii) : bool :=
  match l with
  | c :: r =>
      match r with
      | d :: _ =>
          negb (Ascii.eqb c underscore && Ascii.eqb d underscore)
          && noUnderscoreRun r
      | [] => true
      end
  | [] => true
  end.

(** The project row after a counter adjustment that set the counters to
    [count] and [total]. *)
Definition adjusted (env : Env) (prow : Item) (count total : Z) : Item :=
  <["updatedAt" := AStr (now env)]>
    (<["totalSize" := ANum total]> (<["fileCount" := ANum count]> prow)).

(** The values that the update expression of [updateProject] assigns. *)
Definition updateValues (env : Env) (updates : DynamoDBService.ProjectUpdates)
  : list (string * Attr) :=
  [("updatedAt", AStr (now env))]
  ++ match DynamoDBService.puName updates with
     | Some s => [("name", AStr s)]
     | None => []
     end
  ++ match DynamoDBService.puDescription updates with
     | Some s => [("description", AStr s)]
     | None => []
     end
  ++ match DynamoDBService.puStatus updates with
     | Some s => [("status", AStr s)]
     | None => []
     end.

(** The metadata that [requestUpload] hands to [createFileMetadata]. *)
Definition uploadMetadata (env : Env) (req : Request)
  : DynamoDBService.CreateFileMetadata :=
  let sanitizedFileName := sanitizeFileName (default "" (bFileName req)) in
  {| DynamoDBService.cfFileId := uuidv4 env;
     DynamoDBService.cfProjectId := projectId req;
     DynamoDBService.cfFileName := sanitizedFileName;
     DynamoDBService.cfFileType := default "" (bFileType req);
     DynamoDBService.cfFileExtension := getFileExtension sanitizedFileName;
     DynamoDBService.cfFileSize := default 0 (bFileSize req);
     DynamoDBService.cfS3Key :=
       S3Service.generateS3Key (projectId req) (uuidv4 env) sanitizedFileName;
     DynamoDBService.cfUploadedBy := userIdOf req |}.

(** ** Further variations of a request *)

(** The request of another caller. *)
Definition withUserId (userId : option string) (req : Request) : Request :=
  {| reqUserId := userId;
     projectId := projectId req;
     fileId := fileId req;
     qStatus := qStatus req;
     qFileType := qFileType req;
     qLimit := qLimit req;
     qLastKey := qLastKey req;
     qHard := qHard req;
     bName := bName req;
     bDescription := bDescription req;
     bStatus := bStatus req;
     bFileName := bFileName req;
     bFileType := bFileType req;
     bFileSize := bFileSize req |}.

(** The request with another [hard] query parameter. *)
Definition withHard (hard : option string) (req : Request) : Request :=
  {| reqUserId := reqUserId req;
     projectId := projectId req;
     fileId := fileId req;
     qStatus := qStatus req;
     qFileType := qFileType req;
     qLimit := qLimit req;
     qLastKey := qLastKey req;
     qHard := hard;
     bName := bName req;
     bDescription := bDescription req;
     bStatus := bStatus req;
     bFileName := bFileName req;
     bFileType := bFileType req;
     bFileSize := bFileSize req |}.

(** The request with another [limit] query parameter. *)
Definition withLimit (limit : option string) (req : Request) : Request :=
  {| reqUserId := reqUserId req;
     projectId := projectId req;
     fileId := fileId req;
     qStatus := qStatus req;
     qFileType := qFileType req;
     qLimit := limit;
     qLastKey := qLastKey req;
     qHard := qHard req;
     bName := bName req;
     bDescription := bDescription req;
     bStatus := bStatus req;
     bFileName := bFileName req;
     bFileType := bFileType req;
     bFileSize := bFileSize req |}.

(** ** Statement of the claim on the counters

    The claim of C10 on the counters, for one confirm and the project row
    of the owner: when the call succeeds, that row ends with [fileCount]
    one higher and [totalSize] higher by the size of the file. *)
Definition confirmCountsClaim (env : Env) (req : Request) (w : World)
  (owner : string) : Prop :=
  forall (row prow : Item) (size count total : Z) (data : Payload)
         (w' : World),
    table w !! DynamoDBService.fileKey (projectId req) (fileId req)
    = Some row ->
    jsNum (row !! "fileSize") = Some size ->
    table w !! DynamoDBService.projectKey owner (projectId req) = Some prow ->
    prow !! "fileCount" = Some (ANum count) ->
    prow !! "totalSize" = Some (ANum total) ->
    FilesController.confirmUpload env req w
    = (Returns (Success 200 data), w') ->
    exists prow',
      table w' !! DynamoDBService.projectKey owner (projectId req)
      = Some prow'
      /\ prow' !! "fileCount" = Some (ANum (count + 1))
      /\ prow' !! "totalSize" = Some (ANum (total + size)).

(** ** [routes/projects.routes.ts] and [routes/files.routes.ts] *)

Inductive Route :=
| GET_projects
| POST_projects
| GET_project
| PATCH_project
| DELETE_project
| GET_files
| POST_files
| GET_file
| GET_file_metadata
| POST_file_confirm
| DELETE_file.

Definition dispatch (r : Route) : Env -> Request -> M Response :=
  match r with
  | GET_projects => ProjectsController.listProjects
  | POST_projects => ProjectsController.createProject
  | GET_project => ProjectsController.getProject
  | PATCH_project => ProjectsController.updateProject
  | DELETE_project => ProjectsController.deleteProject
  | GET_files => FilesController.listFiles
  | POST_files => FilesController.requestUpload
  | GET_file => FilesController.getDownloadUrl
  | GET_file_metadata => FilesController.getFileMetadata
  | POST_file_confirm => FilesController.confirmUpload
  | DELETE_file => FilesController.deleteFile
  end.

(** What happens to the stores over time: a request is served, on its own
    platform, or a client puts an object at a key (through a presigned URL
    or otherwise). *)
Inductive Event :=
| Api (r : Route) (env : Env) (req : Request)
| ClientPut (s3Key : string).

Definition happen (w : World) (e : Event) : World :=
  match e with
  | Api r env req => snd (dispatch r env req w)
  | ClientPut k => setBucket ({[ k ]} ∪ bucket w) w
  end.

Definition run (es : list Event) (w : World) : World :=
  fold_left happen es w.

(** ** Shape of the rows *)



(** A project row as [createProject] writes it and as the updates leave
    it. *)
Record ProjectRowOk (u p : string) (row : Item) : Prop := {
  projectRow_key : Ddb.keyOf row = Some (DynamoDBService.projectKey u p);
  projectRow_owner : row !! "ownerId" = Some (AStr u);
  projectRow_projectId : row !! "projectId" = Some (AStr p);
  projectRow_name :
    exists name,
      row !! "name" = Some (AStr name) /\ 1 <= JS.length name <= 100;
  projectRow_status : exists status, row !! "status" = Some (AStr status);
  projectRow_counters :
    exists count total,
      row !! "fileCount" = Some (ANum count)
      /\ row !! "totalSize" = Some (ANum total)
}.

(** What a history keeps of the project row [row] stored under [k]: the
    row stays, only six of its fields move, and [deleted] is final. *)
Definition projectRowKept (k : Key) (row : Item) (t : Table) : Prop :=
  exists row',
    t !! k = Some row'
    /\ (forall a,
          a <> "name" -> a <> "description" -> a <> "status"
          -> a <> "updatedAt" -> a <> "fileCount" -> a <> "totalSize"
          -> row' !! a = row !! a)
    /\ (statusIs "deleted" row = true -> statusIs "deleted" row' = true).

(** The writes that the handlers make to the table, one at a time. *)
Inductive Write (t : Table) : Table -> Prop :=
| WriteFileCreated (env : Env) (req : Request) :
    validateUploadRequest env (bFileName req) (bFileType req) (bFileSize req)
    = None ->
    DynamoDBService.notExists
      (t !! DynamoDBService.fileKey (projectId req) (uuidv4 env)) = true ->
    Write t
      (<[DynamoDBService.fileKey (projectId req) (uuidv4 env)
         := DynamoDBService.fileItem env (uploadMetadata env req)]> t)
| WriteProjectCreated (env : Env) (u p name : string)
    (description : option string) :
    1 <= JS.length name <= 100 ->
    DynamoDBService.notExists (t !! DynamoDBService.projectKey u p) = true ->
    Write t
      (<[DynamoDBService.projectKey u p
         := DynamoDBService.projectItem env u p name description]> t)
| WriteFileStatus (p f s : string) (row : Item) :
    t !! DynamoDBService.fileKey p f = Some row ->
    s = "uploaded" \/ s = "deleted" ->
    Write t (<[DynamoDBService.fileKey p f := <["status" := AStr s]> row]> t)
| WriteFileRemoved (p f : string) :
    Write t (base.delete (DynamoDBService.fileKey p f) t)
| WriteProjectUpdated (env : Env) (u p : string) (row : Item)
    (updates : DynamoDBService.ProjectUpdates) :
    t !! DynamoDBService.projectKey u p = Some row ->
    statusIs "deleted" row = false ->
    match DynamoDBService.puName updates with
    | Some n => 1 <= JS.length n <= 100
    | None => True
    end ->
    Write t
      (<[DynamoDBService.projectKey u p
         := Ddb.assign row (updateValues env updates)]> t)
| WriteCounters (env : Env) (u p : string) (prow : Item)
    (count total : Z) (newCount newTotal : Z) :
    t !! DynamoDBService.projectKey u p = Some prow ->
    prow !! "fileCount" = Some (ANum count) ->
    prow !! "totalSize" = Some (ANum total) ->
    Write t
      (<[DynamoDBService.projectKey u p
         := adjusted env prow newCount newTotal]> t).
(** ** Histories of the scenario *)

(** The stores after the upload of the scenario was confirmed: the file
    is counted. *)
Definition confirmedWorld : World :=
  snd (FilesController.confirmUpload demoEnv demoRequest storedWorld).

(** The upload flow from empty stores: the project is created, the upload
    is requested, the client puts the object, the upload is confirmed. *)
Definition uploadHistory : list Event :=
  [ Api POST_projects demoEnv demoRequest;
    Api POST_files uploadEnv demoRequest;
    ClientPut (DynamoDBService.cfS3Key demoFile);
    Api POST_file_confirm demoEnv demoRequest ].

(** The stores after the project of the scenario was deleted. *)
Definition deletedProjectWorld : World :=
  snd (ProjectsController.deleteProject demoEnv demoRequest confirmedWorld).

(** The row of the deleted project. *)
Definition deletedProjectRow : Item :=
  <["status" := AStr "deleted"]>
    (adjusted demoEnv
       (DynamoDBService.projectItem demoEnv "alice" "7d9f1c2e" "Site plans"
          None) 1 2048).

(** A PATCH that asks for the status [active]. *)
Definition reviveRequest : Request :=
  {| reqUserId := Some "alice";
     projectId := "7d9f1c2e";
     fileId := "";
     qStatus := None;
     qFileType := None;
     qLimit := None;
     qLastKey := None;
     qHard := None;
     bName := None;
     bDescription := None;
     bStatus := Some "active";
     bFileName := None;
     bFileType := None;
     bFileSize := None |}.

(** Attempts on the deleted project: a PATCH to revive it, a second
    creation under the same identity, and the delete of its file. *)
Definition reviveHistory : list Event :=
  [ Api PATCH_project demoEnv reviveRequest;
    Api POST_projects demoEnv demoRequest;
    Api DELETE_file demoEnv demoRequest ].

(** * Properties *)

(** ** File names *)

Section FileNames.

Lemma inClass_underscore : inClass underscore = true.
Proof. reflexivity. Qed.

Lemma replaceSpecial_inClass (s : list ascii) :
  Forall (fun c => inClass c = true) (replaceSpecial s).
Proof.
  unfold replaceSpecial. induction s as [|c r IH]; simpl.
  - constructor.
  - constructor; [|exact IH].
    destruct (inClass c) eqn:E; [exact E | exact inClass_underscore].
Qed.

Lemma replaceSpecial_length (s : list ascii) :
  List.length (replaceSpecial s) = List.length s.
Proof. unfold replaceSpecial. apply length_map. Qed.

Lemma collapseUnderscores_Forall (P : ascii -> Prop) (s : list ascii) :
  Forall P s -> Forall P (collapseUnderscores s).
Proof.
  induction s as [|c r IH]; intros H; simpl; [constructor|].
  inversion H as [|? ? Hc Hr]; subst.
  destruct (Ascii.eqb c underscore).
  - destruct r as [|d r']; [constructor; [exact Hc | constructor]|].
    destruct (Ascii.eqb d underscore).
    + apply IH, Hr.
    + constructor; [exact Hc | apply IH, Hr].
  - constructor; [exact Hc | apply IH, Hr].
Qed.

Lemma firstn_Forall (P : ascii -> Prop) (n : nat) (s : list ascii) :
  Forall P s -> Forall P (firstn n s).
Proof.
  revert s. induction n as [|n IH]; intros s H; simpl; [constructor|].
  destruct s as [|c r]; [constructor|].
  inversion H; subst. constructor; auto.
Qed.

Lemma sanitizedStem_inClass (f : list ascii) :
  Forall (fun c => inClass c = true) (sanitizedStem f).
Proof.
  unfold sanitizedStem.
  apply firstn_Forall, collapseUnderscores_Forall, replaceSpecial_inClass.
Qed.

Lemma sanitizedStem_length (f : list ascii) :
  (List.length (sanitizedStem f) <= 200)%nat.
Proof. unfold sanitizedStem. apply firstn_le_length. Qed.

(** No code unit is an upper-case letter after [toLowerCase]. *)
Lemma lowerChar_not_upper (c : ascii) :
  JS.isUpperAZ (JS.lowerChar c) || JS.isUpperLatin1 (JS.lowerChar c) = false.
Proof.
  destruct c as [[] [] [] [] [] [] [] []]; vm_compute; reflexivity.
Qed.

Lemma toLowerCase_not_upper (s : list ascii) :
  Forall (fun c => JS.isUpperAZ c || JS.isUpperLatin1 c = false)
    (JS.toLowerCase s).
Proof.
  unfold JS.toLowerCase. induction s; simpl; constructor; auto.
  apply lowerChar_not_upper.
Qed.

Lemma list_ascii_string_roundtrip (l : list ascii) :
  list_ascii_of_string (string_of_list_ascii l) = l.
Proof. apply list_ascii_of_string_of_list_ascii. Qed.

(** *** The loop of [extname] on a name without separator *)

Lemma extMark_startDot i st : Path.startDot (extMark i st) = Path.startDot st.
Proof. unfold extMark. destruct (_ =? _); reflexivity. Qed.

Lemma extMark_end_set i st : Path.eEnd (extMark i st) <> -1.
Proof.
  unfold extMark. destruct (Path.eEnd st =? -1) eqn:E; simpl.
  - lia.
  - apply Z.eqb_neq, E.
Qed.

Lemma extMark_idem i j st : extMark j (extMark i st) = extMark i st.
Proof.
  unfold extMark at 1. 
  destruct (Path.eEnd (extMark i st) =? -1) eqn:E; [|reflexivity].
  apply Z.eqb_eq in E. destruct (extMark_end_set i st E).
Qed.

Lemma extnameLoop_plain (p : list ascii) (i : nat) (st : Path.ExtState) :
  notSlash (JS.charAt p i) -> notDot (JS.charAt p i) ->
  Path.startDot st = -1 ->
  Path.extnameLoop p (S i) st = Path.extnameLoop p i (extMark i st).
Proof.
  intros Hs Hd Hst. simpl. rewrite Hs, Hd.
  fold (extMark i st). rewrite extMark_startDot, Hst. reflexivity.
Qed.

Lemma extnameLoop_plain_run (p : list ascii) (k n : nat) (st : Path.ExtState) :
  (forall j, (n <= j < n + k)%nat ->
             notSlash (JS.charAt p j) /\ notDot (JS.charAt p j)) ->
  Path.startDot st = -1 ->
  Path.extnameLoop p (n + k) st
  = Path.extnameLoop p n
      (match k with O => st | S k' => extMark (n + k') st end).
Proof.
  revert st. induction k as [|k IH]; intros st H Hst.
  - rewrite Nat.add_0_r. reflexivity.
  - replace (n + S k)%nat with (S (n + k)) by lia.
    destruct (H (n + k)%nat) as [Hs Hd]; [lia|].
    rewrite extnameLoop_plain by assumption.
    rewrite IH; [| intros j Hj; apply H; lia | rewrite extMark_startDot; exact Hst].
    destruct k; [reflexivity|]. rewrite extMark_idem. reflexivity.
Qed.

Lemma isDot_notSlash c : Path.isDot c = true -> Path.isSlash c = false.
Proof.
  unfold Path.isDot, Path.isSlash. intros H. apply Z.eqb_eq in H.
  apply Z.eqb_neq. lia.
Qed.

Lemma extnameLoop_first_dot (p : list ascii) (i : nat) (st : Path.ExtState) :
  Path.isDot (JS.charAt p i) = true ->
  Path.startDot st = -1 ->
  Path.extnameLoop p (S i) st
  = Path.extnameLoop p i (extSetDot i (extMark i st)).
Proof.
  intros Hd Hst. simpl. rewrite (isDot_notSlash _ Hd), Hd.
  fold (extMark i st). rewrite extMark_startDot, Hst. reflexivity.
Qed.

(** After the dot was found: every further character only sets preDotState. *)
Lemma extnameLoop_before_dot (p : list ascii) (n : nat) (st : Path.ExtState) :
  (forall j, (j < S n)%nat -> notSlash (JS.charAt p j)) ->
  Path.startDot st <> -1 ->
  Path.eEnd st <> -1 ->
  Path.extnameLoop p (S n) st
  = extSetPre (if Path.isDot (JS.charAt p 0) then 1 else -1) st.
Proof.
  revert st. induction n as [|n IH]; intros st Hs Hdot Hend.
  - simpl. rewrite (Hs 0%nat) by lia.
    apply Z.eqb_neq in Hend, Hdot. rewrite Hend, Hdot. simpl.
    destruct (Path.isDot (JS.charAt p 0)); [|destruct st; reflexivity].
    destruct (Path.preDotState st =? 1) eqn:E; simpl.
    + apply Z.eqb_eq in E. destruct st; simpl in *. subst. reflexivity.
    + destruct st; reflexivity.
  - change (Path.extnameLoop p (S (S n)) st) with
      (let c := JS.charAt p (S n) in
       if Path.isSlash c then
         if negb (Path.matchedSlash st) then
           {| Path.startDot := Path.startDot st;
              Path.startPart := Z.of_nat (S n) + 1;
              Path.eEnd := Path.eEnd st;
              Path.matchedSlash := Path.matchedSlash st;
              Path.preDotState := Path.preDotState st |}
         else Path.extnameLoop p (S n) st
       else
         let st1 := extMark (S n) st in
         let st2 :=
           if Path.isDot c then
             if Path.startDot st1 =? -1 then extSetDot (S n) st1
             else if negb (Path.preDotState st1 =? 1) then extSetPre 1 st1
             else st1
           else if negb (Path.startDot st1 =? -1) then extSetPre (-1) st1
           else st1 in
         Path.extnameLoop p (S n) st2).
    cbv zeta. rewrite (Hs (S n)) by lia.
    assert (extMark (S n) st = st) as ->.
    { unfold extMark. apply Z.eqb_neq in Hend. rewrite Hend. reflexivity. }
    pose proof Hdot as Hdot'. apply Z.eqb_neq in Hdot'. rewrite Hdot'. simpl negb.
    assert (forall v, Path.extnameLoop p (S n) (extSetPre v st)
                      = extSetPre (if Path.isDot (JS.charAt p 0) then 1 else -1) st) as Hv.
    { intros v. rewrite IH; [reflexivity | intros j Hj; apply Hs; lia | exact Hdot | exact Hend]. }
    destruct (Path.isDot (JS.charAt p (S n))).
    + destruct (Path.preDotState st =? 1); simpl negb; cbv iota.
      * apply IH; [intros j Hj; apply Hs; lia | exact Hdot | exact Hend].
      * apply Hv.
    + apply Hv.
Qed.

Lemma charAt_app_r (s t : list ascii) (j : nat) :
  JS.charAt (s ++ t) (List.length s + j) = JS.charAt t j.
Proof.
  unfold JS.charAt. rewrite List.app_nth2 by lia.
  replace (List.length s + j - List.length s)%nat with j by lia. reflexivity.
Qed.

Lemma charAt_app_l (s t : list ascii) (j : nat) :
  (j < List.length s)%nat -> JS.charAt (s ++ t) j = JS.charAt s j.
Proof. intros H. unfold JS.charAt. apply List.app_nth1, H. Qed.

Lemma charAt_Forall (P : ascii -> Prop) (s : list ascii) (j : nat) :
  Forall P s -> (j < List.length s)%nat -> P (JS.charAt s j).
Proof.
  intros H Hj. rewrite List.Forall_forall in H. apply H.
  unfold JS.charAt. apply List.nth_In, Hj.
Qed.

Lemma slice_app_r (s t : list ascii) :
  JS.slice (s ++ t) (Z.of_nat (List.length s))
    (Z.of_nat (List.length (s ++ t))) = t.
Proof.
  unfold JS.slice. rewrite Nat2Z.id.
  rewrite List.skipn_app, List.skipn_all, Nat.sub_diag. simpl.
  rewrite List.length_app.
  replace (Z.to_nat (Z.of_nat (List.length s + List.length t)
                     - Z.of_nat (List.length s))) with (List.length t) by lia.
  apply List.firstn_all.
Qed.

(** The state in which [extname] leaves its loop on [s ++ "." ++ e]. *)
Lemma extnameLoop_stem_dot_ext (s e : list ascii) :
  s <> [] ->
  Forall notSlash s -> Forall notSlash e -> Forall notDot e ->
  let p := (s ++ "."%char :: e)%list in
  let st := Path.extnameLoop p (List.length p) extInit in
  Path.startDot st = Z.of_nat (List.length s)
  /\ Path.eEnd st = Z.of_nat (List.length p)
  /\ Path.startPart st = 0
  /\ Path.preDotState st = (if Path.isDot (JS.charAt s 0) then 1 else -1).
Proof.
  intros Hne Hs He Hd p st. subst st.
  assert (List.length p = (S (List.length s) + List.length e)%nat) as Hlen.
  { unfold p. rewrite List.length_app. simpl. lia. }
  rewrite Hlen.
  rewrite extnameLoop_plain_run; [| |reflexivity].
  2:{ intros j Hj. unfold p.
      replace j with (List.length s + S (j - S (List.length s)))%nat by lia.
      rewrite charAt_app_r. simpl.
      assert (j - S (Datatypes.length s) < Datatypes.length e)%nat by lia.
      change (JS.charAt ("."%char :: e) (S (j - S (List.length s))))
        with (JS.charAt e (j - S (List.length s))).
      split; apply charAt_Forall; assumption. }
  assert (Path.isDot (JS.charAt p (List.length s)) = true) as Hdot.
  { pose proof (charAt_app_r s ("."%char :: e) 0) as H0.
    rewrite Nat.add_0_r in H0. unfold p. rewrite H0. reflexivity. }
  rewrite extnameLoop_first_dot;
    [|exact Hdot | destruct (List.length e); [reflexivity|apply extMark_startDot]].
  destruct s as [|c s']; [contradiction|]. simpl List.length.
  rewrite extnameLoop_before_dot.
  - assert (JS.charAt p 0 = c) as -> by reflexivity.
    simpl. repeat split.
    + destruct (List.length e) eqn:El; unfold extMark, extInit; simpl; lia.
    + destruct (List.length e); reflexivity.
  - intros j Hj. unfold p. rewrite charAt_app_l by (simpl; lia).
    apply charAt_Forall; [exact Hs | simpl; lia].
  - simpl. lia.
  - simpl. apply extMark_end_set.
Qed.

Lemma isDot_eq (c : ascii) : Path.isDot c = true -> c = "."%char.
Proof.
  destruct c as [[] [] [] [] [] [] [] []]; vm_compute; intros H;
    first [reflexivity | discriminate H].
Qed.

Lemma extname_stem_dot_ext (s e : list ascii) :
  s <> [] ->
  Forall notSlash s -> Forall notSlash e -> Forall notDot e ->
  ~ (s = ["."%char] /\ e = []) ->
  Path.extname (s ++ "."%char :: e) = "."%char :: e.
Proof.
  intros Hne Hs He Hd Hdots. unfold Path.extname.
  destruct (extnameLoop_stem_dot_ext s e Hne Hs He Hd)
    as (Hsd & Hend & Hsp & Hpre).
  fold extInit. cbv zeta in Hsd, Hend, Hsp, Hpre.
  rewrite Hsd, Hend, Hsp, Hpre.
  assert ((Z.of_nat (List.length s) =? -1) = false) as -> by (apply Z.eqb_neq; lia).
  assert ((Z.of_nat (List.length (s ++ "."%char :: e)) =? -1) = false) as ->
    by (apply Z.eqb_neq; lia).
  assert (((if Path.isDot (JS.charAt s 0) then 1 else -1) =? 0) = false) as ->
    by (destruct (Path.isDot (JS.charAt s 0)); reflexivity).
  simpl orb.
  destruct (((if Path.isDot (JS.charAt s 0) then 1 else -1) =? 1)
            && (Z.of_nat (List.length s)
                =? Z.of_nat (List.length (s ++ "."%char :: e)) - 1)
            && (Z.of_nat (List.length s) =? 0 + 1)) eqn:E.
  - exfalso. apply andb_true_iff in E as [E E3].
    apply andb_true_iff in E as [E1 E2].
    apply Z.eqb_eq in E2, E3. rewrite List.length_app in E2. simpl in E2.
    destruct s as [|c [|c' s']]; simpl in *; try lia.
    destruct e; simpl in *; [|lia].
    apply Hdots. split; [|reflexivity].
    unfold JS.charAt in E1. simpl in E1.
    destruct (Path.isDot c) eqn:Ec; [|vm_compute in E1; discriminate E1].
    rewrite (isDot_eq c Ec). reflexivity.
  - apply slice_app_r.
Qed.

Lemma extname_no_dot (p : list ascii) :
  Forall notSlash p -> Forall notDot p -> Path.extname p = [].
Proof.
  intros Hs Hd. unfold Path.extname. fold extInit.
  pose proof (extnameLoop_plain_run p (List.length p) 0 extInit) as H.
  simpl in H. rewrite H; [| |reflexivity].
  - destruct (List.length p); reflexivity.
  - intros j Hj. split; apply charAt_Forall; try assumption; lia.
Qed.

Lemma extname_leading_dot (q : list ascii) :
  Forall notSlash q -> Forall notDot q -> Path.extname ("."%char :: q) = [].
Proof.
  intros Hs Hd. unfold Path.extname. fold extInit.
  change (List.length ("."%char :: q)) with (1 + List.length q)%nat.
  rewrite extnameLoop_plain_run; [| |reflexivity].
  - rewrite extnameLoop_first_dot;
      [|reflexivity | destruct (List.length q); [reflexivity|apply extMark_startDot]].
    simpl. destruct (List.length q); reflexivity.
  - intros j Hj. destruct j as [|j]; [lia|].
    change (JS.charAt ("."%char :: q) (S j)) with (JS.charAt q j).
    split; apply charAt_Forall; try assumption; lia.
Qed.

Lemma last_dot_split (p : list ascii) :
  Forall notDot p
  \/ exists s e, p = (s ++ "."%char :: e)%list /\ Forall notDot e.
Proof.
  induction p as [|c r IH]; [left; constructor|].
  destruct IH as [Hr | (s & e & -> & He)].
  - destruct (Path.isDot c) eqn:Ec.
    + right. exists [], r. rewrite (isDot_eq c Ec). auto.
    + left. constructor; assumption.
  - right. exists (c :: s), e. auto.
Qed.

(** What [extname] returns on a name without separator. *)
Lemma extname_cases (p : list ascii) :
  Forall notSlash p ->
  (Path.extname p = []
   /\ (Forall notDot p
       \/ (exists q, p = "."%char :: q /\ Forall notDot q)
       \/ p = ["."%char; "."%char]))
  \/ (exists s e,
         p = (s ++ "."%char :: e)%list /\ s <> [] /\ Forall notDot e
         /\ ~ (s = ["."%char] /\ e = [])
         /\ Path.extname p = "."%char :: e).
Proof.
  intros Hs. destruct (last_dot_split p) as [Hd | (s & e & -> & He)].
  - left. split; [apply extname_no_dot; assumption | auto].
  - apply Forall_app in Hs as [Hs1 Hs2]. inversion Hs2; subst.
    destruct s as [|c s'].
    + left. split; [apply extname_leading_dot; assumption|].
      right. left. eauto.
    + destruct (decide ((c :: s') = ["."%char] /\ e = [])) as [[E1 E2]|Hn].
      * left. rewrite E1, E2. split; [reflexivity | auto].
      * right. exists (c :: s'), e. repeat split; try assumption.
        -- discriminate.
        -- apply extname_stem_dot_ext; try assumption. discriminate.
Qed.

(** *** [basename] *)

Lemma slice_Forall (P : ascii -> Prop) (p : list ascii) (start stop : Z) :
  0 <= start -> stop <= Z.of_nat (List.length p) ->
  (forall j, start <= Z.of_nat j < stop -> P (JS.charAt p j)) ->
  Forall P (JS.slice p start stop).
Proof.
  intros H0 Hlen H. apply List.Forall_forall. intros x Hx.
  unfold JS.slice in Hx.
  apply (List.In_nth _ _ "000"%char) in Hx as (i & Hi & <-).
  rewrite List.length_firstn, List.length_skipn in Hi.
  rewrite List.nth_firstn.
  destruct (Nat.ltb_spec i (Z.to_nat (stop - start))); [|lia].
  rewrite List.nth_skipn. apply H. lia.
Qed.

Lemma basenameLoop_range (p : list ascii) (n : nat) (stop : Z) (ms : bool) :
  (n <= List.length p)%nat ->
  (ms = true /\ stop = -1)
  \/ (ms = false /\ Z.of_nat n <= stop <= Z.of_nat (List.length p)
      /\ forall j, Z.of_nat n <= Z.of_nat j < stop -> notSlash (JS.charAt p j)) ->
  let '(start', stop', _) := Path.basenameLoop p n (0, stop, ms) in
  stop' = -1
  \/ (0 <= start' /\ stop' <= Z.of_nat (List.length p)
      /\ forall j, start' <= Z.of_nat j < stop' -> notSlash (JS.charAt p j)).
Proof.
  revert stop ms. induction n as [|n IH]; intros stop ms Hn Hinv.
  - simpl. destruct Hinv as [[_ ->]|(_ & Hr & Hc)]; [left; reflexivity|].
    right. split; [lia|]. split; [lia|]. intros j Hj. apply Hc. lia.
  - simpl. destruct (Path.isSlash (JS.charAt p n)) eqn:Ec.
    + destruct Hinv as [[-> ->]|(-> & Hr & Hc)]; simpl.
      * apply IH; [lia | left; auto].
      * right. split; [lia|]. split; [lia|]. intros j Hj. apply Hc. lia.
    + destruct Hinv as [[-> ->]|(-> & Hr & Hc)]; simpl.
      * apply IH; [lia|]. right. split; [reflexivity|]. split; [lia|].
        intros j Hj. assert (j = n) as -> by lia. exact Ec.
      * assert ((stop =? -1) = false) as -> by (apply Z.eqb_neq; lia).
        apply IH; [lia|]. right. split; [reflexivity|]. split; [lia|].
        intros j Hj. destruct (decide (j = n)) as [->|]; [exact Ec|].
        apply Hc. lia.
Qed.

Lemma basename_notSlash (f : list ascii) : Forall notSlash (Path.basename f).
Proof.
  unfold Path.basename.
  pose proof (basenameLoop_range f (List.length f) (-1) true
                (Nat.le_refl _) (or_introl (conj eq_refl eq_refl))) as H.
  destruct (Path.basenameLoop f (List.length f) (0, -1, true))
    as [[start stop] ms].
  destruct (stop =? -1) eqn:E; [constructor|].
  apply Z.eqb_neq in E. destruct H as [H|(H0 & Hl & Hc)]; [contradiction|].
  apply slice_Forall; assumption.
Qed.

Lemma basenameLoop_noSlash (p : list ascii) (n : nat) (start stop : Z)
  (ms : bool) :
  (forall j, (j < n)%nat -> notSlash (JS.charAt p j)) ->
  exists ms',
    Path.basenameLoop p n (start, stop, ms)
    = (start,
       if stop =? -1 then match n with O => -1 | S _ => Z.of_nat n end
       else stop,
       ms').
Proof.
  revert stop ms. induction n as [|n IH]; intros stop ms H.
  - exists ms. simpl. destruct (stop =? -1) eqn:E; [|reflexivity].
    apply Z.eqb_eq in E. subst. reflexivity.
  - simpl. rewrite (H n) by lia.
    destruct (stop =? -1) eqn:E.
    + destruct (IH (Z.of_nat n + 1) false) as [ms' ->];
        [intros j Hj; apply H; lia|].
      exists ms'. assert ((Z.of_nat n + 1 =? -1) = false) as ->
          by (apply Z.eqb_neq; lia).
      f_equal. f_equal. lia.
    + destruct (IH stop ms) as [ms' ->]; [intros j Hj; apply H; lia|].
      exists ms'. rewrite E. reflexivity.
Qed.

Lemma slice_all (p : list ascii) :
  JS.slice p 0 (Z.of_nat (List.length p)) = p.
Proof. apply (slice_app_r [] p). Qed.

Lemma basename_noSlash (p : list ascii) :
  Forall notSlash p -> Path.basename p = p.
Proof.
  intros H. unfold Path.basename.
  destruct (basenameLoop_noSlash p (List.length p) 0 (-1) true) as [ms' ->].
  - intros j Hj. apply charAt_Forall; assumption.
  - destruct p as [|c r]; [reflexivity|].
    change (-1 =? -1) with true. cbv iota.
    change (match List.length (c :: r) with
            | O => -1
            | S _ => Z.of_nat (List.length (c :: r))
            end) with (Z.of_nat (List.length (c :: r))).
    assert ((Z.of_nat (List.length (c :: r)) =? -1) = false) as ->
      by (apply Z.eqb_neq; lia).
    apply slice_all.
Qed.

(** *** [basename] with a suffix *)

Lemma suffixLoop_rest (p x : list ascii) (n : nat) (st : Path.SuffixState) :
  (forall j, (j < n)%nat -> notSlash (JS.charAt p j)) ->
  Path.sExtIdx st = -1 ->
  Path.sFirstNonSlashEnd st <> -1 ->
  Path.basenameSuffixLoop p x n st = st.
Proof.
  intros H Hidx Hfn. induction n as [|n IH]; [reflexivity|].
  simpl. rewrite (H n) by lia.
  apply Z.eqb_neq in Hfn. rewrite Hfn, Hidx. simpl.
  apply IH. intros j Hj. apply H. lia.
Qed.

Lemma suffixLoop_match (s x : list ascii) (k : nat) (st : Path.SuffixState) :
  (k < List.length x)%nat ->
  Forall notSlash x ->
  Path.sExtIdx st = Z.of_nat k ->
  Path.basenameSuffixLoop (s ++ x) x (List.length s + S k) st
  = Path.basenameSuffixLoop (s ++ x) x (List.length s)
      {| Path.sStart := Path.sStart st;
         Path.sEnd := Z.of_nat (List.length s);
         Path.sMatchedSlash :=
           if Path.sFirstNonSlashEnd st =? -1 then false
           else Path.sMatchedSlash st;
         Path.sExtIdx := -1;
         Path.sFirstNonSlashEnd :=
           if Path.sFirstNonSlashEnd st =? -1
           then Z.of_nat (List.length s + k) + 1
           else Path.sFirstNonSlashEnd st |}.
Proof.
  revert st. induction k as [|k IH]; intros st Hk Hx Hidx.
  - replace (List.length s + 1)%nat with (S (List.length s)) by lia.
    simpl Path.basenameSuffixLoop.
    pose proof (charAt_app_r s x 0) as Hc. rewrite Nat.add_0_r in Hc.
    rewrite Hc.
    rewrite (charAt_Forall notSlash x 0 Hx) by lia.
    rewrite Nat.add_0_r.
    destruct (Path.sFirstNonSlashEnd st =? -1) eqn:E; simpl;
      rewrite Hidx; simpl; rewrite Ascii.eqb_refl; simpl; reflexivity.
  - replace (List.length s + S (S k))%nat with (S (List.length s + S k))
      by lia.
    simpl Path.basenameSuffixLoop.
    rewrite charAt_app_r.
    rewrite (charAt_Forall notSlash x (S k) Hx) by lia.
    assert (forall st1,
               Path.sExtIdx st1 = Z.of_nat (S k) ->
               (if 0 <=? Path.sExtIdx st1
                then
                  if Ascii.eqb (JS.charAt x (S k))
                       (JS.charAt x (Z.to_nat (Path.sExtIdx st1)))
                  then
                    if Path.sExtIdx st1 - 1 =? -1
                    then
                      {| Path.sStart := Path.sStart st1;
                         Path.sEnd := Z.of_nat (List.length s + S k);
                         Path.sMatchedSlash := Path.sMatchedSlash st1;
                         Path.sExtIdx := Path.sExtIdx st1 - 1;
                         Path.sFirstNonSlashEnd := Path.sFirstNonSlashEnd st1 |}
                    else
                      {| Path.sStart := Path.sStart st1;
                         Path.sEnd := Path.sEnd st1;
                         Path.sMatchedSlash := Path.sMatchedSlash st1;
                         Path.sExtIdx := Path.sExtIdx st1 - 1;
                         Path.sFirstNonSlashEnd := Path.sFirstNonSlashEnd st1 |}
                  else
                    {| Path.sStart := Path.sStart st1;
                       Path.sEnd := Path.sFirstNonSlashEnd st1;
                       Path.sMatchedSlash := Path.sMatchedSlash st1;
                       Path.sExtIdx := -1;
                       Path.sFirstNonSlashEnd := Path.sFirstNonSlashEnd st1 |}
                else st1)
               = {| Path.sStart := Path.sStart st1;
                    Path.sEnd := Path.sEnd st1;
                    Path.sMatchedSlash := Path.sMatchedSlash st1;
                    Path.sExtIdx := Z.of_nat k;
                    Path.sFirstNonSlashEnd := Path.sFirstNonSlashEnd st1 |})
      as Hstep.
    { intros st1 H1. rewrite H1.
      assert ((0 <=? Z.of_nat (S k)) = true) as -> by (apply Z.leb_le; lia).
      rewrite Nat2Z.id, Ascii.eqb_refl.
      assert ((Z.of_nat (S k) - 1 =? -1) = false) as ->
        by (apply Z.eqb_neq; lia).
      f_equal. lia. }
    destruct (Path.sFirstNonSlashEnd st =? -1) eqn:E.
    + rewrite Hstep by exact Hidx. rewrite IH; [|lia|exact Hx|reflexivity].
      simpl.
      assert ((Z.of_nat (List.length s + S k) + 1 =? -1) = false) as ->
        by (apply Z.eqb_neq; lia).
      reflexivity.
    + rewrite Hstep by exact Hidx. rewrite IH; [|lia|exact Hx|reflexivity].
      simpl. rewrite E. reflexivity.
Qed.

Lemma listEqb_length (a b : list ascii) :
  List.length a <> List.length b -> Path.listEqb a b = false.
Proof.
  intros H. unfold Path.listEqb. apply String.eqb_neq. intros E.
  apply (f_equal list_ascii_of_string) in E.
  rewrite !list_ascii_of_string_of_list_ascii in E. congruence.
Qed.

Lemma slice_app_l (s t : list ascii) :
  JS.slice (s ++ t) 0 (Z.of_nat (List.length s)) = s.
Proof.
  unfold JS.slice. rewrite Z.sub_0_r, Nat2Z.id.
  change (skipn (Z.to_nat 0) (s ++ t)) with (s ++ t)%list.
  rewrite List.firstn_app, Nat.sub_diag, List.firstn_all. simpl.
  apply List.app_nil_r.
Qed.

Lemma basenameSuffix_strip (s x : list ascii) :
  s <> [] -> x <> [] ->
  Forall notSlash s -> Forall notSlash x ->
  Path.basenameSuffix (s ++ x) x = s.
Proof.
  intros Hs Hx Hns Hnx. unfold Path.basenameSuffix.
  assert (0 < List.length s)%nat by (destruct s; [contradiction | simpl; lia]).
  assert (0 < List.length x)%nat by (destruct x; [contradiction | simpl; lia]).
  rewrite List.length_app.
  assert (((0 <? Z.of_nat (List.length x))
           && (Z.of_nat (List.length x)
               <=? Z.of_nat (List.length s + List.length x))) = true) as ->.
  { apply andb_true_iff. split; [apply Z.ltb_lt | apply Z.leb_le]; lia. }
  rewrite listEqb_length by (rewrite List.length_app; lia).
  replace (List.length s + List.length x)%nat
    with (List.length s + S (List.length x - 1))%nat by lia.
  rewrite suffixLoop_match; [|lia|exact Hnx|simpl; lia].
  rewrite suffixLoop_rest; simpl.
  - destruct (Z.of_nat (List.length s)) eqn:E; try lia.
    change (Z.pos p =? -1) with false. cbv iota.
    rewrite <- E. apply slice_app_l.
  - intros j Hj. rewrite charAt_app_l by exact Hj.
    apply charAt_Forall; assumption.
  - reflexivity.
  - lia.
Qed.

(** *** The extension of a sanitized name *)

Lemma inClass_notSlash (c : ascii) : inClass c = true -> notSlash c.
Proof.
  destruct c as [[] [] [] [] [] [] [] []]; vm_compute; intros H;
    first [reflexivity | discriminate H].
Qed.

Lemma isSlash_lowerChar (c : ascii) :
  Path.isSlash (JS.lowerChar c) = Path.isSlash c.
Proof. destruct c as [[] [] [] [] [] [] [] []]; reflexivity. Qed.

Lemma isDot_lowerChar (c : ascii) :
  Path.isDot (JS.lowerChar c) = Path.isDot c.
Proof. destruct c as [[] [] [] [] [] [] [] []]; reflexivity. Qed.

Lemma toLowerCase_notSlash (s : list ascii) :
  Forall notSlash s -> Forall notSlash (JS.toLowerCase s).
Proof.
  unfold JS.toLowerCase. induction 1; simpl; constructor; auto.
  unfold notSlash. rewrite isSlash_lowerChar. assumption.
Qed.

Lemma toLowerCase_notDot (s : list ascii) :
  Forall notDot s -> Forall notDot (JS.toLowerCase s).
Proof.
  unfold JS.toLowerCase. induction 1; simpl; constructor; auto.
  unfold notDot. rewrite isDot_lowerChar. assumption.
Qed.

Lemma replaceSpecial_notDot (s : list ascii) :
  Forall notDot s -> Forall notDot (replaceSpecial s).
Proof.
  unfold replaceSpecial. induction 1; simpl; constructor; auto.
  destruct (inClass x); [assumption | reflexivity].
Qed.

Lemma sanitize_notSlash (s : list ascii) : Forall notSlash (sanitize s).
Proof.
  unfold sanitize.
  eapply Forall_impl;
    [apply firstn_Forall, collapseUnderscores_Forall, replaceSpecial_inClass|].
  apply inClass_notSlash.
Qed.

Lemma sanitize_notDot (s : list ascii) :
  Forall notDot s -> Forall notDot (sanitize s).
Proof.
  intros H. unfold sanitize.
  apply firstn_Forall, collapseUnderscores_Forall, replaceSpecial_notDot, H.
Qed.

Lemma sanitize_leading_dot (q : list ascii) :
  sanitize ("."%char :: q)
  = "."%char :: firstn 199 (collapseUnderscores (replaceSpecial q)).
Proof. reflexivity. Qed.

Lemma collapseUnderscores_nil (l : list ascii) :
  collapseUnderscores l = [] -> l = [].
Proof.
  induction l as [|a r IH]; [reflexivity|]. simpl.
  destruct (Ascii.eqb a underscore); [|discriminate].
  destruct r as [|d r']; [discriminate|].
  destruct (Ascii.eqb d underscore); [|discriminate].
  intros H. specialize (IH H). discriminate IH.
Qed.

Lemma collapseUnderscores_singleton (l : list ascii) (c : ascii) :
  Ascii.eqb c underscore = false ->
  collapseUnderscores l = [c] -> l = [c].
Proof.
  intros Hc. induction l as [|a r IH]; [discriminate|]. simpl.
  destruct (Ascii.eqb a underscore) eqn:Ea.
  - destruct r as [|d r'].
    + intros [= ->]. congruence.
    + destruct (Ascii.eqb d underscore) eqn:Ed.
      * intros H. specialize (IH H). injection IH as -> ->. congruence.
      * intros [= -> _]. congruence.
  - intros [= -> H]. apply collapseUnderscores_nil in H. subst. reflexivity.
Qed.

Lemma sanitize_nonempty (s : list ascii) : s <> [] -> sanitize s <> [].
Proof.
  intros Hs H. unfold sanitize in H.
  destruct (collapseUnderscores (replaceSpecial s)) as [|a l] eqn:E;
    [|discriminate H].
  apply collapseUnderscores_nil in E.
  destruct s; [contradiction | discriminate E].
Qed.

Lemma sanitize_single_dot (s : list ascii) :
  sanitize s = ["."%char] -> s = ["."%char].
Proof.
  unfold sanitize. intros H.
  assert (collapseUnderscores (replaceSpecial s) = ["."%char]) as Hc.
  { destruct (collapseUnderscores (replaceSpecial s)) as [|a [|b l]];
      [discriminate H | exact H | discriminate H]. }
  apply collapseUnderscores_singleton in Hc; [|reflexivity].
  destruct s as [|x [|y r]]; [discriminate Hc | | discriminate Hc].
  simpl in Hc. injection Hc as Hx.
  destruct (inClass x); [subst; reflexivity | discriminate Hx].
Qed.

Lemma toLowerCase_nil (e : list ascii) : JS.toLowerCase e = [] -> e = [].
Proof. destruct e; [reflexivity | discriminate]. Qed.

(** [path.extname] of the sanitized name is the lower-cased extension of
    the base name. *)
Lemma extname_sanitizeFileName (f : list ascii) :
  Path.extname (sanitizeFileNameChars f) = loweredExt f.
Proof.
  unfold sanitizeFileNameChars, loweredExt.
  pose proof (basename_notSlash f) as HB.
  set (B := Path.basename f) in *.
  destruct (extname_cases B HB)
    as [[-> Hcase] | (s & e & HBeq & Hs & He & Hdots & ->)].
  - (* no extension *)
    assert (Path.basenameSuffix B [] = B) as ->.
    { unfold Path.basenameSuffix. simpl. apply basename_noSlash, HB. }
    simpl JS.toLowerCase. rewrite List.app_nil_r. fold (sanitize B).
    destruct Hcase as [Hd | [(q & -> & Hq) | ->]].
    + apply extname_no_dot; [apply sanitize_notSlash | apply sanitize_notDot, Hd].
    + rewrite sanitize_leading_dot.
      inversion HB; subst.
      apply extname_leading_dot.
      * eapply Forall_impl;
          [apply firstn_Forall, collapseUnderscores_Forall,
             replaceSpecial_inClass|].
        apply inClass_notSlash.
      * apply firstn_Forall, collapseUnderscores_Forall,
          replaceSpecial_notDot, Hq.
    + reflexivity.
  - (* an extension *)
    rewrite HBeq in HB. apply Forall_app in HB as [HBs HBe].
    rewrite HBeq.
    rewrite (basenameSuffix_strip s ("."%char :: e)); try assumption;
      [|discriminate].
    fold (sanitize s).
    change (JS.toLowerCase ("."%char :: e))
      with ("."%char :: JS.toLowerCase e).
    inversion HBe; subst.
    apply extname_stem_dot_ext.
    + apply sanitize_nonempty, Hs.
    + apply sanitize_notSlash.
    + apply toLowerCase_notSlash. assumption.
    + apply toLowerCase_notDot, He.
    + intros [Hsingle Hnil]. apply Hdots. split.
      * apply sanitize_single_dot, Hsingle.
      * apply toLowerCase_nil, Hnil.
Qed.

(** C4, the claim as it is written fails: with an extension that holds
    a space and a stem that holds an upper-case letter, the result of
    [sanitizeFileName] has a character outside [[A-Za-z0-9._-]] and is
    not lower-cased. *)
Lemma sanitizeFileName_not_in_class :
  sanitizeFileName "Report v2.P f" = "Report_v2.p f"
  /\ ~ Forall (fun c => inClass c = true)
         (list_ascii_of_string (sanitizeFileName "Report v2.P f"))
  /\ JS.toLowerCase (list_ascii_of_string (sanitizeFileName "Report v2.P f"))
     <> list_ascii_of_string (sanitizeFileName "Report v2.P f").
Proof.
  split; [reflexivity|]. split.
  - intros H. vm_compute in H.
    repeat match goal with
           | H : Forall _ (_ :: _) |- _ => inversion H; clear H; subst
           end.
    discriminate.
  - vm_compute. discriminate.
Qed.

Lemma lowerChar_idem (c : ascii) :
  JS.lowerChar (JS.lowerChar c) = JS.lowerChar c.
Proof. destruct c as [[] [] [] [] [] [] [] []]; reflexivity. Qed.

Lemma toLowerCase_idem (s : list ascii) :
  JS.toLowerCase (JS.toLowerCase s) = JS.toLowerCase s.
Proof.
  unfold JS.toLowerCase. rewrite List.map_map.
  apply List.map_ext, lowerChar_idem.
Qed.

(** C4 (amended): [sanitizeFileName] returns the sanitized stem followed
    by the lower-cased extension of the base name.  The stem has only
    characters of [[A-Za-z0-9._-]] and at most 200 of them; the appended
    extension is [path.extname] of the base name with no upper-case letter
    left, and it is preserved: it is again the extension of the result, as
    [path.extname] and [getFileExtension] read it.  The name component that
    [generateS3Key] puts into the storage key has only characters of the
    class, whatever name it is given. *)
Theorem sanitizeFileName_stem_and_extension
  (fileName projectId fileId : string) :
  let f := list_ascii_of_string fileName in
  list_ascii_of_string (sanitizeFileName fileName)
    = (sanitizedStem f ++ loweredExt f)%list
  /\ Forall (fun c => inClass c = true) (sanitizedStem f)
  /\ (List.length (sanitizedStem f) <= 200)%nat
  /\ loweredExt f = JS.toLowerCase (Path.extname (Path.basename f))
  /\ Forall (fun c => JS.isUpperAZ c || JS.isUpperLatin1 c = false)
       (loweredExt f)
  /\ Path.extname (list_ascii_of_string (sanitizeFileName fileName))
     = loweredExt f
  /\ getFileExtension (sanitizeFileName fileName)
     = string_of_list_ascii (loweredExt f)
  /\ S3Service.generateS3Key projectId fileId (sanitizeFileName fileName)
     = projectId +:+ "/" +:+ fileId +:+ "/"
       +:+ S3Service.keyName (sanitizeFileName fileName)
  /\ Forall (fun c => inClass c = true)
       (list_ascii_of_string (S3Service.keyName (sanitizeFileName fileName))).
Proof.
  intros f.
  assert (Path.extname (list_ascii_of_string (sanitizeFileName fileName))
          = loweredExt f) as Hext.
  { unfold sanitizeFileName. rewrite list_ascii_string_roundtrip.
    apply extname_sanitizeFileName. }
  split; [|split; [|split; [|split; [|split; [|split; [|split; [|split]]]]]]].
  - unfold sanitizeFileName. rewrite list_ascii_string_roundtrip. reflexivity.
  - apply sanitizedStem_inClass.
  - apply sanitizedStem_length.
  - reflexivity.
  - apply toLowerCase_not_upper.
  - exact Hext.
  - unfold getFileExtension. rewrite Hext. unfold loweredExt.
    rewrite toLowerCase_idem. reflexivity.
  - reflexivity.
  - unfold S3Service.keyName. rewrite list_ascii_string_roundtrip.
    apply replaceSpecial_inClass.
Qed.

End FileNames.

(** ** Page limit *)

Section PageLimit.

Lemma limitOption_le_100 (limit : option string) (n : Z) :
  limitOption limit = Some n -> n <= 100.
Proof.
  unfold limitOption. destruct (truthy limit); [|discriminate].
  intros [= <-]. apply Z.le_min_r.
Qed.

(** C5, the claim as it is written fails: without a [limit] parameter no
    limit at all is handed to the store (not 50), and a negative number
    is handed on as it is (below 1). *)
Lemma limitClaim_fails :
  ~ limitClaim None /\ ~ limitClaim (Some "-5").
Proof.
  split.
  - intros (n & H & _). discriminate H.
  - intros (n & H & Hn & _). vm_compute in H. injection H as <-. lia.
Qed.

(** C5 (amended): both list handlers hand the same [limit] option to
    the store.  Without a [limit] parameter (or with an empty one) it is
    absent; otherwise it is a number of at most 100: 50 when the
    parameter does not parse as a number or parses to 0, and the parsed
    number capped at 100, hence within 1..100, when that number is
    positive. *)
Theorem limit_handed_to_store (env : Env) (req : Request) :
  let l := DynamoDBService.foLimit (FilesController.listOptions env req) in
  DynamoDBService.poLimit (ProjectsController.listOptions env req) = l
  /\ match truthy (qLimit req) with
     | None => l = None
     | Some s =>
         (exists n, l = Some n /\ n <= 100)
         /\ match JS.parseInt s with
            | None => l = Some 50
            | Some k =>
                if 0 <? k then
                  l = Some (Z.min k 100) /\ 1 <= Z.min k 100 <= 100
                else if k =? 0 then l = Some 50
                else True
            end
     end.
Proof.
  simpl. split; [reflexivity|].
  unfold limitOption. destruct (truthy (qLimit req)) as [s|]; [|reflexivity].
  split.
  - eexists. split; [reflexivity | apply Z.le_min_r].
  - destruct (JS.parseInt s) as [k|]; [|reflexivity].
    destruct (0 <? k) eqn:Hpos.
    + apply Z.ltb_lt in Hpos.
      assert ((k =? 0) = false) as -> by (apply Z.eqb_neq; lia).
      split; [reflexivity | lia].
    + destruct (k =? 0); [reflexivity | exact I].
Qed.

End PageLimit.

(** ** Running computations *)

Lemma send_answers {A} (env : Env) (c : Call) (command : M A) (w : World) :
  fault env c = None -> send env c command w = command w.
Proof. intros H. unfold send. rewrite H. reflexivity. Qed.

Lemma send_fails {A} (env : Env) (c : Call) (command : M A) (w : World)
  (e : string) :
  fault env c = Some e -> send env c command w = (Throws e, w).
Proof. intros H. unfold send. rewrite H. reflexivity. Qed.

Lemma bind_returns {A B} (m : M A) (k : A -> M B) (w w' : World) (a : A) :
  m w = (Returns a, w') -> (m ≫= k) w = k a w'.
Proof. intros H. unfold mbind, M_bind. rewrite H. reflexivity. Qed.

Lemma bind_throws {A B} (m : M A) (k : A -> M B) (w w' : World) (e : string) :
  m w = (Throws e, w') -> (m ≫= k) w = (Throws e, w').
Proof. intros H. unfold mbind, M_bind. rewrite H. reflexivity. Qed.

Lemma projectKey_neq_fileKey (userId projectId projectId' fileId : string) :
  DynamoDBService.projectKey userId projectId
  <> DynamoDBService.fileKey projectId' fileId.
Proof.
  unfold DynamoDBService.projectKey, DynamoDBService.fileKey. simpl.
  intros [= H _].
Qed.

(** Unfolding of the service methods and of the monad down to the commands
    of the stores; [unfold_primary] leaves the counter adjustment folded. *)
Ltac unfold_monad :=
  unfold try_catch, throw, mbind, M_bind, mret, M_ret, send in *.

Ltac unfold_primary :=
  unfold DynamoDBService.getFileById, DynamoDBService.getProjectById,
    DynamoDBService.deleteFile, DynamoDBService.updateFileStatus,
    DynamoDBService.hardDeleteFile, DynamoDBService.updateProjectStats,
    DynamoDBService.createProject, DynamoDBService.deleteProject,
    DynamoDBService.updateProject, DynamoDBService.getFilesByProject,
    DynamoDBService.getProjectsByUser,
    S3Service.objectExists, S3Service.deleteObject,
    S3Service.generateDownloadUrl, S3Service.headObject,
    FilesController.withString,
    Ddb.get, Ddb.delete, Ddb.update, Ddb.put in *;
  unfold_monad.

Ltac unfold_services :=
  unfold FilesController.adjustStats in *; unfold_primary.

(** ** Confirming an upload *)

Section Confirm.

Variable env : Env.
Variable req : Request.

#[local] Abbreviation fkey := (DynamoDBService.fileKey (projectId req) (fileId req)).
#[local] Abbreviation pkey :=
  (DynamoDBService.projectKey (userIdOf req) (projectId req)).

(** C2: when the row of the file is [pending] and no object is stored at
    its key, [confirmUpload] answers 400 [VALIDATION_ERROR] and leaves
    both stores as they were: the row is still there, [pending] and with
    every field unchanged. *)
Theorem confirmUpload_object_absent (w : World) (row : Item) (key : string) :
  table w !! fkey = Some row ->
  statusIs "pending" row = true ->
  jsStr (row !! "s3Key") = Some key ->
  key ∉ bucket w ->
  fault env AtGetFileById = None ->
  fault env AtHeadObject = None ->
  FilesController.confirmUpload env req w
  = (Returns (sendError ErrorCodes.VALIDATION_ERROR
                "File has not been uploaded to storage" 400), w)
  /\ table (snd (FilesController.confirmUpload env req w)) !! fkey = Some row
  /\ statusIs "pending"
       <$> table (snd (FilesController.confirmUpload env req w)) !! fkey
     = Some true.
Proof.
  intros Hrow Hpending Hkey Habsent Hget Hhead.
  assert (FilesController.confirmUpload env req w
          = (Returns (sendError ErrorCodes.VALIDATION_ERROR
                        "File has not been uploaded to storage" 400), w))
    as Hrun.
  { unfold FilesController.confirmUpload. unfold_services.
    rewrite Hget, Hrow, Hkey, Hhead.
    destruct (decide (key ∈ bucket w)); [contradiction|]. reflexivity. }
  rewrite Hrun. simpl. rewrite Hrow. simpl. rewrite Hpending. auto.
Qed.

(** One confirm of a file whose row exists and whose object is stored,
    when the project row of the caller holds both counters and the
    services answer. *)
Lemma confirmUpload_step (w : World) (row prow : Item) (key : string)
  (size count total : Z) :
  table w !! fkey = Some row ->
  jsStr (row !! "s3Key") = Some key ->
  key ∈ bucket w ->
  jsNum (row !! "fileSize") = Some size ->
  table w !! pkey = Some prow ->
  prow !! "fileCount" = Some (ANum count) ->
  prow !! "totalSize" = Some (ANum total) ->
  fault env AtGetFileById = None ->
  fault env AtHeadObject = None ->
  fault env AtUpdateFileStatus = None ->
  fault env AtUpdateProjectStats = None ->
  exists w' prow',
    FilesController.confirmUpload env req w
    = (Returns
         (sendSuccess (Row (Some (<["status" := AStr "uploaded"]> row))) 200),
       w')
    /\ table w' !! fkey = Some (<["status" := AStr "uploaded"]> row)
    /\ bucket w' = bucket w
    /\ table w' !! pkey = Some prow'
    /\ prow' !! "fileCount" = Some (ANum (count + 1))
    /\ prow' !! "totalSize" = Some (ANum (total + size)).
Proof.
  intros Hrow Hkey Hin Hsize Hprow Hcount Htotal Hget Hhead Hupd Hstats.
  unfold FilesController.confirmUpload. unfold_services.
  rewrite Hget, Hrow, Hkey, Hhead.
  destruct (decide (key ∈ bucket w)); [|contradiction].
  simpl. rewrite Hupd, Hrow. simpl. rewrite Hsize. unfold_services.
  rewrite Hstats. simpl.
  rewrite lookup_insert_ne by (apply not_eq_sym, projectKey_neq_fileKey).
  rewrite Hprow. simpl. rewrite Hcount, Htotal. simpl.
  eexists _, _. split; [reflexivity|]. simpl.
  repeat split.
  - rewrite lookup_insert_ne by apply projectKey_neq_fileKey.
    apply lookup_insert_eq.
  - apply lookup_insert_eq.
  - unfold Ddb.assign. simpl.
    rewrite lookup_insert_ne by discriminate.
    rewrite lookup_insert_ne by discriminate.
    apply lookup_insert_eq.
  - unfold Ddb.assign. simpl.
    rewrite lookup_insert_ne by discriminate.
    apply lookup_insert_eq.
Qed.

(** Two confirms in a row.  When the row exists, the object is stored,
    the project row of the caller holds both counters and the four
    service calls are answered, the status is overwritten with
    [uploaded] whatever it was and the counters of that project row grow
    by 1 and by the file size; a second confirm of the same file
    succeeds again and adds the same amounts once more. *)
Lemma confirmUpload_twice (w : World) (row prow : Item)
  (key : string) (size count total : Z) :
  table w !! fkey = Some row ->
  jsStr (row !! "s3Key") = Some key ->
  key ∈ bucket w ->
  jsNum (row !! "fileSize") = Some size ->
  table w !! pkey = Some prow ->
  prow !! "fileCount" = Some (ANum count) ->
  prow !! "totalSize" = Some (ANum total) ->
  fault env AtGetFileById = None ->
  fault env AtHeadObject = None ->
  fault env AtUpdateFileStatus = None ->
  fault env AtUpdateProjectStats = None ->
  exists w1 w2 prow1 prow2,
    FilesController.confirmUpload env req w
    = (Returns
         (sendSuccess (Row (Some (<["status" := AStr "uploaded"]> row))) 200),
       w1)
    /\ table w1 !! fkey = Some (<["status" := AStr "uploaded"]> row)
    /\ table w1 !! pkey = Some prow1
    /\ prow1 !! "fileCount" = Some (ANum (count + 1))
    /\ prow1 !! "totalSize" = Some (ANum (total + size))
    /\ FilesController.confirmUpload env req w1
       = (Returns
            (sendSuccess (Row (Some (<["status" := AStr "uploaded"]> row)))
               200), w2)
    /\ table w2 !! fkey = Some (<["status" := AStr "uploaded"]> row)
    /\ table w2 !! pkey = Some prow2
    /\ prow2 !! "fileCount" = Some (ANum (count + 2))
    /\ prow2 !! "totalSize" = Some (ANum (total + 2 * size)).
Proof.
  intros Hrow Hkey Hin Hsize Hprow Hcount Htotal Hget Hhead Hupd Hstats.
  destruct (confirmUpload_step w row prow key size count total)
    as (w1 & prow1 & Hrun1 & Hrow1 & Hb1 & Hprow1 & Hc1 & Ht1); try assumption.
  destruct (confirmUpload_step w1 (<["status" := AStr "uploaded"]> row)
              prow1 key size (count + 1) (total + size))
    as (w2 & prow2 & Hrun2 & Hrow2 & Hb2 & Hprow2 & Hc2 & Ht2);
    try assumption.
  { rewrite lookup_insert_ne by discriminate. exact Hkey. }
  { rewrite Hb1. exact Hin. }
  { rewrite lookup_insert_ne by discriminate. exact Hsize. }
  rewrite insert_insert_eq in Hrun2, Hrow2.
  exists w1, w2, prow1, prow2.
  repeat split; try assumption.
  - rewrite Hc2. do 2 f_equal. lia.
  - rewrite Ht2. do 2 f_equal. lia.
Qed.

End Confirm.

(** ** The counter adjustment and deleting a file *)

Section Frames.

(** Two tables that agree on every row but the one under [pk]. *)
Lemma agree_lookup (pk k : Key) (t1 t2 : Table) :
  base.delete pk t1 = base.delete pk t2 -> k <> pk -> t1 !! k = t2 !! k.
Proof.
  intros H Hne.
  rewrite <- (lookup_delete_ne t1 pk k), <- (lookup_delete_ne t2 pk k)
    by congruence.
  rewrite H. reflexivity.
Qed.

Lemma agree_insert (pk k : Key) (v : Item) (t1 t2 : Table) :
  base.delete pk t1 = base.delete pk t2 ->
  base.delete pk (<[k := v]> t1) = base.delete pk (<[k := v]> t2).
Proof.
  intros H. destruct (decide (pk = k)) as [->|Hne].
  - rewrite !delete_insert_eq. exact H.
  - rewrite !delete_insert_ne by exact Hne. rewrite H. reflexivity.
Qed.

Lemma agree_delete (pk k : Key) (t1 t2 : Table) :
  base.delete pk t1 = base.delete pk t2 ->
  base.delete pk (base.delete k t1) = base.delete pk (base.delete k t2).
Proof.
  intros H. rewrite (delete_delete t1), (delete_delete t2), H.
  reflexivity.
Qed.

(** The counter adjustment never throws, never touches the bucket and
    writes to no row but the project row it addresses. *)
Lemma adjustStats_frame (env : Env) (userId projectId : string)
  (delta : Z) (size : option Z) (w : World) :
  exists w',
    FilesController.adjustStats env userId projectId delta size w
    = (Returns tt, w')
    /\ bucket w' = bucket w
    /\ base.delete (DynamoDBService.projectKey userId projectId) (table w')
       = base.delete (DynamoDBService.projectKey userId projectId) (table w).
Proof.
  unfold FilesController.adjustStats, try_catch.
  destruct size as [n|]; [|exists w; auto].
  unfold_services.
  destruct (fault env AtUpdateProjectStats); [exists w; auto|].
  destruct (Ddb.actionValues _ _); [|exists w; auto].
  eexists. split; [reflexivity|]. simpl. split; [reflexivity|].
  apply delete_insert_eq.
Qed.

End Frames.

Section CounterFailure.

Variable env : Env.
Variable req : Request.

#[local] Abbreviation fkey :=
  (DynamoDBService.fileKey (projectId req) (fileId req)).
#[local] Abbreviation pkey :=
  (DynamoDBService.projectKey (userIdOf req) (projectId req)).

(** Two runs of [confirmUpload] that differ in the fate of the counter
    adjustment only. *)
Lemma confirmUpload_ignores_counter (f1 f2 : option string)
  (w1 w2 : World) :
  bucket w1 = bucket w2 ->
  base.delete pkey (table w1) = base.delete pkey (table w2) ->
  exists resp w1' w2',
    FilesController.confirmUpload
      (withFault AtUpdateProjectStats f1 env) req w1 = (Returns resp, w1')
    /\ FilesController.confirmUpload
         (withFault AtUpdateProjectStats f2 env) req w2 = (Returns resp, w2')
    /\ bucket w1' = bucket w2'
    /\ base.delete pkey (table w1') = base.delete pkey (table w2').
Proof.
  intros Hb Ht.
  assert (table w1 !! fkey = table w2 !! fkey) as Hlk
    by (apply (agree_lookup pkey), not_eq_sym, projectKey_neq_fileKey;
        exact Ht).
  unfold FilesController.confirmUpload. unfold_primary. simpl.
  rewrite Hlk.
  destruct (fault env AtGetFileById); [eauto 10|].
  destruct (table w2 !! fkey) as [row|] eqn:Hrow; [|eauto 10].
  destruct (jsStr (row !! "s3Key")) as [key|]; [|eauto 10].
  destruct (fault env AtHeadObject) as [e|].
  { destruct (String.eqb e "NotFound"); eauto 10. }
  rewrite Hb.
  destruct (decide (key ∈ bucket w2)); [|simpl; eauto 10].
  simpl. destruct (fault env AtUpdateFileStatus); [eauto 10|].
  simpl. rewrite Hlk, Hrow. simpl.
  match goal with
  | |- context [FilesController.adjustStats ?e1 ?u ?p ?d ?s ?wa] =>
      destruct (adjustStats_frame e1 u p d s wa) as (wa' & -> & Hba & Hta)
  end.
  match goal with
  | |- context [FilesController.adjustStats ?e1 ?u ?p ?d ?s ?wa] =>
      destruct (adjustStats_frame e1 u p d s wa) as (wb' & -> & Hbb & Htb)
  end.
  eexists _, _, _. split; [reflexivity|]. split; [reflexivity|].
  simpl in *. split; [congruence|].
  rewrite Hta, Htb. apply agree_insert, Ht.
Qed.

(** Two runs of [deleteFile], soft or hard, that differ in the fate of
    the counter adjustment only. *)
Lemma deleteFile_ignores_counter (f1 f2 : option string) (w1 w2 : World) :
  bucket w1 = bucket w2 ->
  base.delete pkey (table w1) = base.delete pkey (table w2) ->
  exists resp w1' w2',
    FilesController.deleteFile
      (withFault AtUpdateProjectStats f1 env) req w1 = (Returns resp, w1')
    /\ FilesController.deleteFile
         (withFault AtUpdateProjectStats f2 env) req w2 = (Returns resp, w2')
    /\ bucket w1' = bucket w2'
    /\ base.delete pkey (table w1') = base.delete pkey (table w2').
Proof.
  intros Hb Ht.
  assert (table w1 !! fkey = table w2 !! fkey) as Hlk
    by (apply (agree_lookup pkey), not_eq_sym, projectKey_neq_fileKey;
        exact Ht).
  unfold FilesController.deleteFile. unfold_primary. simpl.
  rewrite Hlk.
  destruct (fault env AtGetFileById); [eauto 10|].
  destruct (table w2 !! fkey) as [row|] eqn:Hrow; [|eauto 10].
  destruct (statusIs "deleted" row && negb (FilesController.hardDelete req));
    [eauto 10|].
  destruct (FilesController.hardDelete req).
  - destruct (jsStr (row !! "s3Key")) as [key|]; [|eauto 10].
    destruct (fault env AtDeleteObject); [eauto 10|].
    simpl. destruct (fault env AtHardDeleteFile).
    { eexists _, _, _. split; [reflexivity|]. split; [reflexivity|].
      simpl. split; [congruence | exact Ht]. }
    simpl.
    match goal with
    | |- context [FilesController.adjustStats ?e1 ?u ?p ?d ?s ?wa] =>
        destruct (adjustStats_frame e1 u p d s wa)
          as (wa' & -> & Hba & Hta)
    end.
    match goal with
    | |- context [FilesController.adjustStats ?e1 ?u ?p ?d ?s ?wa] =>
        destruct (adjustStats_frame e1 u p d s wa)
          as (wb' & -> & Hbb & Htb)
    end.
    eexists _, _, _. split; [reflexivity|]. split; [reflexivity|].
    simpl in *. split; [congruence|].
    rewrite Hta, Htb. apply agree_delete, Ht.
  - destruct (fault env AtUpdateFileStatus); [eauto 10|].
    simpl. rewrite Hlk, Hrow. simpl.
    match goal with
    | |- context [FilesController.adjustStats ?e1 ?u ?p ?d ?s ?wa] =>
        destruct (adjustStats_frame e1 u p d s wa)
          as (wa' & -> & Hba & Hta)
    end.
    match goal with
    | |- context [FilesController.adjustStats ?e1 ?u ?p ?d ?s ?wa] =>
        destruct (adjustStats_frame e1 u p d s wa)
          as (wb' & -> & Hbb & Htb)
    end.
    eexists _, _, _. split; [reflexivity|]. split; [reflexivity|].
    simpl in *. split; [congruence|].
    rewrite Hta, Htb. apply agree_insert, Ht.
Qed.

(** Once the status was written, [confirmUpload] answers 200 with the
    updated row whatever happens to the counter adjustment. *)
Lemma confirmUpload_succeeds_whatever_counter (f : option string)
  (w : World) (row : Item) (key : string) :
  table w !! fkey = Some row ->
  jsStr (row !! "s3Key") = Some key ->
  key ∈ bucket w ->
  fault env AtGetFileById = None ->
  fault env AtHeadObject = None ->
  fault env AtUpdateFileStatus = None ->
  exists w',
    FilesController.confirmUpload (withFault AtUpdateProjectStats f env) req w
    = (Returns
         (sendSuccess (Row (Some (<["status" := AStr "uploaded"]> row))) 200),
       w')
    /\ table w' !! fkey = Some (<["status" := AStr "uploaded"]> row).
Proof.
  intros Hrow Hkey Hin Hget Hhead Hupd.
  unfold FilesController.confirmUpload. unfold_primary. simpl.
  rewrite Hget, Hrow, Hkey, Hhead.
  destruct (decide (key ∈ bucket w)); [|contradiction].
  simpl. rewrite Hupd, Hrow. simpl.
  match goal with
  | |- context [FilesController.adjustStats ?e1 ?u ?p ?d ?s ?wa] =>
      destruct (adjustStats_frame e1 u p d s wa) as (wa' & -> & Hba & Hta)
  end.
  exists wa'. split; [reflexivity|].
  rewrite (agree_lookup pkey fkey _ _ Hta)
    by (apply not_eq_sym, projectKey_neq_fileKey).
  apply lookup_insert_eq.
Qed.

(** Once the row was marked or removed, [deleteFile] answers 200 whatever
    happens to the counter adjustment. *)
Lemma deleteFile_succeeds_whatever_counter (f : option string)
  (w : World) (row : Item) (key : string) :
  table w !! fkey = Some row ->
  jsStr (row !! "s3Key") = Some key ->
  statusIs "deleted" row = false ->
  fault env AtGetFileById = None ->
  fault env AtUpdateFileStatus = None ->
  fault env AtDeleteObject = None ->
  fault env AtHardDeleteFile = None ->
  exists message w',
    FilesController.deleteFile (withFault AtUpdateProjectStats f env) req w
    = (Returns (sendSuccess (Message message) 200), w')
    /\ table w' !! fkey
       = if FilesController.hardDelete req then None
         else Some (<["status" := AStr "deleted"]> row).
Proof.
  intros Hrow Hkey Hlive Hget Hupd Hs3 Hhard.
  unfold FilesController.deleteFile. unfold_primary. simpl.
  rewrite Hget, Hrow, Hlive. simpl.
  destruct (FilesController.hardDelete req).
  - rewrite Hkey, Hs3. simpl. rewrite Hhard. simpl.
    match goal with
    | |- context [FilesController.adjustStats ?e1 ?u ?p ?d ?s ?wa] =>
        destruct (adjustStats_frame e1 u p d s wa) as (wa' & -> & Hba & Hta)
    end.
    eexists _, wa'. split; [reflexivity|].
    rewrite (agree_lookup pkey fkey _ _ Hta)
      by (apply not_eq_sym, projectKey_neq_fileKey).
    apply lookup_delete_eq.
  - rewrite Hupd, Hrow. simpl.
    match goal with
    | |- context [FilesController.adjustStats ?e1 ?u ?p ?d ?s ?wa] =>
        destruct (adjustStats_frame e1 u p d s wa) as (wa' & -> & Hba & Hta)
    end.
    eexists _, wa'. split; [reflexivity|].
    rewrite (agree_lookup pkey fkey _ _ Hta)
      by (apply not_eq_sym, projectKey_neq_fileKey).
    apply lookup_insert_eq.
Qed.

(** The fate of the counter adjustment is invisible.  Take two runs
    of [confirmUpload], or of [deleteFile], in which the adjustment meets
    any two fates (one fails, the other succeeds), the stores being the
    same up to the project row that holds the counters.  Both runs give
    the same response, so that a run whose adjustment failed answers
    success whenever the run whose adjustment succeeded does, and they
    end with the same bucket and the same rows, the row of the file
    included, up to the project row. *)
Lemma counter_fate_invisible (f1 f2 : option string) (w1 w2 : World) :
  bucket w1 = bucket w2 ->
  base.delete pkey (table w1) = base.delete pkey (table w2) ->
  (exists resp w1' w2',
      FilesController.confirmUpload
        (withFault AtUpdateProjectStats f1 env) req w1 = (Returns resp, w1')
      /\ FilesController.confirmUpload
           (withFault AtUpdateProjectStats f2 env) req w2
         = (Returns resp, w2')
      /\ bucket w1' = bucket w2'
      /\ base.delete pkey (table w1') = base.delete pkey (table w2')
      /\ table w1' !! fkey = table w2' !! fkey)
  /\ (exists resp w1' w2',
         FilesController.deleteFile
           (withFault AtUpdateProjectStats f1 env) req w1
         = (Returns resp, w1')
         /\ FilesController.deleteFile
              (withFault AtUpdateProjectStats f2 env) req w2
            = (Returns resp, w2')
         /\ bucket w1' = bucket w2'
         /\ base.delete pkey (table w1') = base.delete pkey (table w2')
         /\ table w1' !! fkey = table w2' !! fkey).
Proof.
  intros Hb Ht. split.
  - destruct (confirmUpload_ignores_counter f1 f2 w1 w2 Hb Ht)
      as (resp & w1' & w2' & H1 & H2 & Hb' & Ht').
    exists resp, w1', w2'. repeat split; try assumption.
    apply (agree_lookup pkey); [exact Ht'|].
    apply not_eq_sym, projectKey_neq_fileKey.
  - destruct (deleteFile_ignores_counter f1 f2 w1 w2 Hb Ht)
      as (resp & w1' & w2' & H1 & H2 & Hb' & Ht').
    exists resp, w1', w2'. repeat split; try assumption.
    apply (agree_lookup pkey); [exact Ht'|].
    apply not_eq_sym, projectKey_neq_fileKey.
Qed.

End CounterFailure.

(** ** Soft delete *)

Section SoftDelete.

Variable env : Env.
Variable req : Request.

#[local] Abbreviation fkey :=
  (DynamoDBService.fileKey (projectId req) (fileId req)).
#[local] Abbreviation pkey :=
  (DynamoDBService.projectKey (userIdOf req) (projectId req)).

Lemma statusIs_insert (s : string) (row : Item) :
  statusIs s (<["status" := AStr s]> row) = true.
Proof.
  unfold statusIs. apply bool_decide_eq_true. apply lookup_insert_eq.
Qed.

Lemma statusIs_insert_id (s : string) (row : Item) :
  statusIs s row = true -> <["status" := AStr s]> row = row.
Proof.
  unfold statusIs. intros H. apply bool_decide_eq_true in H.
  apply insert_id, H.
Qed.

(** The two ordinary fetch paths on a row whose status is [deleted]. *)
Lemma fetch_deleted_not_found (env' : Env) (w : World) (row : Item) :
  table w !! fkey = Some row ->
  statusIs "deleted" row = true ->
  fault env' AtGetFileById = None ->
  FilesController.getDownloadUrl env' req w
  = (Returns (sendError ErrorCodes.FILE_NOT_FOUND "File has been deleted" 404),
     w)
  /\ FilesController.getFileMetadata env' req w
     = (Returns
          (sendError ErrorCodes.FILE_NOT_FOUND "File has been deleted" 404),
        w).
Proof.
  intros Hrow Hdel Hget.
  unfold FilesController.getDownloadUrl, FilesController.getFileMetadata.
  unfold_primary. rewrite Hget, Hrow, Hdel. split; reflexivity.
Qed.

(** C8: a soft delete ([hard] is not ['true']) of a file whose row
    exists leaves the bucket as it was and keeps the row, with the status
    [deleted] and every other field as before; no row but the project
    row of the counters differs otherwise.  Afterwards the download-URL
    and the metadata handlers answer 404 [FILE_NOT_FOUND]. *)
Theorem soft_delete_frame (env' : Env) (w : World) (row : Item) :
  table w !! fkey = Some row ->
  FilesController.hardDelete req = false ->
  fault env AtGetFileById = None ->
  fault env AtUpdateFileStatus = None ->
  fault env' AtGetFileById = None ->
  exists resp w',
    FilesController.deleteFile env req w = (Returns resp, w')
    /\ bucket w' = bucket w
    /\ table w' !! fkey = Some (<["status" := AStr "deleted"]> row)
    /\ base.delete pkey (table w')
       = base.delete pkey
           (<[fkey := <["status" := AStr "deleted"]> row]> (table w))
    /\ FilesController.getDownloadUrl env' req w'
       = (Returns
            (sendError ErrorCodes.FILE_NOT_FOUND "File has been deleted" 404),
          w')
    /\ FilesController.getFileMetadata env' req w'
       = (Returns
            (sendError ErrorCodes.FILE_NOT_FOUND "File has been deleted" 404),
          w').
Proof.
  intros Hrow Hsoft Hget Hupd Hget'.
  assert (exists resp w',
             FilesController.deleteFile env req w = (Returns resp, w')
             /\ bucket w' = bucket w
             /\ table w' !! fkey = Some (<["status" := AStr "deleted"]> row)
             /\ base.delete pkey (table w')
                = base.delete pkey
                    (<[fkey := <["status" := AStr "deleted"]> row]> (table w)))
    as (resp & w' & Hrun & Hb & Hrow' & Hframe).
  { unfold FilesController.deleteFile. unfold_primary.
    rewrite Hget, Hrow, Hsoft. simpl.
    destruct (statusIs "deleted" row) eqn:Hdel; simpl.
    - exists (sendError ErrorCodes.FILE_NOT_FOUND "File already deleted" 404), w.
      rewrite (statusIs_insert_id _ _ Hdel).
      rewrite (insert_id (table w) fkey row Hrow). auto.
    - rewrite Hupd, Hrow. simpl.
      match goal with
      | |- context [FilesController.adjustStats ?e1 ?u ?p ?d ?s ?wa] =>
          destruct (adjustStats_frame e1 u p d s wa)
            as (wa' & -> & Hba & Hta)
      end.
      eexists _, wa'. split; [reflexivity|]. simpl in *.
      split; [exact Hba|]. split; [|exact Hta].
      rewrite (agree_lookup pkey fkey _ _ Hta)
        by (apply not_eq_sym, projectKey_neq_fileKey).
      apply lookup_insert_eq. }
  exists resp, w'. repeat split; try assumption.
  - apply (fetch_deleted_not_found env' w' _ Hrow');
      [apply statusIs_insert | exact Hget'].
  - apply (fetch_deleted_not_found env' w' _ Hrow');
      [apply statusIs_insert | exact Hget'].
Qed.

End SoftDelete.

(** ** Creating a project *)

Section CreateProject.

Lemma keyOf_projectItem (env : Env) (userId projectId name : string)
  (description : option string) :
  Ddb.keyOf (DynamoDBService.projectItem env userId projectId name description)
  = Some (DynamoDBService.projectKey userId projectId).
Proof. destruct description; reflexivity. Qed.

Lemma notExists_projectItem (env : Env) (userId projectId name : string)
  (description : option string) :
  DynamoDBService.notExists
    (Some (DynamoDBService.projectItem env userId projectId name description))
  = false.
Proof. destruct description; reflexivity. Qed.

Lemma projectItem_fresh (env : Env) (userId projectId name : string)
  (description : option string) :
  let item :=
    DynamoDBService.projectItem env userId projectId name description in
  item !! "status" = Some (AStr "active")
  /\ item !! "fileCount" = Some (ANum 0)
  /\ item !! "totalSize" = Some (ANum 0).
Proof. destruct description; repeat split; reflexivity. Qed.

(** The service method: it writes the new row when the conditional write
    passes, and throws without writing otherwise. *)
Lemma createProject_service (env : Env) (userId projectId name : string)
  (description : option string) (w : World) :
  fault env AtCreateProject = None ->
  let item :=
    DynamoDBService.projectItem env userId projectId name description in
  let k := DynamoDBService.projectKey userId projectId in
  DynamoDBService.createProject env userId projectId name description w
  = if DynamoDBService.notExists (table w !! k)
    then (Returns item, setTable (<[k := item]> (table w)) w)
    else (Throws "ConditionalCheckFailedException", w).
Proof.
  intros Hfault item k. unfold DynamoDBService.createProject.
  unfold_primary. rewrite Hfault, keyOf_projectItem.
  fold k. destruct (DynamoDBService.notExists (table w !! k)); reflexivity.
Qed.

(** A run of the service method that returns has written the row it
    returns under the identity. *)
Lemma createProject_service_returns (env : Env)
  (userId projectId name : string) (description : option string)
  (w w' : World) (item : Item) :
  DynamoDBService.createProject env userId projectId name description w
  = (Returns item, w') ->
  item = DynamoDBService.projectItem env userId projectId name description
  /\ w' = setTable
            (<[DynamoDBService.projectKey userId projectId := item]>
               (table w)) w.
Proof.
  unfold DynamoDBService.createProject. unfold_primary.
  destruct (fault env AtCreateProject); [discriminate|].
  rewrite keyOf_projectItem.
  destruct (DynamoDBService.notExists _); [|discriminate].
  intros [= <- <-]. auto.
Qed.

(** C1: once [createProject] has succeeded for an identity (owner and
    generated project identifier), the row stored under that identity has
    status [active] and both counters at 0; a second [createProject] with
    the same identity is refused by the conditional write, the handler
    answers 409 [PROJECT_ALREADY_EXISTS], and the stores, hence the row of
    the first call, are left as they were. *)
Theorem createProject_twice_conflict (env1 env2 : Env) (req1 req2 : Request)
  (w w1 : World) (code : Z) (data : Payload) (name2 : string) :
  ProjectsController.createProject env1 req1 w
  = (Returns (Success code data), w1) ->
  userIdOf req2 = userIdOf req1 ->
  uuidv4 env2 = uuidv4 env1 ->
  fault env2 AtCreateProject = None ->
  truthy (bName req2) = Some name2 ->
  JS.length (JS.trim name2) <> 0 ->
  JS.length name2 <= 100 ->
  exists item,
    table w1 !! DynamoDBService.projectKey (userIdOf req1) (uuidv4 env1)
    = Some item
    /\ item !! "status" = Some (AStr "active")
    /\ item !! "fileCount" = Some (ANum 0)
    /\ item !! "totalSize" = Some (ANum 0)
    /\ DynamoDBService.createProject env2 (userIdOf req2) (uuidv4 env2)
         (JS.trim name2) (JS.trim <$> bDescription req2) w1
       = (Throws "ConditionalCheckFailedException", w1)
    /\ ProjectsController.createProject env2 req2 w1
       = (Returns
            (sendError ErrorCodes.PROJECT_ALREADY_EXISTS
               "Project already exists" 409), w1)
    /\ table (snd (ProjectsController.createProject env2 req2 w1))
         !! DynamoDBService.projectKey (userIdOf req1) (uuidv4 env1)
       = Some item.
Proof.
  intros Hfirst Huser Huuid Hfault Hname Htrim Hlen.
  (* the first call *)
  assert (exists name1 desc1,
             w1 = setTable
                    (<[DynamoDBService.projectKey (userIdOf req1)
                         (uuidv4 env1)
                       := DynamoDBService.projectItem env1 (userIdOf req1)
                            (uuidv4 env1) name1 desc1]> (table w)) w)
    as (name1 & desc1 & ->).
  { revert Hfirst. unfold ProjectsController.createProject.
    unfold try_catch, mbind, M_bind, mret, M_ret.
    destruct (truthy (bName req1)) as [n1|]; [|discriminate].
    destruct (JS.length (JS.trim n1) =? 0); [discriminate|].
    destruct (100 <? JS.length n1); [discriminate|].
    destruct (DynamoDBService.createProject _ _ _ _ _ w)
      as [[item|e] w'] eqn:Hsvc.
    - apply createProject_service_returns in Hsvc as [-> ->].
      intros [= _ _ <-]. eauto.
    - destruct (String.eqb e "ConditionalCheckFailedException");
        discriminate. }
  set (k := DynamoDBService.projectKey (userIdOf req1) (uuidv4 env1)).
  set (item := DynamoDBService.projectItem env1 (userIdOf req1)
                 (uuidv4 env1) name1 desc1).
  set (w1 := setTable (<[k := item]> (table w)) w).
  assert (table w1 !! k = Some item) as Hrow by apply lookup_insert_eq.
  (* the second call *)
  assert (DynamoDBService.createProject env2 (userIdOf req2) (uuidv4 env2)
            (JS.trim name2) (JS.trim <$> bDescription req2) w1
          = (Throws "ConditionalCheckFailedException", w1)) as Hsvc.
  { rewrite createProject_service by exact Hfault.
    rewrite Huser, Huuid. fold k. rewrite Hrow.
    unfold item. rewrite notExists_projectItem. reflexivity. }
  assert (ProjectsController.createProject env2 req2 w1
          = (Returns
               (sendError ErrorCodes.PROJECT_ALREADY_EXISTS
                  "Project already exists" 409), w1)) as Hctl.
  { unfold ProjectsController.createProject.
    unfold try_catch, mbind, M_bind, mret, M_ret.
    rewrite Hname.
    destruct (JS.length (JS.trim name2) =? 0) eqn:E;
      [apply Z.eqb_eq in E; contradiction|].
    destruct (100 <? JS.length name2) eqn:E';
      [apply Z.ltb_lt in E'; lia|].
    rewrite Hsvc. reflexivity. }
  exists item. rewrite Hctl. simpl.
  destruct (projectItem_fresh env1 (userIdOf req1) (uuidv4 env1) name1 desc1)
    as (Hs & Hc & Ht).
  repeat split; assumption.
Qed.

End CreateProject.

(** ** Listing *)

Section Listing.

Lemma filter_all (f : Item -> bool) (l : list Item) :
  Forall (fun i => f i = true) (List.filter f l).
Proof.
  apply List.Forall_forall. intros i Hi.
  apply List.filter_In in Hi. tauto.
Qed.

(** A query reads only, and every row it returns passes the filter. *)
Lemma query_filtered (pk skPrefix : string) (filters : list Ddb.Cond)
  (limit : option Z) (start : option Json) (w : World) :
  match Ddb.query pk skPrefix filters limit start w with
  | (Returns (items, _), w') =>
      w' = w /\ Forall (fun i => Ddb.evalFilter filters i = true) items
  | (Throws _, w') => w' = w
  end.
Proof.
  unfold Ddb.query.
  destruct start as [[p s|]|].
  - destruct (String.eqb p pk && String.prefix skPrefix s); [|reflexivity].
    destruct limit as [n|].
    + destruct (n <=? 0); [reflexivity|]. split; [reflexivity|].
      apply filter_all.
    + split; [reflexivity | apply filter_all].
  - reflexivity.
  - destruct limit as [n|].
    + destruct (n <=? 0); [reflexivity|]. split; [reflexivity|].
      apply filter_all.
    + split; [reflexivity | apply filter_all].
Qed.

Lemma evalFilter_app (f g : list Ddb.Cond) (i : Item) :
  Ddb.evalFilter (f ++ g) i = Ddb.evalFilter f i && Ddb.evalFilter g i.
Proof. unfold Ddb.evalFilter. apply forallb_app. Qed.

Lemma default_filter_not_deleted (i : Item) :
  Ddb.evalFilter [Ddb.AttrNe "status" (AStr "deleted")] i = true ->
  statusIs "deleted" i = false.
Proof.
  unfold Ddb.evalFilter, statusIs. simpl. rewrite andb_true_r.
  apply negb_true_iff.
Qed.

(** The two service methods without a status option. *)
Lemma getFilesByProject_default (env : Env) (projectId : string)
  (options : DynamoDBService.FileListOptions) (w : World) :
  truthy (DynamoDBService.foStatus options) = None ->
  match DynamoDBService.getFilesByProject env projectId options w with
  | (Returns (files, _), w') =>
      w' = w /\ Forall (fun i => statusIs "deleted" i = false) files
  | (Throws _, w') => w' = w
  end.
Proof.
  intros Hstatus. unfold DynamoDBService.getFilesByProject, send.
  destruct (fault env AtGetFilesByProject); [reflexivity|].
  pose proof (query_filtered ("PROJECT#" +:+ projectId) "FILE#"
                (DynamoDBService.fileFilters options)
                (DynamoDBService.foLimit options)
                (DynamoDBService.foLastKey options) w) as H.
  destruct (Ddb.query _ _ _ _ _ w) as [[[files lk]|e] w']; [|exact H].
  destruct H as [-> H]. split; [reflexivity|].
  eapply Forall_impl; [exact H|]. intros i Hi. simpl in Hi.
  unfold DynamoDBService.fileFilters in Hi. rewrite Hstatus in Hi.
  rewrite evalFilter_app in Hi. apply andb_true_iff in Hi as [_ Hi].
  apply default_filter_not_deleted, Hi.
Qed.

Lemma getProjectsByUser_default (env : Env) (userId : string)
  (options : DynamoDBService.ProjectListOptions) (w : World) :
  truthy (DynamoDBService.poStatus options) = None ->
  match DynamoDBService.getProjectsByUser env userId options w with
  | (Returns (projects, _), w') =>
      w' = w /\ Forall (fun i => statusIs "deleted" i = false) projects
  | (Throws _, w') => w' = w
  end.
Proof.
  intros Hstatus. unfold DynamoDBService.getProjectsByUser, send.
  destruct (fault env AtGetProjectsByUser); [reflexivity|].
  pose proof (query_filtered ("USER#" +:+ userId) "PROJECT#"
                (DynamoDBService.projectFilters options)
                (DynamoDBService.poLimit options)
                (DynamoDBService.poLastKey options) w) as H.
  destruct (Ddb.query _ _ _ _ _ w) as [[[projects lk]|e] w']; [|exact H].
  destruct H as [-> H]. split; [reflexivity|].
  eapply Forall_impl; [exact H|]. intros i Hi. simpl in Hi.
  unfold DynamoDBService.projectFilters in Hi. rewrite Hstatus in Hi.
  apply default_filter_not_deleted, Hi.
Qed.

Lemma truthy_idem (s : option string) : truthy (truthy s) = truthy s.
Proof.
  destruct s as [v|]; [|reflexivity]. simpl.
  destruct (String.eqb v "") eqn:E; [reflexivity|]. simpl.
  rewrite E. reflexivity.
Qed.

(** C3: when the request carries no status filter, [listFiles] and
    [listProjects] answer without changing the stores, and no row they
    list has the status [deleted]. *)
Theorem list_default_excludes_deleted (env : Env) (req : Request)
  (w : World) :
  truthy (qStatus req) = None ->
  (exists resp,
      FilesController.listFiles env req w = (Returns resp, w)
      /\ Forall (fun row => statusIs "deleted" row = false)
           (listedRows resp))
  /\ (exists resp,
         ProjectsController.listProjects env req w = (Returns resp, w)
         /\ Forall (fun row => statusIs "deleted" row = false)
              (listedRows resp)).
Proof.
  intros Hstatus. rewrite <- truthy_idem in Hstatus. split.
  - unfold FilesController.listFiles, try_catch, mbind, M_bind, mret, M_ret.
    pose proof (getFilesByProject_default env (projectId req)
                  (FilesController.listOptions env req) w Hstatus) as H.
    destruct (DynamoDBService.getFilesByProject _ _ _ w)
      as [[[files lk]|e] w'].
    + destruct H as [-> H]. eexists. split; [reflexivity|]. exact H.
    + subst w'. eexists. split; [reflexivity|]. constructor.
  - unfold ProjectsController.listProjects, try_catch, mbind, M_bind,
      mret, M_ret.
    pose proof (getProjectsByUser_default env (userIdOf req)
                  (ProjectsController.listOptions env req) w Hstatus) as H.
    destruct (DynamoDBService.getProjectsByUser _ _ _ w)
      as [[[projects lk]|e] w'].
    + destruct H as [-> H]. eexists. split; [reflexivity|]. exact H.
    + subst w'. eexists. split; [reflexivity|]. constructor.
Qed.

End Listing.

(** ** Pagination cursor *)

Section Cursor.

(** C7: a [lastKey] parameter on which the decoding throws is dropped:
    no start key is handed to the store, and [listProjects] and
    [listFiles] run exactly as they do for the same request without
    [lastKey]. *)
Theorem corrupted_cursor_ignored (env : Env) (req : Request) (w : World)
  (cursor : string) :
  qLastKey req = Some cursor ->
  jsonOfBase64 env cursor = None ->
  DynamoDBService.poLastKey (ProjectsController.listOptions env req) = None
  /\ DynamoDBService.foLastKey (FilesController.listOptions env req) = None
  /\ ProjectsController.listProjects env req w
     = ProjectsController.listProjects env (withLastKey None req) w
  /\ FilesController.listFiles env req w
     = FilesController.listFiles env (withLastKey None req) w.
Proof.
  intros Hq Hdecode.
  assert (lastKeyOption env (qLastKey req) = None) as Hnone.
  { rewrite Hq. unfold lastKeyOption, truthy.
    destruct (String.eqb cursor ""); [reflexivity | exact Hdecode]. }
  assert (ProjectsController.listOptions env req
          = ProjectsController.listOptions env (withLastKey None req)) as Hp.
  { unfold ProjectsController.listOptions. rewrite Hnone. reflexivity. }
  assert (FilesController.listOptions env req
          = FilesController.listOptions env (withLastKey None req)) as Hf.
  { unfold FilesController.listOptions. rewrite Hnone. reflexivity. }
  repeat split.
  - unfold ProjectsController.listOptions. simpl. exact Hnone.
  - unfold FilesController.listOptions. simpl. exact Hnone.
  - unfold ProjectsController.listProjects. rewrite Hp. reflexivity.
  - unfold FilesController.listFiles. rewrite Hf. reflexivity.
Qed.

End Cursor.

(** ** Updating a project *)

Section UpdateProject.

(** Every [updateProject] that the store answers writes the current time
    into [updatedAt], whichever of the three fields are supplied, and
    returns the row it wrote. *)
Lemma updateProject_bumps_updatedAt (env : Env) (userId projectId : string)
  (updates : DynamoDBService.ProjectUpdates) (w : World) :
  fault env AtUpdateProject = None ->
  exists item w',
    DynamoDBService.updateProject env userId projectId updates w
    = (Returns (Some item), w')
    /\ table w' !! DynamoDBService.projectKey userId projectId = Some item
    /\ item !! "updatedAt" = Some (AStr (now env)).
Proof.
  intros Hfault. unfold DynamoDBService.updateProject. unfold_primary.
  rewrite Hfault. unfold DynamoDBService.updateExpressions.
  destruct updates as [[n|] [d|] [s|]]; simpl;
    (eexists _, _; split; [reflexivity|]; simpl; split;
     [apply lookup_insert_eq|]; unfold Ddb.assign; simpl;
     rewrite ?lookup_insert_ne by discriminate; apply lookup_insert_eq).
Qed.

(** C6, the claim as it is written fails: [updateProject] for an
    identity under which no row is stored does not yield null, and a new
    row comes into existence.  The update command carries no condition on
    the existence of the row, so the store creates a row that holds the
    key, [updatedAt] and the supplied name only, and the method returns
    that row. *)
Theorem updateProject_absent_identity_creates_row :
  let updates :=
    {| DynamoDBService.puName := Some "Renamed";
       DynamoDBService.puDescription := None;
       DynamoDBService.puStatus := None |} in
  let k := DynamoDBService.projectKey "alice" "7d9f1c2e" in
  let created : Item :=
    list_to_map
      [ ("PK", AStr "USER#alice"); ("SK", AStr "PROJECT#7d9f1c2e");
        ("updatedAt", AStr "2024-05-01T10:00:00.000Z");
        ("name", AStr "Renamed") ] in
  table emptyWorld !! k = None
  /\ DynamoDBService.updateProject demoEnv "alice" "7d9f1c2e" updates
       emptyWorld
     = (Returns (Some created), setTable (<[k := created]> ∅) emptyWorld)
  /\ table (snd (DynamoDBService.updateProject demoEnv "alice" "7d9f1c2e"
                   updates emptyWorld)) !! k
     = Some created
  /\ created !! "status" = None
  /\ created !! "fileCount" = None.
Proof. repeat split; vm_compute; reflexivity. Qed.

End UpdateProject.

(** * The theorems at work on the scenario *)

Section Scenario.

#[local] Abbreviation demoFileKey :=
  (DynamoDBService.fileKey "7d9f1c2e" "f-001").
#[local] Abbreviation demoProjectKey :=
  (DynamoDBService.projectKey "alice" "7d9f1c2e").
#[local] Abbreviation demoFileRow :=
  (DynamoDBService.fileItem demoEnv demoFile).

(** The upload request answers 201 and leaves a [pending] row with the
    sanitized name and the derived key. *)
Example scenario_pending_row :
  fst (FilesController.requestUpload uploadEnv demoRequest projectWorld)
  = Returns
      (Success 201
         (UploadFileResponse "f-001"
            "https://bucket.example/7d9f1c2e/f-001/Site_Plan_final_.pdf?X-Verb=PUT"
            3600))
  /\ table pendingWorld !! demoFileKey = Some demoFileRow
  /\ statusIs "pending" demoFileRow = true
  /\ bucket pendingWorld = ∅.
Proof. repeat split; vm_compute; reflexivity. Qed.

(** Confirming while the counter adjustment is throttled still answers
    200 with the row, now [uploaded]; the counters stay at 0. *)
Example scenario_confirm_counter_throttled :
  let run :=
    FilesController.confirmUpload
      (withFault AtUpdateProjectStats (Some "ThrottlingException") demoEnv)
      demoRequest storedWorld in
  fst run
  = Returns
      (Success 200 (Row (Some (<["status" := AStr "uploaded"]> demoFileRow))))
  /\ (table (snd run) !! demoProjectKey) ≫= (fun p => p !! "fileCount")
     = Some (ANum 0).
Proof. split; vm_compute; reflexivity. Qed.

(** Confirming a file of a project that has no row: the adjustment is
    refused by the store, the handler answers 200 all the same. *)
Example scenario_confirm_without_project :
  fst (FilesController.confirmUpload demoEnv demoRequest orphanWorld)
  = Returns
      (Success 200 (Row (Some (<["status" := AStr "uploaded"]> demoFileRow))))
  /\ table (snd (FilesController.confirmUpload demoEnv demoRequest
                   orphanWorld)) !! demoProjectKey = None.
Proof. split; vm_compute; reflexivity. Qed.

(** A hard delete removes the object and the row. *)
Example scenario_hard_delete_removes_row_and_object :
  let run :=
    FilesController.deleteFile demoEnv
      {| reqUserId := Some "alice"; projectId := "7d9f1c2e";
         fileId := "f-001"; qStatus := None; qFileType := None;
         qLimit := None; qLastKey := None; qHard := Some "true";
         bName := None; bDescription := None; bStatus := None;
         bFileName := None; bFileType := None; bFileSize := None |}
      storedWorld in
  fst run = Returns (Success 200 (Message "File permanently deleted"))
  /\ table (snd run) !! demoFileKey = None
  /\ bucket (snd run) = ∅.
Proof. repeat split; vm_compute; reflexivity. Qed.

Lemma createProject_twice_conflict_witness :
  exists item,
    table projectWorld !! demoProjectKey = Some item
    /\ item !! "status" = Some (AStr "active")
    /\ item !! "fileCount" = Some (ANum 0)
    /\ item !! "totalSize" = Some (ANum 0)
    /\ DynamoDBService.createProject demoEnv "alice" "7d9f1c2e"
         "Site plans" None projectWorld
       = (Throws "ConditionalCheckFailedException", projectWorld)
    /\ ProjectsController.createProject demoEnv demoRequest projectWorld
       = (Returns
            (sendError ErrorCodes.PROJECT_ALREADY_EXISTS
               "Project already exists" 409), projectWorld)
    /\ table (snd (ProjectsController.createProject demoEnv demoRequest
                     projectWorld)) !! demoProjectKey
       = Some item.
Proof.
  apply (createProject_twice_conflict demoEnv demoEnv demoRequest
           demoRequest emptyWorld projectWorld 201
           (CreateProjectResponse "7d9f1c2e" "Site plans" None
              "2024-05-01T10:00:00.000Z") "Site plans").
  - vm_compute. reflexivity.
  - reflexivity.
  - reflexivity.
  - reflexivity.
  - reflexivity.
  - vm_compute. discriminate.
  - vm_compute. discriminate.
Defined.

Lemma confirmUpload_object_absent_witness :
  FilesController.confirmUpload demoEnv demoRequest pendingWorld
  = (Returns (sendError ErrorCodes.VALIDATION_ERROR
                "File has not been uploaded to storage" 400), pendingWorld)
  /\ table (snd (FilesController.confirmUpload demoEnv demoRequest
                   pendingWorld)) !! demoFileKey = Some demoFileRow
  /\ statusIs "pending"
       <$> table (snd (FilesController.confirmUpload demoEnv demoRequest
                         pendingWorld)) !! demoFileKey
     = Some true.
Proof.
  apply (confirmUpload_object_absent demoEnv demoRequest pendingWorld
           demoFileRow (DynamoDBService.cfS3Key demoFile)).
  - vm_compute. reflexivity.
  - vm_compute. reflexivity.
  - vm_compute. reflexivity.
  - refine (bool_decide_unpack _ _). vm_compute. exact I.
  - reflexivity.
  - reflexivity.
Defined.

Lemma list_default_excludes_deleted_witness :
  (exists resp,
      FilesController.listFiles demoEnv demoRequest deletedWorld
      = (Returns resp, deletedWorld)
      /\ Forall (fun row => statusIs "deleted" row = false)
           (listedRows resp))
  /\ (exists resp,
         ProjectsController.listProjects demoEnv demoRequest deletedWorld
         = (Returns resp, deletedWorld)
         /\ Forall (fun row => statusIs "deleted" row = false)
              (listedRows resp)).
Proof.
  apply (list_default_excludes_deleted demoEnv demoRequest deletedWorld).
  reflexivity.
Defined.

(** The deleted file is not listed by default, and is listed on
    request. *)
Example scenario_listing_after_soft_delete :
  (List.length <$>
     (listedRows <$>
        responseOf (FilesController.listFiles demoEnv demoRequest
                      deletedWorld))) = Some 0%nat
  /\ (List.length <$>
        (listedRows <$>
           responseOf
             (FilesController.listFiles demoEnv
                {| reqUserId := Some "alice"; projectId := "7d9f1c2e";
                   fileId := ""; qStatus := Some "deleted";
                   qFileType := None; qLimit := None; qLastKey := None;
                   qHard := None; bName := None; bDescription := None;
                   bStatus := None; bFileName := None; bFileType := None;
                   bFileSize := None |}
                deletedWorld))) = Some 1%nat.
Proof. split; vm_compute; reflexivity. Qed.

Lemma corrupted_cursor_ignored_witness :
  let req := withLastKey (Some "bm90LWpzb24=") demoRequest in
  DynamoDBService.poLastKey (ProjectsController.listOptions demoEnv req)
  = None
  /\ DynamoDBService.foLastKey (FilesController.listOptions demoEnv req)
     = None
  /\ ProjectsController.listProjects demoEnv req storedWorld
     = ProjectsController.listProjects demoEnv (withLastKey None req)
         storedWorld
  /\ FilesController.listFiles demoEnv req storedWorld
     = FilesController.listFiles demoEnv (withLastKey None req) storedWorld.
Proof.
  apply (corrupted_cursor_ignored demoEnv
           (withLastKey (Some "bm90LWpzb24=") demoRequest) storedWorld
           "bm90LWpzb24=").
  - reflexivity.
  - reflexivity.
Defined.

(** A cursor that decodes to JSON which is no key is handed to the store,
    which rejects it: the listing fails with 500.  Only a cursor on which
    the decoding throws is dropped. *)
Example scenario_cursor_that_is_no_key :
  fst (ProjectsController.listProjects numberCursorEnv
         (withLastKey (Some "MTIz") demoRequest) storedWorld)
  = Returns (Failure 500 "INTERNAL_ERROR" "Failed to list projects").
Proof. vm_compute. reflexivity. Qed.

Lemma soft_delete_frame_witness :
  exists resp w',
    FilesController.deleteFile demoEnv demoRequest storedWorld
    = (Returns resp, w')
    /\ bucket w' = bucket storedWorld
    /\ table w' !! demoFileKey
       = Some (<["status" := AStr "deleted"]> demoFileRow)
    /\ base.delete demoProjectKey (table w')
       = base.delete demoProjectKey
           (<[demoFileKey := <["status" := AStr "deleted"]> demoFileRow]>
              (table storedWorld))
    /\ FilesController.getDownloadUrl demoEnv demoRequest w'
       = (Returns
            (sendError ErrorCodes.FILE_NOT_FOUND "File has been deleted" 404),
          w')
    /\ FilesController.getFileMetadata demoEnv demoRequest w'
       = (Returns
            (sendError ErrorCodes.FILE_NOT_FOUND "File has been deleted" 404),
          w').
Proof.
  apply (soft_delete_frame demoEnv demoRequest demoEnv storedWorld
           demoFileRow).
  - vm_compute. reflexivity.
  - reflexivity.
  - reflexivity.
  - reflexivity.
  - reflexivity.
Defined.

(** Throttled or answered, the counter update leaves the same response
    and the same stores up to the project row. *)
Example scenario_counter_fate_invisible :
  let failing :=
    withFault AtUpdateProjectStats (Some "ThrottlingException") demoEnv in
  let answering := withFault AtUpdateProjectStats None demoEnv in
  (exists resp w1' w2',
      FilesController.confirmUpload failing demoRequest storedWorld
      = (Returns resp, w1')
      /\ FilesController.confirmUpload answering demoRequest storedWorld
         = (Returns resp, w2')
      /\ bucket w1' = bucket w2'
      /\ base.delete demoProjectKey (table w1')
         = base.delete demoProjectKey (table w2')
      /\ table w1' !! demoFileKey = table w2' !! demoFileKey)
  /\ (exists resp w1' w2',
         FilesController.deleteFile failing demoRequest storedWorld
         = (Returns resp, w1')
         /\ FilesController.deleteFile answering demoRequest storedWorld
            = (Returns resp, w2')
         /\ bucket w1' = bucket w2'
         /\ base.delete demoProjectKey (table w1')
            = base.delete demoProjectKey (table w2')
         /\ table w1' !! demoFileKey = table w2' !! demoFileKey).
Proof.
  apply (counter_fate_invisible demoEnv demoRequest
           (Some "ThrottlingException") None storedWorld storedWorld).
  - reflexivity.
  - reflexivity.
Qed.

(** The soft-deleted row of the scenario: its counters were decremented
    without ever having been incremented. *)
Example scenario_deleted_row :
  table deletedWorld !! demoFileKey
  = Some (<["status" := AStr "deleted"]> demoFileRow)
  /\ (table deletedWorld !! demoProjectKey) ≫= (fun p => p !! "fileCount")
     = Some (ANum (-1))
  /\ (table deletedWorld !! demoProjectKey) ≫= (fun p => p !! "totalSize")
     = Some (ANum (-2048)).
Proof. repeat split; vm_compute; reflexivity. Qed.

End Scenario.

(** * Service calls that are answered *)

Lemma getFileById_run (env : Env) (p f : string) (w : World) :
  fault env AtGetFileById = None ->
  DynamoDBService.getFileById env p f w
  = (Returns (table w !! DynamoDBService.fileKey p f), w).
Proof. intros H. unfold DynamoDBService.getFileById, send. rewrite H. reflexivity. Qed.

Lemma getFileById_fails (env : Env) (p f e : string) (w : World) :
  fault env AtGetFileById = Some e ->
  DynamoDBService.getFileById env p f w = (Throws e, w).
Proof. intros H. unfold DynamoDBService.getFileById, send. rewrite H. reflexivity. Qed.

Lemma getProjectById_run (env : Env) (u p : string) (w : World) :
  fault env AtGetProjectById = None ->
  DynamoDBService.getProjectById env u p w
  = (Returns (table w !! DynamoDBService.projectKey u p), w).
Proof. intros H. unfold DynamoDBService.getProjectById, send. rewrite H. reflexivity. Qed.

Lemma updateFileStatus_run (env : Env) (p f s : string) (w : World) (row : Item) :
  fault env AtUpdateFileStatus = None ->
  table w !! DynamoDBService.fileKey p f = Some row ->
  DynamoDBService.updateFileStatus env p f s w
  = (Returns (Some (<["status" := AStr s]> row)),
     setTable (<[DynamoDBService.fileKey p f := <["status" := AStr s]> row]>
                 (table w)) w).
Proof.
  intros H Hrow. unfold DynamoDBService.updateFileStatus. unfold_primary.
  rewrite H, Hrow. reflexivity.
Qed.

Lemma hardDeleteFile_run (env : Env) (p f : string) (w : World) :
  fault env AtHardDeleteFile = None ->
  DynamoDBService.hardDeleteFile env p f w
  = (Returns tt, setTable (base.delete (DynamoDBService.fileKey p f) (table w)) w).
Proof. intros H. unfold DynamoDBService.hardDeleteFile. unfold_primary. rewrite H. reflexivity. Qed.

Lemma deleteObject_run (env : Env) (key : string) (w : World) :
  fault env AtDeleteObject = None ->
  S3Service.deleteObject env key w
  = (Returns tt, setBucket (bucket w ∖ {[ key ]}) w).
Proof. intros H. unfold S3Service.deleteObject, send. rewrite H. reflexivity. Qed.

Lemma objectExists_run (env : Env) (key : string) (w : World) :
  fault env AtHeadObject = None ->
  S3Service.objectExists env key w
  = (Returns (bool_decide (key ∈ bucket w)), w).
Proof.
  intros H. unfold S3Service.objectExists. unfold_primary. rewrite H.
  destruct (decide (key ∈ bucket w)) as [Hin|Hout].
  - rewrite bool_decide_eq_true_2 by exact Hin. reflexivity.
  - rewrite bool_decide_eq_false_2 by exact Hout. reflexivity.
Qed.

Lemma adjustStats_run (env : Env) (u p : string) (d s c t : Z) (prow : Item)
  (w : World) :
  fault env AtUpdateProjectStats = None ->
  table w !! DynamoDBService.projectKey u p = Some prow ->
  prow !! "fileCount" = Some (ANum c) ->
  prow !! "totalSize" = Some (ANum t) ->
  FilesController.adjustStats env u p d (Some s) w
  = (Returns tt,
     setTable (<[DynamoDBService.projectKey u p
                 := adjusted env prow (c + d) (t + s)]> (table w)) w).
Proof.
  intros Hf Hrow Hc Ht. unfold_services. rewrite Hf, Hrow. simpl.
  rewrite Hc, Ht. reflexivity.
Qed.


Lemma projectKey_inj (u p u' p' : string) :
  DynamoDBService.projectKey u p = DynamoDBService.projectKey u' p' ->
  u = u' /\ p = p'.
Proof.
  unfold DynamoDBService.projectKey. simpl. intros [= H1 H2]. auto.
Qed.

(** The counter adjustment in full: it writes the two sums and the time
    into the project row when that row holds both counters, and nothing
    otherwise. *)
Lemma adjustStats_cases (env : Env) (u p : string) (d : Z) (s : option Z)
  (w : World) :
  FilesController.adjustStats env u p d s w = (Returns tt, w)
  \/ exists prow c t s',
       s = Some s'
       /\ table w !! DynamoDBService.projectKey u p = Some prow
       /\ prow !! "fileCount" = Some (ANum c)
       /\ prow !! "totalSize" = Some (ANum t)
       /\ FilesController.adjustStats env u p d s w
          = (Returns tt,
             setTable (<[DynamoDBService.projectKey u p
                         := adjusted env prow (c + d) (t + s')]> (table w)) w).
Proof.
  unfold FilesController.adjustStats, try_catch.
  destruct s as [s'|]; [|left; reflexivity].
  unfold_services.
  destruct (fault env AtUpdateProjectStats); [left; reflexivity|].
  destruct (table w !! DynamoDBService.projectKey u p) as [prow|] eqn:Hrow;
    simpl.
  - destruct (prow !! "fileCount") as [[?|c]|] eqn:Hc;
      try (left; reflexivity).
    destruct (prow !! "totalSize") as [[?|t]|] eqn:Ht;
      try (left; reflexivity).
    right. exists prow, c, t, s'. auto.
  - left. reflexivity.
Qed.

(** Without a project row under the identity of the caller the counter
    adjustment changes nothing. *)
Lemma adjustStats_no_row (env : Env) (u p : string) (d : Z) (s : option Z)
  (w : World) :
  table w !! DynamoDBService.projectKey u p = None ->
  FilesController.adjustStats env u p d s w = (Returns tt, w).
Proof.
  intros Hnone.
  destruct (adjustStats_cases env u p d s w)
    as [H|(prow & c & t & s' & _ & Hrow & _)]; [exact H|].
  rewrite Hnone in Hrow. discriminate.
Qed.

Ltac unfold_handler :=
  unfold FilesController.requestUpload, FilesController.confirmUpload,
    FilesController.getDownloadUrl, FilesController.getFileMetadata,
    FilesController.listFiles, FilesController.deleteFile,
    ProjectsController.createProject, ProjectsController.getProject,
    ProjectsController.listProjects, ProjectsController.updateProject,
    ProjectsController.deleteProject;
  unfold try_catch, mbind, M_bind, mret, M_ret.

(** Closed goals are settled by evaluation: through the decision
    procedure of the statement where it has one, so that the check is on
    a boolean. *)
Ltac by_compute :=
  first [ refine (bool_decide_unpack _ _); vm_compute; exact I
        | vm_compute; reflexivity ].

Lemma actionValues_updateExpressions (env : Env) (old : Item)
  (updates : DynamoDBService.ProjectUpdates) :
  Ddb.actionValues old (DynamoDBService.updateExpressions env updates)
  = Some (updateValues env updates).
Proof. destruct updates as [[n|] [d|] [s|]]; reflexivity. Qed.

(** What the assignment of [updateProject] leaves in the row. *)
Lemma assign_updateValues (env : Env) (row : Item)
  (updates : DynamoDBService.ProjectUpdates) :
  let row' := Ddb.assign row (updateValues env updates) in
  row' !! "updatedAt" = Some (AStr (now env))
  /\ row' !! "name"
     = match DynamoDBService.puName updates with
       | Some n => Some (AStr n)
       | None => row !! "name"
       end
  /\ row' !! "description"
     = match DynamoDBService.puDescription updates with
       | Some d => Some (AStr d)
       | None => row !! "description"
       end
  /\ row' !! "status"
     = match DynamoDBService.puStatus updates with
       | Some s => Some (AStr s)
       | None => row !! "status"
       end
  /\ forall a,
       a <> "updatedAt" -> a <> "name" -> a <> "description"
       -> a <> "status" -> row' !! a = row !! a.
Proof.
  destruct updates as [[n|] [d|] [s|]]; unfold Ddb.assign; simpl;
    (repeat split;
     [ rewrite ?lookup_insert_ne by discriminate; apply lookup_insert_eq
     | rewrite ?lookup_insert_ne by discriminate;
       first [apply lookup_insert_eq | reflexivity]
     | rewrite ?lookup_insert_ne by discriminate;
       first [apply lookup_insert_eq | reflexivity]
     | rewrite ?lookup_insert_ne by discriminate;
       first [apply lookup_insert_eq | reflexivity]
     | intros a H1 H2 H3 H4;
       rewrite ?lookup_insert_ne by congruence; reflexivity ]).
Qed.

(** * The method [updateProject] and its callers *)

Section UpdateProjectMethod.

Variable env : Env.

(** C6 (amended): every [updateProject] that the store answers writes the
    current time into [updatedAt], whichever of the three fields are
    supplied, and returns the row it wrote.  The update carries no
    condition on the existence of the row: for an absent identity the
    method raises no error and does not yield null either, it creates a
    row that holds the key, [updatedAt] and the supplied fields and
    nothing else.  The absent identity is dealt with by the callers: the
    PATCH and the DELETE handlers look the row up first and answer 404
    [PROJECT_NOT_FOUND] without calling the method, so that through them
    no row comes into existence. *)
Theorem updateProject_bumps_and_upserts (u p : string)
  (updates : DynamoDBService.ProjectUpdates) (w : World) :
  fault env AtUpdateProject = None ->
  let k := DynamoDBService.projectKey u p in
  let item :=
    Ddb.assign (default (Ddb.keyItem k) (table w !! k))
      (updateValues env updates) in
  DynamoDBService.updateProject env u p updates w
  = (Returns (Some item), setTable (<[k := item]> (table w)) w)
  /\ item !! "updatedAt" = Some (AStr (now env))
  /\ (table w !! k = None ->
      Ddb.keyOf item = Some k
      /\ item !! "name" = (AStr <$> DynamoDBService.puName updates)
      /\ item !! "description"
         = (AStr <$> DynamoDBService.puDescription updates)
      /\ item !! "status" = (AStr <$> DynamoDBService.puStatus updates)
      /\ forall a,
           a <> "PK" -> a <> "SK" -> a <> "updatedAt" -> a <> "name"
           -> a <> "description" -> a <> "status" -> item !! a = None)
  /\ (forall req,
        userIdOf req = u -> projectId req = p ->
        table w !! k = None ->
        fault env AtGetProjectById = None ->
        ProjectsController.updateProject env req w
        = (Returns
             (sendError ErrorCodes.PROJECT_NOT_FOUND "Project not found" 404),
           w)
        /\ ProjectsController.deleteProject env req w
           = (Returns
                (sendError ErrorCodes.PROJECT_NOT_FOUND "Project not found"
                   404), w)).
Proof.
  intros Hupd k item.
  destruct (assign_updateValues env (default (Ddb.keyItem k) (table w !! k))
              updates) as (Ht & Hn & Hd & Hs & Hother).
  fold item in Ht, Hn, Hd, Hs, Hother.
  split; [|split; [exact Ht|split]].
  - unfold DynamoDBService.updateProject. unfold_primary.
    rewrite Hupd. rewrite actionValues_updateExpressions. reflexivity.
  - intros Habsent. unfold item in *. rewrite Habsent in *.
    cbn [default from_option id] in *.
    assert (forall a, a <> "PK" -> a <> "SK" -> Ddb.keyItem k !! a = None)
      as Hkey.
    { intros a H1 H2. unfold Ddb.keyItem.
      rewrite !lookup_insert_ne by congruence. apply lookup_empty. }
    split.
    { transitivity (Ddb.keyOf (Ddb.keyItem k)); [|reflexivity].
      unfold Ddb.keyOf. rewrite !Hother by discriminate. reflexivity. }
    split.
    { rewrite Hn. destruct (DynamoDBService.puName updates);
        [reflexivity | apply Hkey; discriminate]. }
    split.
    { rewrite Hd. destruct (DynamoDBService.puDescription updates);
        [reflexivity | apply Hkey; discriminate]. }
    split.
    { rewrite Hs. destruct (DynamoDBService.puStatus updates);
        [reflexivity | apply Hkey; discriminate]. }
    intros a H1 H2 H3 H4 H5 H6. rewrite Hother by assumption.
    apply Hkey; assumption.
  - intros req Hu Hp Habsent Hget.
    unfold ProjectsController.updateProject, ProjectsController.deleteProject.
    unfold try_catch, mbind, M_bind, mret, M_ret.
    rewrite getProjectById_run by exact Hget.
    rewrite Hu, Hp. fold k. rewrite Habsent. split; reflexivity.
Qed.

End UpdateProjectMethod.

(** The method at an absent identity, and the two handlers asked for the
    same identity: the method creates the row, the handlers answer 404
    and leave the table empty. *)
Lemma updateProject_bumps_and_upserts_witness :
  let updates :=
    {| DynamoDBService.puName := Some "Renamed";
       DynamoDBService.puDescription := None;
       DynamoDBService.puStatus := None |} in
  let k := DynamoDBService.projectKey "alice" "7d9f1c2e" in
  let item :=
    Ddb.assign (default (Ddb.keyItem k) (table emptyWorld !! k))
      (updateValues demoEnv updates) in
  table emptyWorld !! k = None
  /\ DynamoDBService.updateProject demoEnv "alice" "7d9f1c2e" updates
       emptyWorld
     = (Returns (Some item),
        setTable (<[k := item]> (table emptyWorld)) emptyWorld)
  /\ item !! "updatedAt" = Some (AStr (now demoEnv))
  /\ Ddb.keyOf item = Some k
  /\ item !! "name" = Some (AStr "Renamed")
  /\ item !! "description" = None
  /\ item !! "status" = None
  /\ item !! "fileCount" = None
  /\ item !! "totalSize" = None
  /\ item !! "createdAt" = None
  /\ ProjectsController.updateProject demoEnv demoRequest emptyWorld
     = (Returns
          (sendError ErrorCodes.PROJECT_NOT_FOUND "Project not found" 404),
        emptyWorld)
  /\ ProjectsController.deleteProject demoEnv demoRequest emptyWorld
     = (Returns
          (sendError ErrorCodes.PROJECT_NOT_FOUND "Project not found" 404),
        emptyWorld).
Proof.
  intros updates k item.
  assert (table emptyWorld !! k = None) as Habsent by by_compute.
  destruct (updateProject_bumps_and_upserts demoEnv "alice" "7d9f1c2e"
              updates emptyWorld eq_refl) as (Hrun & Htime & Hnew & Hguard).
  destruct (Hnew Habsent) as (Hkey & Hname & Hdesc & Hstatus & Hother).
  destruct (Hguard demoRequest eq_refl eq_refl Habsent eq_refl)
    as (Hpatch & Hdelete).
  split; [exact Habsent|]. split; [exact Hrun|]. split; [exact Htime|].
  split; [exact Hkey|]. split; [exact Hname|]. split; [exact Hdesc|].
  split; [exact Hstatus|].
  split; [apply Hother; discriminate|].
  split; [apply Hother; discriminate|].
  split; [apply Hother; discriminate|].
  split; [exact Hpatch|exact Hdelete].
Defined.

(** * The counter adjustment *)

(** A counter adjustment whose command is rejected changes nothing. *)
Lemma adjustStats_rejected (env : Env) (e u p : string) (d : Z)
  (s : option Z) (w : World) :
  fault env AtUpdateProjectStats = Some e ->
  FilesController.adjustStats env u p d s w = (Returns tt, w).
Proof.
  intros Hf. unfold FilesController.adjustStats, try_catch.
  destruct s as [n|]; [|reflexivity].
  unfold DynamoDBService.updateProjectStats. unfold_monad.
  rewrite Hf. reflexivity.
Qed.

Section CounterSwallowed.

Variable env : Env.

(** C9: a failure of the counter adjustment is swallowed.  Take a confirm
    whose row exists with its object stored, and a delete, soft or hard,
    whose row exists, is not refused as already deleted and, for a hard
    delete, names its object, the services answering the lookup, the
    probe, the status update and the two deletes.  When [updateProjectStats] fails, with any error, the
    confirm still answers 200 with the row, now [uploaded], the delete
    still answers 200, and the stores end exactly as the primary mutation
    left them.  When it is sent to the store instead, the response is the
    same, the row of the file ends in the same state, and so do the
    bucket and every other row but the project row of the counters. *)
Theorem counter_failure_swallowed (e : string) (reqC reqD : Request)
  (wC wD : World) (rowC rowD : Item) (keyC keyD : string) :
  let fkeyC := DynamoDBService.fileKey (projectId reqC) (fileId reqC) in
  let pkeyC := DynamoDBService.projectKey (userIdOf reqC) (projectId reqC) in
  let fkeyD := DynamoDBService.fileKey (projectId reqD) (fileId reqD) in
  let pkeyD := DynamoDBService.projectKey (userIdOf reqD) (projectId reqD) in
  table wC !! fkeyC = Some rowC ->
  jsStr (rowC !! "s3Key") = Some keyC ->
  keyC ∈ bucket wC ->
  table wD !! fkeyD = Some rowD ->
  (FilesController.hardDelete reqD = true ->
   jsStr (rowD !! "s3Key") = Some keyD) ->
  statusIs "deleted" rowD && negb (FilesController.hardDelete reqD) = false ->
  fault env AtGetFileById = None ->
  fault env AtHeadObject = None ->
  fault env AtUpdateFileStatus = None ->
  fault env AtDeleteObject = None ->
  fault env AtHardDeleteFile = None ->
  let failing := withFault AtUpdateProjectStats (Some e) env in
  let answering := withFault AtUpdateProjectStats None env in
  let confirmed := sendSuccess (Row (Some (<["status" := AStr "uploaded"]> rowC))) 200 in
  let wC' :=
    setTable (<[fkeyC := <["status" := AStr "uploaded"]> rowC]> (table wC))
      wC in
  let deleted :=
    sendSuccess
      (Message (if FilesController.hardDelete reqD
                then "File permanently deleted" else "File deleted")) 200 in
  let wD' :=
    if FilesController.hardDelete reqD
    then setTable (base.delete fkeyD (table wD))
           (setBucket (bucket wD ∖ {[ keyD ]}) wD)
    else setTable (<[fkeyD := <["status" := AStr "deleted"]> rowD]> (table wD))
           wD in
  (FilesController.confirmUpload failing reqC wC = (Returns confirmed, wC')
   /\ table wC' !! fkeyC = Some (<["status" := AStr "uploaded"]> rowC)
   /\ exists w2,
        FilesController.confirmUpload answering reqC wC
        = (Returns confirmed, w2)
        /\ table w2 !! fkeyC = table wC' !! fkeyC
        /\ bucket w2 = bucket wC'
        /\ base.delete pkeyC (table w2) = base.delete pkeyC (table wC'))
  /\ (FilesController.deleteFile failing reqD wD = (Returns deleted, wD')
      /\ table wD' !! fkeyD
         = (if FilesController.hardDelete reqD then None
            else Some (<["status" := AStr "deleted"]> rowD))
      /\ exists w2,
           FilesController.deleteFile answering reqD wD
           = (Returns deleted, w2)
           /\ table w2 !! fkeyD = table wD' !! fkeyD
           /\ bucket w2 = bucket wD'
           /\ base.delete pkeyD (table w2) = base.delete pkeyD (table wD')).
Proof.
  intros fkeyC pkeyC fkeyD pkeyD HrowC HkeyC Hin HrowD HkeyD Hguard
    Hget Hhead Hupd Hs3 Hhard failing answering confirmed wC' deleted wD'.
  assert (forall u p d s w,
             FilesController.adjustStats failing u p d s w = (Returns tt, w))
    as Hfail.
  { intros. apply (adjustStats_rejected failing e). reflexivity. }
  split.
  - (* confirm *)
    split; [|split].
    + unfold FilesController.confirmUpload. unfold_primary. simpl.
      fold fkeyC. rewrite Hget, HrowC, HkeyC, Hhead.
      destruct (decide (keyC ∈ bucket wC)); [|contradiction].
      simpl. rewrite Hupd, HrowC. simpl. fold failing.
      rewrite Hfail. reflexivity.
    + apply lookup_insert_eq.
    + destruct (adjustStats_frame answering (userIdOf reqC) (projectId reqC)
                  1 (jsNum (rowC !! "fileSize")) wC')
        as (w2 & Hadj & Hb & Ht).
      exists w2. split; [|split; [|split]].
      * unfold FilesController.confirmUpload. unfold_primary. simpl.
        fold fkeyC. rewrite Hget, HrowC, HkeyC, Hhead.
        destruct (decide (keyC ∈ bucket wC)); [|contradiction].
        simpl. rewrite Hupd, HrowC. simpl. fold answering.
        fold fkeyC. fold wC'. rewrite Hadj. reflexivity.
      * apply (agree_lookup pkeyC); [exact Ht|].
        apply not_eq_sym, projectKey_neq_fileKey.
      * exact Hb.
      * exact Ht.
  - (* delete *)
    split; [|split].
    + unfold FilesController.deleteFile. unfold_primary. simpl.
      fold fkeyD. rewrite Hget, HrowD, Hguard. unfold wD', deleted.
      destruct (FilesController.hardDelete reqD) eqn:Hh.
      * rewrite (HkeyD eq_refl), Hs3. simpl. rewrite Hhard. simpl.
        fold failing.
        rewrite Hfail. reflexivity.
      * rewrite Hupd, HrowD. simpl. fold failing.
        rewrite Hfail. reflexivity.
    + unfold wD'. destruct (FilesController.hardDelete reqD); simpl.
      * apply lookup_delete_eq.
      * apply lookup_insert_eq.
    + destruct (adjustStats_frame answering (userIdOf reqD) (projectId reqD)
                  (-1) (Z.opp <$> jsNum (rowD !! "fileSize")) wD')
        as (w2 & Hadj & Hb & Ht).
      exists w2. split; [|split; [|split]].
      * unfold FilesController.deleteFile. unfold_primary. simpl.
        fold fkeyD. rewrite Hget, HrowD, Hguard.
        revert Hadj. unfold wD', deleted.
        destruct (FilesController.hardDelete reqD) eqn:Hh; intros Hadj.
        -- rewrite (HkeyD eq_refl), Hs3. simpl. rewrite Hhard. simpl.
           fold answering.
           fold fkeyD. rewrite Hadj. reflexivity.
        -- rewrite Hupd, HrowD. simpl. fold answering.
           fold fkeyD. rewrite Hadj. reflexivity.
      * apply (agree_lookup pkeyD); [exact Ht|].
        apply not_eq_sym, projectKey_neq_fileKey.
      * exact Hb.
      * exact Ht.
Qed.

End CounterSwallowed.

(** The confirm of the soft-deleted file of the scenario and the delete
    of the stored one, the counter update being throttled. *)
Lemma counter_failure_swallowed_witness :
  let e := "ThrottlingException" in
  let reqC := demoRequest in
  let reqD := demoRequest in
  let wC := deletedWorld in
  let wD := storedWorld in
  let rowC :=
    <["status" := AStr "deleted"]>
      (DynamoDBService.fileItem demoEnv demoFile) in
  let rowD := DynamoDBService.fileItem demoEnv demoFile in
  let keyD := DynamoDBService.cfS3Key demoFile in
  let fkeyC := DynamoDBService.fileKey (projectId reqC) (fileId reqC) in
  let pkeyC := DynamoDBService.projectKey (userIdOf reqC) (projectId reqC) in
  let fkeyD := DynamoDBService.fileKey (projectId reqD) (fileId reqD) in
  let pkeyD := DynamoDBService.projectKey (userIdOf reqD) (projectId reqD) in
  let failing := withFault AtUpdateProjectStats (Some e) demoEnv in
  let answering := withFault AtUpdateProjectStats None demoEnv in
  let confirmed :=
    sendSuccess (Row (Some (<["status" := AStr "uploaded"]> rowC))) 200 in
  let wC' :=
    setTable (<[fkeyC := <["status" := AStr "uploaded"]> rowC]> (table wC))
      wC in
  let deleted :=
    sendSuccess
      (Message (if FilesController.hardDelete reqD
                then "File permanently deleted" else "File deleted")) 200 in
  let wD' :=
    if FilesController.hardDelete reqD
    then setTable (base.delete fkeyD (table wD))
           (setBucket (bucket wD ∖ {[ keyD ]}) wD)
    else setTable (<[fkeyD := <["status" := AStr "deleted"]> rowD]> (table wD))
           wD in
  (FilesController.confirmUpload failing reqC wC = (Returns confirmed, wC')
   /\ table wC' !! fkeyC = Some (<["status" := AStr "uploaded"]> rowC)
   /\ exists w2,
        FilesController.confirmUpload answering reqC wC
        = (Returns confirmed, w2)
        /\ table w2 !! fkeyC = table wC' !! fkeyC
        /\ bucket w2 = bucket wC'
        /\ base.delete pkeyC (table w2) = base.delete pkeyC (table wC'))
  /\ (FilesController.deleteFile failing reqD wD = (Returns deleted, wD')
      /\ table wD' !! fkeyD
         = (if FilesController.hardDelete reqD then None
            else Some (<["status" := AStr "deleted"]> rowD))
      /\ exists w2,
           FilesController.deleteFile answering reqD wD
           = (Returns deleted, w2)
           /\ table w2 !! fkeyD = table wD' !! fkeyD
           /\ bucket w2 = bucket wD'
           /\ base.delete pkeyD (table w2) = base.delete pkeyD (table wD')).
Proof.
  apply (counter_failure_swallowed demoEnv "ThrottlingException"
           demoRequest demoRequest deletedWorld storedWorld
           (<["status" := AStr "deleted"]>
              (DynamoDBService.fileItem demoEnv demoFile))
           (DynamoDBService.fileItem demoEnv demoFile)
           (DynamoDBService.cfS3Key demoFile)
           (DynamoDBService.cfS3Key demoFile)).
  - by_compute.
  - by_compute.
  - by_compute.
  - by_compute.
  - intros _. by_compute.
  - by_compute.
  - reflexivity.
  - reflexivity.
  - reflexivity.
  - reflexivity.
  - reflexivity.
Defined.

(** * Confirming and the counters *)

Section ConfirmCounts.

Variable env : Env.
Variable req : Request.

#[local] Abbreviation fkey :=
  (DynamoDBService.fileKey (projectId req) (fileId req)).
#[local] Abbreviation pkey :=
  (DynamoDBService.projectKey (userIdOf req) (projectId req)).

(** C10 (amended): [confirmUpload] does not look at the status of the
    row.  When the row exists, its object is stored and the lookup, the
    probe and the status update are answered, the call answers 200 and
    the status is overwritten with [uploaded] whatever it was, a row
    that is already [uploaded] or soft-deleted included; the bucket and
    every other row but the project row of the caller are as before.
    The counters that the call adjusts are those of the project row
    stored under the caller and the project of the route, not those of
    an owner: when that row holds both counters, the row of the file
    holds its size and the counter update is answered, they grow by 1
    and by the file size, and a second confirm of the same file succeeds
    again and adds the same amounts once more.  When there is no such
    row, or the counter update is rejected, the call succeeds all the
    same and no counter moves: the stores end with the status written
    and nothing else changed. *)
Theorem confirmUpload_unconditional (w : World) (row : Item) (key : string) :
  table w !! fkey = Some row ->
  jsStr (row !! "s3Key") = Some key ->
  key ∈ bucket w ->
  fault env AtGetFileById = None ->
  fault env AtHeadObject = None ->
  fault env AtUpdateFileStatus = None ->
  let up := <["status" := AStr "uploaded"]> row in
  let w0 := setTable (<[fkey := up]> (table w)) w in
  (exists w1,
      FilesController.confirmUpload env req w
      = (Returns (sendSuccess (Row (Some up)) 200), w1)
      /\ table w1 !! fkey = Some up
      /\ bucket w1 = bucket w
      /\ base.delete pkey (table w1) = base.delete pkey (table w0))
  /\ (forall (prow : Item) (size count total : Z),
        jsNum (row !! "fileSize") = Some size ->
        table w !! pkey = Some prow ->
        prow !! "fileCount" = Some (ANum count) ->
        prow !! "totalSize" = Some (ANum total) ->
        fault env AtUpdateProjectStats = None ->
        exists w1 w2 prow1 prow2,
          FilesController.confirmUpload env req w
          = (Returns (sendSuccess (Row (Some up)) 200), w1)
          /\ table w1 !! fkey = Some up
          /\ table w1 !! pkey = Some prow1
          /\ prow1 !! "fileCount" = Some (ANum (count + 1))
          /\ prow1 !! "totalSize" = Some (ANum (total + size))
          /\ FilesController.confirmUpload env req w1
             = (Returns (sendSuccess (Row (Some up)) 200), w2)
          /\ table w2 !! fkey = Some up
          /\ table w2 !! pkey = Some prow2
          /\ prow2 !! "fileCount" = Some (ANum (count + 2))
          /\ prow2 !! "totalSize" = Some (ANum (total + 2 * size)))
  /\ (table w !! pkey = None \/ fault env AtUpdateProjectStats <> None ->
      FilesController.confirmUpload env req w
      = (Returns (sendSuccess (Row (Some up)) 200), w0)).
Proof.
  intros Hrow Hkey Hin Hget Hhead Hupd up w0.
  assert (forall w1,
             FilesController.adjustStats env (userIdOf req) (projectId req) 1
               (jsNum (row !! "fileSize")) w0 = (Returns tt, w1) ->
             FilesController.confirmUpload env req w
             = (Returns (sendSuccess (Row (Some up)) 200), w1)) as Hrun.
  { intros w1 Hadj.
    unfold FilesController.confirmUpload. unfold_primary.
    rewrite Hget, Hrow, Hkey, Hhead.
    destruct (decide (key ∈ bucket w)); [|contradiction].
    simpl. rewrite Hupd, Hrow. simpl. fold up. fold w0.
    rewrite Hadj. reflexivity. }
  split; [|split].
  - destruct (adjustStats_frame env (userIdOf req) (projectId req) 1
                (jsNum (row !! "fileSize")) w0) as (w1 & Hadj & Hb & Ht).
    exists w1. split; [apply Hrun, Hadj|]. split; [|split; assumption].
    rewrite (agree_lookup pkey fkey _ _ Ht)
      by (apply not_eq_sym, projectKey_neq_fileKey).
    apply lookup_insert_eq.
  - intros prow size count total Hsize Hprow Hc Ht Hstats.
    apply (confirmUpload_twice env req w row prow key size count total);
      assumption.
  - intros Hnone. apply Hrun.
    destruct Hnone as [Habsent|Hfault].
    + apply adjustStats_no_row. unfold w0. simpl.
      rewrite lookup_insert_ne
        by (apply not_eq_sym, projectKey_neq_fileKey).
      exact Habsent.
    + destruct (fault env AtUpdateProjectStats) as [e|] eqn:Hf;
        [|contradiction].
      apply (adjustStats_rejected env e). exact Hf.
Qed.

End ConfirmCounts.

(** C10, the claim as it is written fails.  The file of the scenario is
    stored and the project row of its owner, alice, holds both counters
    at 0.  A confirm whose counter update is throttled answers 200, and
    so does a confirm sent by another caller, bob; after neither is the
    [fileCount] of alice's project 1. *)
Lemma confirmCountsClaim_fails :
  ~ confirmCountsClaim
      (withFault AtUpdateProjectStats (Some "ThrottlingException") demoEnv)
      demoRequest storedWorld "alice"
  /\ ~ confirmCountsClaim demoEnv (withUserId (Some "bob") demoRequest)
         storedWorld "alice".
Proof.
  set (row := DynamoDBService.fileItem demoEnv demoFile).
  set (prow := DynamoDBService.projectItem demoEnv "alice" "7d9f1c2e"
                 "Site plans" None).
  set (w' := setTable
               (<[DynamoDBService.fileKey "7d9f1c2e" "f-001"
                  := <["status" := AStr "uploaded"]> row]> (table storedWorld))
               storedWorld).
  assert (table w' !! DynamoDBService.projectKey "alice" "7d9f1c2e"
          = Some prow) as Hkept by by_compute.
  assert (prow !! "fileCount" = Some (ANum 0)) as Hzero by by_compute.
  split; intros H.
  - destruct (H row prow 2048 0 0
                (Row (Some (<["status" := AStr "uploaded"]> row))) w')
      as (prow' & Hrow' & Hcount & _).
    + by_compute.
    + by_compute.
    + by_compute.
    + by_compute.
    + by_compute.
    + vm_compute. reflexivity.
    + change (table w' !! DynamoDBService.projectKey "alice" "7d9f1c2e"
              = Some prow') in Hrow'.
      rewrite Hkept in Hrow'. injection Hrow' as <-.
      rewrite Hzero in Hcount. discriminate Hcount.
  - destruct (H row prow 2048 0 0
                (Row (Some (<["status" := AStr "uploaded"]> row))) w')
      as (prow' & Hrow' & Hcount & _).
    + by_compute.
    + by_compute.
    + by_compute.
    + by_compute.
    + by_compute.
    + vm_compute. reflexivity.
    + change (table w' !! DynamoDBService.projectKey "alice" "7d9f1c2e"
              = Some prow') in Hrow'.
      rewrite Hkept in Hrow'. injection Hrow' as <-.
      rewrite Hzero in Hcount. discriminate Hcount.
Qed.

(** The soft-deleted file of the scenario comes back as [uploaded] and a
    second confirm counts it a second time; the same file confirmed
    without a project row is [uploaded] all the same and nothing else is
    written. *)
Lemma confirmUpload_unconditional_witness :
  let fkey := DynamoDBService.fileKey "7d9f1c2e" "f-001" in
  let pkey := DynamoDBService.projectKey "alice" "7d9f1c2e" in
  let stored := DynamoDBService.fileItem demoEnv demoFile in
  let row := <["status" := AStr "deleted"]> stored in
  let up := <["status" := AStr "uploaded"]> row in
  let up' := <["status" := AStr "uploaded"]> stored in
  (exists w1 w2 prow1 prow2,
      FilesController.confirmUpload demoEnv demoRequest deletedWorld
      = (Returns (sendSuccess (Row (Some up)) 200), w1)
      /\ table w1 !! fkey = Some up
      /\ table w1 !! pkey = Some prow1
      /\ prow1 !! "fileCount" = Some (ANum (-1 + 1))
      /\ prow1 !! "totalSize" = Some (ANum (-2048 + 2048))
      /\ FilesController.confirmUpload demoEnv demoRequest w1
         = (Returns (sendSuccess (Row (Some up)) 200), w2)
      /\ table w2 !! fkey = Some up
      /\ table w2 !! pkey = Some prow2
      /\ prow2 !! "fileCount" = Some (ANum (-1 + 2))
      /\ prow2 !! "totalSize" = Some (ANum (-2048 + 2 * 2048)))
  /\ table orphanWorld !! pkey = None
  /\ FilesController.confirmUpload demoEnv demoRequest orphanWorld
     = (Returns (sendSuccess (Row (Some up')) 200),
        setTable (<[fkey := up']> (table orphanWorld)) orphanWorld).
Proof.
  intros fkey pkey stored row up up'.
  assert (table orphanWorld !! pkey = None) as Habsent by by_compute.
  split; [|split; [exact Habsent|]].
  - destruct (confirmUpload_unconditional demoEnv demoRequest deletedWorld
                row (DynamoDBService.cfS3Key demoFile))
      as (_ & Hcounts & _).
    + by_compute.
    + by_compute.
    + by_compute.
    + reflexivity.
    + reflexivity.
    + reflexivity.
    + apply (Hcounts
               (Ddb.assign
                  (DynamoDBService.projectItem demoEnv "alice" "7d9f1c2e"
                     "Site plans" None)
                  [ ("fileCount", ANum (-1)); ("totalSize", ANum (-2048)) ])
               2048 (-1) (-2048)).
      * by_compute.
      * by_compute.
      * by_compute.
      * by_compute.
      * reflexivity.
  - destruct (confirmUpload_unconditional demoEnv demoRequest orphanWorld
                stored (DynamoDBService.cfS3Key demoFile))
      as (_ & _ & Hnone).
    + by_compute.
    + by_compute.
    + by_compute.
    + reflexivity.
    + reflexivity.
    + reflexivity.
    + apply Hnone. left. exact Habsent.
Defined.

(** * Further properties of the file names *)

Lemma basename_split (f : list ascii) :
  let B := Path.basename f in
  let ext := Path.extname B in
  let stem := Path.basenameSuffix B ext in
  B = (stem ++ ext)%list /\ (ext <> [] -> stem <> []).
Proof.
  intros B ext stem. subst ext stem.
  pose proof (basename_notSlash f) as HB. fold B in HB.
  destruct (extname_cases B HB)
    as [[-> Hcase] | (s & e & HBeq & Hs & He & Hdots & ->)].
  - assert (Path.basenameSuffix B [] = B) as ->.
    { unfold Path.basenameSuffix. simpl. apply basename_noSlash, HB. }
    split; [symmetry; apply List.app_nil_r | congruence].
  - rewrite HBeq in HB. apply Forall_app in HB as [HBs HBe].
    rewrite HBeq.
    rewrite (basenameSuffix_strip s ("."%char :: e)); try assumption;
      [|discriminate].
    split; [reflexivity | intros _; exact Hs].
Qed.

Lemma sanitizeFileNameChars_eq (f : list ascii) :
  sanitizeFileNameChars f
  = (sanitize (Path.basenameSuffix (Path.basename f)
                 (Path.extname (Path.basename f)))
     ++ loweredExt f)%list.
Proof. reflexivity. Qed.

Lemma extname_basename_notSlash (f : list ascii) :
  Forall notSlash (Path.extname (Path.basename f)).
Proof.
  pose proof (basename_notSlash f) as HB.
  destruct (basename_split f) as [Heq _]. rewrite Heq in HB.
  apply Forall_app in HB. tauto.
Qed.

Lemma sanitizeFileNameChars_notSlash (f : list ascii) :
  Forall notSlash (sanitizeFileNameChars f).
Proof.
  rewrite sanitizeFileNameChars_eq. apply Forall_app. split.
  - apply sanitize_notSlash.
  - apply toLowerCase_notSlash, extname_basename_notSlash.
Qed.

Lemma collapseUnderscores_length (l : list ascii) :
  (List.length (collapseUnderscores l) <= List.length l)%nat.
Proof.
  induction l as [|c r IH]; [reflexivity|]. simpl.
  destruct (Ascii.eqb c underscore).
  - destruct r as [|d r']; [simpl; lia|].
    destruct (Ascii.eqb d underscore); simpl in *; lia.
  - simpl. lia.
Qed.

Lemma sanitize_length (s : list ascii) :
  (List.length (sanitize s) <= List.length s)%nat.
Proof.
  unfold sanitize. rewrite List.length_firstn.
  pose proof (collapseUnderscores_length (replaceSpecial s)) as H.
  rewrite replaceSpecial_length in H. lia.
Qed.

Lemma slice_length (p : list ascii) (a b : Z) :
  (List.length (JS.slice p a b) <= List.length p)%nat.
Proof.
  unfold JS.slice. rewrite List.length_firstn, List.length_skipn. lia.
Qed.

Lemma basename_length (f : list ascii) :
  (List.length (Path.basename f) <= List.length f)%nat.
Proof.
  unfold Path.basename.
  destruct (Path.basenameLoop f (List.length f) (0, -1, true)) as [[a b] m].
  destruct (b =? -1); [simpl; lia | apply slice_length].
Qed.

Lemma toLowerCase_length (s : list ascii) :
  List.length (JS.toLowerCase s) = List.length s.
Proof. apply List.length_map. Qed.

Lemma sanitizeFileNameChars_length (f : list ascii) :
  (List.length (sanitizeFileNameChars f) <= List.length f)%nat.
Proof.
  rewrite sanitizeFileNameChars_eq, List.length_app.
  unfold loweredExt. rewrite toLowerCase_length.
  pose proof (basename_length f) as HB.
  destruct (basename_split f) as [Heq _].
  rewrite Heq, List.length_app in HB.
  pose proof (sanitize_length
                (Path.basenameSuffix (Path.basename f)
                   (Path.extname (Path.basename f)))).
  lia.
Qed.

Lemma replaceSpecial_id (s : list ascii) :
  Forall (fun c => inClass c = true) s -> replaceSpecial s = s.
Proof.
  unfold replaceSpecial. induction 1 as [|c r Hc Hr IH]; simpl; [reflexivity|].
  rewrite Hc, IH. reflexivity.
Qed.

Lemma noUnderscoreRun_cons (c d : ascii) (r : list ascii) :
  noUnderscoreRun (c :: d :: r)
  = negb (Ascii.eqb c underscore && Ascii.eqb d underscore)
    && noUnderscoreRun (d :: r).
Proof. reflexivity. Qed.

Lemma collapseUnderscores_noRun (l : list ascii) :
  noUnderscoreRun (collapseUnderscores l) = true.
Proof.
  induction l as [|c r IH]; [reflexivity|].
  simpl collapseUnderscores.
  destruct (Ascii.eqb c underscore) eqn:Ec.
  - destruct r as [|d r']; [reflexivity|].
    destruct (Ascii.eqb d underscore) eqn:Ed; [exact IH|].
    simpl collapseUnderscores in IH. rewrite Ed in IH.
    simpl collapseUnderscores. rewrite Ed.
    rewrite noUnderscoreRun_cons, Ec, Ed. exact IH.
  - destruct (collapseUnderscores r) as [|d r'] eqn:E; [reflexivity|].
    rewrite noUnderscoreRun_cons, Ec. exact IH.
Qed.

Lemma noUnderscoreRun_tail (c : ascii) (r : list ascii) :
  noUnderscoreRun (c :: r) = true -> noUnderscoreRun r = true.
Proof.
  destruct r as [|d r']; [reflexivity|]. simpl.
  intros H. apply andb_true_iff in H. tauto.
Qed.

Lemma noUnderscoreRun_firstn (n : nat) (l : list ascii) :
  noUnderscoreRun l = true -> noUnderscoreRun (firstn n l) = true.
Proof.
  revert l. induction n as [|n IH]; intros l H; [reflexivity|].
  destruct l as [|c r]; [reflexivity|].
  pose proof (IH r (noUnderscoreRun_tail c r H)) as Hr.
  simpl firstn. destruct n as [|n']; [reflexivity|].
  destruct r as [|d r']; [reflexivity|].
  simpl firstn in *. simpl in H. apply andb_true_iff in H as [H1 _].
  rewrite noUnderscoreRun_cons, H1. exact Hr.
Qed.

Lemma collapseUnderscores_id (l : list ascii) :
  noUnderscoreRun l = true -> collapseUnderscores l = l.
Proof.
  induction l as [|c r IH]; intros H; [reflexivity|].
  pose proof (IH (noUnderscoreRun_tail c r H)) as Hr.
  simpl collapseUnderscores.
  destruct (Ascii.eqb c underscore) eqn:Ec.
  - destruct r as [|d r']; [reflexivity|].
    simpl in H. rewrite Ec in H.
    destruct (Ascii.eqb d underscore) eqn:Ed; [discriminate H|].
    rewrite Hr. reflexivity.
  - rewrite Hr. reflexivity.
Qed.

Lemma sanitize_idem (s : list ascii) : sanitize (sanitize s) = sanitize s.
Proof.
  unfold sanitize at 1.
  rewrite replaceSpecial_id.
  2:{ unfold sanitize.
      apply firstn_Forall, collapseUnderscores_Forall, replaceSpecial_inClass. }
  rewrite collapseUnderscores_id.
  2:{ unfold sanitize.
      apply noUnderscoreRun_firstn, collapseUnderscores_noRun. }
  apply List.firstn_all2. unfold sanitize. apply List.firstn_le_length.
Qed.

Lemma sanitizeFileNameChars_idem (f : list ascii) :
  sanitizeFileNameChars (sanitizeFileNameChars f) = sanitizeFileNameChars f.
Proof.
  set (R := sanitizeFileNameChars f).
  assert (Path.basename R = R) as HbR
    by apply basename_noSlash, sanitizeFileNameChars_notSlash.
  assert (Path.extname R = loweredExt f) as HeR
    by apply extname_sanitizeFileName.
  rewrite (sanitizeFileNameChars_eq R). unfold loweredExt at 1.
  rewrite HbR, HeR.
  unfold loweredExt at 2. rewrite toLowerCase_idem. fold (loweredExt f).
  set (stem := Path.basenameSuffix (Path.basename f)
                 (Path.extname (Path.basename f))).
  assert (R = (sanitize stem ++ loweredExt f)%list) as HR by reflexivity.
  assert (Path.basenameSuffix R (loweredExt f) = sanitize stem) as ->.
  { destruct (loweredExt f) as [|c l] eqn:El.
    - rewrite List.app_nil_r in HR.
      unfold Path.basenameSuffix. simpl. rewrite HbR. exact HR.
    - rewrite HR. apply basenameSuffix_strip.
      + apply sanitize_nonempty.
        destruct (basename_split f) as [_ Hne]. apply Hne.
        intros E. unfold loweredExt in El. rewrite E in El. discriminate El.
      + discriminate.
      + apply sanitize_notSlash.
      + rewrite <- El. apply toLowerCase_notSlash, extname_basename_notSlash. }
  rewrite sanitize_idem. symmetry. exact HR.
Qed.

Lemma inClass_lowerChar (c : ascii) :
  inClass c = true -> inClass (JS.lowerChar c) = true.
Proof.
  destruct c as [[] [] [] [] [] [] [] []]; vm_compute; intros H;
    first [reflexivity | discriminate H].
Qed.

Lemma string_length_chars (s : string) :
  String.length s = List.length (list_ascii_of_string s).
Proof. induction s as [|c s IH]; simpl; [reflexivity | rewrite IH; reflexivity]. Qed.

(** X1: no path separator survives [sanitizeFileName]: the result holds
    no ['/'], whatever the input. *)
Theorem sanitizeFileName_no_separator (fileName : string) :
  Forall notSlash (list_ascii_of_string (sanitizeFileName fileName)).
Proof.
  unfold sanitizeFileName. rewrite list_ascii_string_roundtrip.
  apply sanitizeFileNameChars_notSlash.
Qed.

(** X2: [sanitizeFileName] is idempotent: a sanitized name is sanitized to
    itself. *)
Theorem sanitizeFileName_idempotent (fileName : string) :
  sanitizeFileName (sanitizeFileName fileName) = sanitizeFileName fileName.
Proof.
  unfold sanitizeFileName. rewrite list_ascii_string_roundtrip.
  rewrite sanitizeFileNameChars_idem. reflexivity.
Qed.

(** X3: for a name of code units below 256, the names of this
    development, [sanitizeFileName] never returns a name longer than its
    input: the base name is a part of the input, the replacements and the
    cut never lengthen the stem, and on these code units [toLowerCase]
    maps one unit to one unit.  (Above that range [toLowerCase] can
    lengthen the extension, U+0130 becoming two units; such names are
    outside the statement.) *)
Theorem sanitizeFileName_not_longer (fileName : string) :
  (String.length (sanitizeFileName fileName) <= String.length fileName)%nat.
Proof.
  rewrite !string_length_chars. unfold sanitizeFileName.
  rewrite list_ascii_string_roundtrip. apply sanitizeFileNameChars_length.
Qed.

(** X4: when the extension of the base name has only characters of
    [[A-Za-z0-9._-]], the whole sanitized name has, and [generateS3Key]
    leaves it as it is: the last component of the storage key is the file
    name stored in the row. *)
Theorem generateS3Key_keeps_clean_name (fileName projectId fileId : string) :
  Forall (fun c => inClass c = true)
    (Path.extname (Path.basename (list_ascii_of_string fileName))) ->
  Forall (fun c => inClass c = true)
    (list_ascii_of_string (sanitizeFileName fileName))
  /\ S3Service.generateS3Key projectId fileId (sanitizeFileName fileName)
     = projectId +:+ "/" +:+ fileId +:+ "/" +:+ sanitizeFileName fileName.
Proof.
  intros Hext.
  assert (Forall (fun c => inClass c = true)
            (list_ascii_of_string (sanitizeFileName fileName))) as Hall.
  { unfold sanitizeFileName. rewrite list_ascii_string_roundtrip.
    rewrite sanitizeFileNameChars_eq. apply Forall_app. split.
    - unfold sanitize.
      apply firstn_Forall, collapseUnderscores_Forall, replaceSpecial_inClass.
    - unfold loweredExt, JS.toLowerCase.
      induction Hext; simpl; constructor; auto using inClass_lowerChar. }
  split; [exact Hall|].
  unfold S3Service.generateS3Key, S3Service.keyName.
  rewrite (replaceSpecial_id _ Hall).
  rewrite string_of_list_ascii_of_string. reflexivity.
Qed.

Lemma generateS3Key_keeps_clean_name_witness :
  Forall (fun c => inClass c = true)
    (list_ascii_of_string (sanitizeFileName "../Site Plan (final).PDF"))
  /\ S3Service.generateS3Key "7d9f1c2e" "f-001"
       (sanitizeFileName "../Site Plan (final).PDF")
     = "7d9f1c2e" +:+ "/" +:+ "f-001" +:+ "/"
       +:+ sanitizeFileName "../Site Plan (final).PDF".
Proof.
  apply (generateS3Key_keeps_clean_name "../Site Plan (final).PDF"
           "7d9f1c2e" "f-001").
  vm_compute. repeat constructor.
Defined.

(** * Rows that are not there *)

Section MissingRow.

Variable env : Env.
Variable req : Request.

(** X5: when no row is stored under the identity of the file, the four
    handlers that address one file answer 404 [FILE_NOT_FOUND] and leave the
    stores as they are. *)
Theorem file_handlers_missing_row (w : World) :
  table w !! DynamoDBService.fileKey (projectId req) (fileId req) = None ->
  fault env AtGetFileById = None ->
  let notFound :=
    (Returns (sendError ErrorCodes.FILE_NOT_FOUND "File not found" 404), w) in
  FilesController.confirmUpload env req w = notFound
  /\ FilesController.getDownloadUrl env req w = notFound
  /\ FilesController.getFileMetadata env req w = notFound
  /\ FilesController.deleteFile env req w = notFound.
Proof.
  intros Hrow Hget. unfold_handler.
  rewrite getFileById_run, Hrow by exact Hget. auto.
Qed.

(** X6: a project is visible to its owner only.  The key of a project row
    contains the identity of the caller, so when no row is stored under
    the caller's identity and the project identifier (the project of
    another owner is such a case), [getProject], [updateProject] and
    [deleteProject] answer 404 [PROJECT_NOT_FOUND] and leave the stores as
    they are; in particular the update creates no row. *)
Theorem project_handlers_missing_row (w : World) :
  table w !! DynamoDBService.projectKey (userIdOf req) (projectId req) = None ->
  fault env AtGetProjectById = None ->
  let notFound :=
    (Returns (sendError ErrorCodes.PROJECT_NOT_FOUND "Project not found" 404),
     w) in
  ProjectsController.getProject env req w = notFound
  /\ ProjectsController.updateProject env req w = notFound
  /\ ProjectsController.deleteProject env req w = notFound.
Proof.
  intros Hrow Hget. unfold_handler.
  rewrite getProjectById_run, Hrow by exact Hget. auto.
Qed.

End MissingRow.

Lemma file_handlers_missing_row_witness :
  let notFound :=
    (Returns (sendError ErrorCodes.FILE_NOT_FOUND "File not found" 404),
     projectWorld) in
  FilesController.confirmUpload demoEnv demoRequest projectWorld = notFound
  /\ FilesController.getDownloadUrl demoEnv demoRequest projectWorld = notFound
  /\ FilesController.getFileMetadata demoEnv demoRequest projectWorld
     = notFound
  /\ FilesController.deleteFile demoEnv demoRequest projectWorld = notFound.
Proof.
  apply (file_handlers_missing_row demoEnv demoRequest projectWorld).
  - by_compute.
  - reflexivity.
Defined.

(** The project of alice asked for by bob. *)
Lemma project_handlers_missing_row_witness :
  let bob := withUserId (Some "bob") demoRequest in
  let notFound :=
    (Returns (sendError ErrorCodes.PROJECT_NOT_FOUND "Project not found" 404),
     projectWorld) in
  ProjectsController.getProject demoEnv bob projectWorld = notFound
  /\ ProjectsController.updateProject demoEnv bob projectWorld = notFound
  /\ ProjectsController.deleteProject demoEnv bob projectWorld = notFound.
Proof.
  apply (project_handlers_missing_row demoEnv
           (withUserId (Some "bob") demoRequest) projectWorld).
  - by_compute.
  - reflexivity.
Defined.

(** * Handlers that only read *)

Section ReadOnly.

Variable env : Env.
Variable req : Request.
Variable w : World.

Lemma query_reads (pk skPrefix : string) (filters : list Ddb.Cond)
  (limit : option Z) (start : option Json) :
  snd (Ddb.query pk skPrefix filters limit start w) = w.
Proof.
  pose proof (query_filtered pk skPrefix filters limit start w) as H.
  destruct (Ddb.query _ _ _ _ _ w) as [[[items lk]|e] w']; simpl; tauto.
Qed.

Lemma getDownloadUrl_reads :
  exists resp, FilesController.getDownloadUrl env req w = (Returns resp, w).
Proof.
  unfold_handler. unfold_primary. unfold S3Service.generateDownloadUrl.
  unfold_monad.
  destruct (fault env AtGetFileById); [eauto|].
  destruct (table w !! _) as [row|]; [|eauto].
  destruct (statusIs "deleted" row); [eauto|].
  destruct (jsStr (row !! "s3Key")); [|eauto].
  destruct (fault env AtSignUrl); eauto.
Qed.

Lemma getFileMetadata_reads :
  exists resp, FilesController.getFileMetadata env req w = (Returns resp, w).
Proof.
  unfold_handler. unfold_primary.
  destruct (fault env AtGetFileById); [eauto|].
  destruct (table w !! _) as [row|]; [|eauto].
  destruct (statusIs "deleted" row); eauto.
Qed.

Lemma listFiles_reads :
  exists resp, FilesController.listFiles env req w = (Returns resp, w).
Proof.
  unfold_handler. unfold DynamoDBService.getFilesByProject, send.
  destruct (fault env AtGetFilesByProject); [eauto|].
  match goal with
  | |- context [Ddb.query ?a ?b ?c ?d ?e w] =>
      pose proof (query_reads a b c d e) as H;
      destruct (Ddb.query a b c d e w) as [[r|err] w']
  end; simpl in H; subst w'; eauto.
Qed.

Lemma getProject_reads :
  exists resp, ProjectsController.getProject env req w = (Returns resp, w).
Proof.
  unfold_handler. unfold_primary.
  destruct (fault env AtGetProjectById); [eauto|].
  destruct (table w !! _) as [row|]; [|eauto].
  destruct (statusIs "deleted" row); eauto.
Qed.

Lemma listProjects_reads :
  exists resp, ProjectsController.listProjects env req w = (Returns resp, w).
Proof.
  unfold_handler. unfold DynamoDBService.getProjectsByUser, send.
  destruct (fault env AtGetProjectsByUser); [eauto|].
  match goal with
  | |- context [Ddb.query ?a ?b ?c ?d ?e w] =>
      pose proof (query_reads a b c d e) as H;
      destruct (Ddb.query a b c d e w) as [[r|err] w']
  end; simpl in H; subst w'; eauto.
Qed.

(** X7: the five handlers behind the GET routes only read.  Whatever the
    request, the stores and the failures of the services, each of them
    returns a response and leaves the table and the bucket exactly as
    they were. *)
Theorem get_handlers_leave_stores :
  (exists resp, FilesController.getDownloadUrl env req w = (Returns resp, w))
  /\ (exists resp,
         FilesController.getFileMetadata env req w = (Returns resp, w))
  /\ (exists resp, FilesController.listFiles env req w = (Returns resp, w))
  /\ (exists resp, ProjectsController.getProject env req w = (Returns resp, w))
  /\ (exists resp,
         ProjectsController.listProjects env req w = (Returns resp, w)).
Proof.
  split; [apply getDownloadUrl_reads|].
  split; [apply getFileMetadata_reads|].
  split; [apply listFiles_reads|].
  split; [apply getProject_reads | apply listProjects_reads].
Qed.

End ReadOnly.

(** * Deleting a file *)

Section Delete.

Variable env : Env.
Variable req : Request.

#[local] Abbreviation fkey :=
  (DynamoDBService.fileKey (projectId req) (fileId req)).
#[local] Abbreviation pkey :=
  (DynamoDBService.projectKey (userIdOf req) (projectId req)).

(** A soft delete that the services answer, up to the counter adjustment
    that ends it. *)
Lemma soft_delete_run (w w' : World) (row : Item) :
  table w !! fkey = Some row ->
  statusIs "deleted" row = false ->
  FilesController.hardDelete req = false ->
  fault env AtGetFileById = None ->
  fault env AtUpdateFileStatus = None ->
  FilesController.adjustStats env (userIdOf req) (projectId req) (-1)
    (Z.opp <$> jsNum (row !! "fileSize"))
    (setTable (<[fkey := <["status" := AStr "deleted"]> row]> (table w)) w)
  = (Returns tt, w') ->
  FilesController.deleteFile env req w
  = (Returns (sendSuccess (Message "File deleted") 200), w').
Proof.
  intros Hrow Hlive Hsoft Hget Hupd Hadj.
  unfold FilesController.deleteFile. unfold_primary.
  rewrite Hget, Hrow, Hlive, Hsoft. simpl.
  rewrite Hupd, Hrow. simpl. rewrite Hadj. reflexivity.
Qed.

(** A hard delete that the services answer, up to the counter adjustment
    that ends it. *)
Lemma hard_delete_run (w w' : World) (row : Item) (key : string) :
  table w !! fkey = Some row ->
  jsStr (row !! "s3Key") = Some key ->
  FilesController.hardDelete req = true ->
  fault env AtGetFileById = None ->
  fault env AtDeleteObject = None ->
  fault env AtHardDeleteFile = None ->
  FilesController.adjustStats env (userIdOf req) (projectId req) (-1)
    (Z.opp <$> jsNum (row !! "fileSize"))
    (setTable (base.delete fkey (table w)) (setBucket (bucket w ∖ {[ key ]}) w))
  = (Returns tt, w') ->
  FilesController.deleteFile env req w
  = (Returns (sendSuccess (Message "File permanently deleted") 200), w').
Proof.
  intros Hrow Hkey Hhard Hget Hs3 Hdel Hadj.
  unfold FilesController.deleteFile. unfold_primary.
  rewrite Hget, Hrow, Hhard, Hkey, Hs3. simpl.
  rewrite andb_false_r. rewrite Hdel. simpl.
  rewrite Hadj. reflexivity.
Qed.

(** X8: a hard delete ([hard=true]) removes the object and the row,
    whatever the status of the row, soft-deleted included.  When the row
    exists and the two services answer, the handler answers 200, the
    object at the key of the row is no longer in the bucket, no row is
    stored under the identity of the file, every other row but the
    project row of the counters is as before, and the metadata handler
    then answers 404 [FILE_NOT_FOUND]. *)
Theorem hard_delete_removes_row_and_object (env' : Env) (w : World)
  (row : Item) (key : string) :
  table w !! fkey = Some row ->
  jsStr (row !! "s3Key") = Some key ->
  FilesController.hardDelete req = true ->
  fault env AtGetFileById = None ->
  fault env AtDeleteObject = None ->
  fault env AtHardDeleteFile = None ->
  fault env' AtGetFileById = None ->
  exists w',
    FilesController.deleteFile env req w
    = (Returns (sendSuccess (Message "File permanently deleted") 200), w')
    /\ bucket w' = bucket w ∖ {[ key ]}
    /\ table w' !! fkey = None
    /\ base.delete pkey (table w')
       = base.delete pkey (base.delete fkey (table w))
    /\ FilesController.getFileMetadata env' req w'
       = (Returns (sendError ErrorCodes.FILE_NOT_FOUND "File not found" 404),
          w').
Proof.
  intros Hrow Hkey Hhard Hget Hs3 Hdel Hget'.
  destruct (adjustStats_frame env (userIdOf req) (projectId req) (-1)
              (Z.opp <$> jsNum (row !! "fileSize"))
              (setTable (base.delete fkey (table w))
                 (setBucket (bucket w ∖ {[ key ]}) w)))
    as (w' & Hadj & Hb & Ht).
  assert (table w' !! fkey = None) as Hgone.
  { rewrite (agree_lookup pkey fkey _ _ Ht)
      by (apply not_eq_sym, projectKey_neq_fileKey).
    apply lookup_delete_eq. }
  exists w'. split; [|split; [exact Hb|split; [exact Hgone|split; [exact Ht|]]]].
  - apply (hard_delete_run w w' row key); assumption.
  - unfold FilesController.getFileMetadata.
    unfold try_catch, mbind, M_bind, mret, M_ret.
    rewrite getFileById_run by exact Hget'. rewrite Hgone. reflexivity.
Qed.

(** X9: a hard delete is not atomic.  The object is deleted first; when
    the delete of the row then fails, the handler answers 500 and the
    stores are left with the row, unchanged, and without its object. *)
Theorem hard_delete_not_atomic (w : World) (row : Item) (key e : string) :
  table w !! fkey = Some row ->
  jsStr (row !! "s3Key") = Some key ->
  FilesController.hardDelete req = true ->
  fault env AtGetFileById = None ->
  fault env AtDeleteObject = None ->
  fault env AtHardDeleteFile = Some e ->
  exists w',
    FilesController.deleteFile env req w
    = (Returns (sendError ErrorCodes.INTERNAL_ERROR "Failed to delete file" 500),
       w')
    /\ table w' = table w
    /\ table w' !! fkey = Some row
    /\ bucket w' = bucket w ∖ {[ key ]}
    /\ (key ∉ bucket w').
Proof.
  intros Hrow Hkey Hhard Hget Hs3 Hdel.
  exists (setBucket (bucket w ∖ {[ key ]}) w).
  split; [|simpl; split; [reflexivity|split; [exact Hrow|split]]].
  2: reflexivity.
  2: { intros Hin. apply elem_of_difference in Hin as [_ Hn].
       apply Hn, elem_of_singleton. reflexivity. }
  unfold FilesController.deleteFile. unfold_primary.
  rewrite Hget, Hrow, Hhard, Hkey, Hs3. simpl.
  rewrite andb_false_r. rewrite Hdel. reflexivity.
Qed.

(** X10: a soft delete is refused the second time.  After a soft delete
    of a file that was not deleted, a further soft delete of the same
    file answers 404 [FILE_NOT_FOUND] ("File already deleted") and changes
    nothing, so the counters are decremented once. *)
Theorem second_soft_delete_refused (env2 : Env) (w : World) (row : Item) :
  table w !! fkey = Some row ->
  statusIs "deleted" row = false ->
  FilesController.hardDelete req = false ->
  fault env AtGetFileById = None ->
  fault env AtUpdateFileStatus = None ->
  fault env2 AtGetFileById = None ->
  exists w1,
    FilesController.deleteFile env req w
    = (Returns (sendSuccess (Message "File deleted") 200), w1)
    /\ FilesController.deleteFile env2 req w1
       = (Returns
            (sendError ErrorCodes.FILE_NOT_FOUND "File already deleted" 404),
          w1).
Proof.
  intros Hrow Hlive Hsoft Hget Hupd Hget2.
  destruct (adjustStats_frame env (userIdOf req) (projectId req) (-1)
              (Z.opp <$> jsNum (row !! "fileSize"))
              (setTable (<[fkey := <["status" := AStr "deleted"]> row]>
                           (table w)) w))
    as (w1 & Hadj & Hb & Ht).
  exists w1. split.
  - apply (soft_delete_run w w1 row); assumption.
  - assert (table w1 !! fkey = Some (<["status" := AStr "deleted"]> row))
      as Hrow1.
    { rewrite (agree_lookup pkey fkey _ _ Ht)
        by (apply not_eq_sym, projectKey_neq_fileKey).
      apply lookup_insert_eq. }
    unfold FilesController.deleteFile. unfold_primary.
    rewrite Hget2, Hrow1, Hsoft, statusIs_insert. reflexivity.
Qed.

(** X11: a soft delete takes the file off the counters whether or not it
    was ever counted.  [confirmUpload] is what counts a file, yet the
    delete does not look at the status: for a row of any status but
    [deleted] (a [pending] one, never confirmed, included) the project row
    of the caller ends with [fileCount] one lower and [totalSize] lower by
    the size of the file. *)
Theorem soft_delete_decrements_counters (w : World) (row prow : Item)
  (size count total : Z) :
  table w !! fkey = Some row ->
  statusIs "deleted" row = false ->
  jsNum (row !! "fileSize") = Some size ->
  table w !! pkey = Some prow ->
  prow !! "fileCount" = Some (ANum count) ->
  prow !! "totalSize" = Some (ANum total) ->
  FilesController.hardDelete req = false ->
  fault env AtGetFileById = None ->
  fault env AtUpdateFileStatus = None ->
  fault env AtUpdateProjectStats = None ->
  exists w',
    FilesController.deleteFile env req w
    = (Returns (sendSuccess (Message "File deleted") 200), w')
    /\ table w' !! fkey = Some (<["status" := AStr "deleted"]> row)
    /\ table w' !! pkey
       = Some (adjusted env prow (count - 1) (total - size))
    /\ adjusted env prow (count - 1) (total - size) !! "fileCount"
       = Some (ANum (count - 1))
    /\ adjusted env prow (count - 1) (total - size) !! "totalSize"
       = Some (ANum (total - size)).
Proof.
  intros Hrow Hlive Hsize Hprow Hc Ht Hsoft Hget Hupd Hstats.
  eexists. split; [|split; [|split; [|split]]].
  - apply (soft_delete_run w _ row); try assumption.
    rewrite Hsize. simpl.
    apply (adjustStats_run env _ _ (-1) (- size) count total prow);
      try assumption.
    simpl. rewrite lookup_insert_ne
      by (apply not_eq_sym, projectKey_neq_fileKey).
    exact Hprow.
  - simpl. rewrite lookup_insert_ne by apply projectKey_neq_fileKey.
    apply lookup_insert_eq.
  - simpl. rewrite lookup_insert_eq. reflexivity.
  - unfold adjusted. rewrite !lookup_insert_ne by discriminate.
    apply lookup_insert_eq.
  - unfold adjusted. rewrite lookup_insert_ne by discriminate.
    apply lookup_insert_eq.
Qed.

End Delete.

Lemma hard_delete_removes_row_and_object_witness :
  let req := withHard (Some "true") demoRequest in
  exists w',
    FilesController.deleteFile demoEnv req deletedWorld
    = (Returns (sendSuccess (Message "File permanently deleted") 200), w')
    /\ bucket w'
       = bucket deletedWorld ∖ {[ DynamoDBService.cfS3Key demoFile ]}
    /\ table w' !! DynamoDBService.fileKey (projectId req) (fileId req) = None
    /\ base.delete
         (DynamoDBService.projectKey (userIdOf req) (projectId req)) (table w')
       = base.delete
           (DynamoDBService.projectKey (userIdOf req) (projectId req))
           (base.delete
              (DynamoDBService.fileKey (projectId req) (fileId req))
              (table deletedWorld))
    /\ FilesController.getFileMetadata demoEnv req w'
       = (Returns (sendError ErrorCodes.FILE_NOT_FOUND "File not found" 404),
          w').
Proof.
  apply (hard_delete_removes_row_and_object demoEnv
           (withHard (Some "true") demoRequest) demoEnv deletedWorld
           (<["status" := AStr "deleted"]>
              (DynamoDBService.fileItem demoEnv demoFile))
           (DynamoDBService.cfS3Key demoFile)).
  - by_compute.
  - by_compute.
  - by_compute.
  - reflexivity.
  - reflexivity.
  - reflexivity.
  - reflexivity.
Defined.

Lemma hard_delete_not_atomic_witness :
  let env := withFault AtHardDeleteFile (Some "ThrottlingException") demoEnv in
  let req := withHard (Some "true") demoRequest in
  exists w',
    FilesController.deleteFile env req storedWorld
    = (Returns (sendError ErrorCodes.INTERNAL_ERROR "Failed to delete file" 500),
       w')
    /\ table w' = table storedWorld
    /\ table w' !! DynamoDBService.fileKey (projectId req) (fileId req)
       = Some (DynamoDBService.fileItem demoEnv demoFile)
    /\ bucket w'
       = bucket storedWorld ∖ {[ DynamoDBService.cfS3Key demoFile ]}
    /\ (DynamoDBService.cfS3Key demoFile ∉ bucket w').
Proof.
  apply (hard_delete_not_atomic
           (withFault AtHardDeleteFile (Some "ThrottlingException") demoEnv)
           (withHard (Some "true") demoRequest) storedWorld
           (DynamoDBService.fileItem demoEnv demoFile)
           (DynamoDBService.cfS3Key demoFile) "ThrottlingException").
  - by_compute.
  - by_compute.
  - by_compute.
  - reflexivity.
  - reflexivity.
  - reflexivity.
Defined.

Lemma second_soft_delete_refused_witness :
  exists w1,
    FilesController.deleteFile demoEnv demoRequest storedWorld
    = (Returns (sendSuccess (Message "File deleted") 200), w1)
    /\ FilesController.deleteFile demoEnv demoRequest w1
       = (Returns
            (sendError ErrorCodes.FILE_NOT_FOUND "File already deleted" 404),
          w1).
Proof.
  apply (second_soft_delete_refused demoEnv demoRequest demoEnv storedWorld
           (DynamoDBService.fileItem demoEnv demoFile)).
  - by_compute.
  - by_compute.
  - by_compute.
  - reflexivity.
  - reflexivity.
  - reflexivity.
Defined.

(** The file of the scenario was never confirmed: the counters of the
    project go from 0 to -1 and to -2048. *)
Lemma soft_delete_decrements_counters_witness :
  let prow :=
    DynamoDBService.projectItem demoEnv "alice" "7d9f1c2e" "Site plans" None in
  exists w',
    FilesController.deleteFile demoEnv demoRequest storedWorld
    = (Returns (sendSuccess (Message "File deleted") 200), w')
    /\ table w'
         !! DynamoDBService.fileKey (projectId demoRequest) (fileId demoRequest)
       = Some (<["status" := AStr "deleted"]>
                 (DynamoDBService.fileItem demoEnv demoFile))
    /\ table w'
         !! DynamoDBService.projectKey (userIdOf demoRequest)
              (projectId demoRequest)
       = Some (adjusted demoEnv prow (0 - 1) (0 - 2048))
    /\ adjusted demoEnv prow (0 - 1) (0 - 2048) !! "fileCount"
       = Some (ANum (0 - 1))
    /\ adjusted demoEnv prow (0 - 1) (0 - 2048) !! "totalSize"
       = Some (ANum (0 - 2048)).
Proof.
  apply (soft_delete_decrements_counters demoEnv demoRequest storedWorld
           (DynamoDBService.fileItem demoEnv demoFile)
           (DynamoDBService.projectItem demoEnv "alice" "7d9f1c2e"
              "Site plans" None) 2048 0 0).
  - by_compute.
  - by_compute.
  - by_compute.
  - by_compute.
  - by_compute.
  - by_compute.
  - by_compute.
  - reflexivity.
  - reflexivity.
  - reflexivity.
Defined.

(** * Confirming, then deleting *)

Lemma adjusted_lookup (env : Env) (prow : Item) (c t : Z) :
  adjusted env prow c t !! "fileCount" = Some (ANum c)
  /\ adjusted env prow c t !! "totalSize" = Some (ANum t)
  /\ adjusted env prow c t !! "updatedAt" = Some (AStr (now env)).
Proof.
  unfold adjusted. repeat split.
  - rewrite !lookup_insert_ne by discriminate. apply lookup_insert_eq.
  - rewrite lookup_insert_ne by discriminate. apply lookup_insert_eq.
  - apply lookup_insert_eq.
Qed.

Lemma adjusted_other (env : Env) (prow : Item) (c t : Z) (a : string) :
  a <> "fileCount" -> a <> "totalSize" -> a <> "updatedAt" ->
  adjusted env prow c t !! a = prow !! a.
Proof.
  intros H1 H2 H3. unfold adjusted.
  rewrite !lookup_insert_ne by congruence. reflexivity.
Qed.

Lemma statusIs_insert_other (s s' : string) (row : Item) :
  s <> s' -> statusIs s (<["status" := AStr s']> row) = false.
Proof.
  intros Hne. unfold statusIs. apply bool_decide_eq_false.
  rewrite lookup_insert_eq. congruence.
Qed.

Section ConfirmDelete.

Variable env : Env.
Variable req : Request.

#[local] Abbreviation fkey :=
  (DynamoDBService.fileKey (projectId req) (fileId req)).
#[local] Abbreviation pkey :=
  (DynamoDBService.projectKey (userIdOf req) (projectId req)).

(** A confirm that the services answer, up to the counter adjustment
    that ends it. *)
Lemma confirm_run (w w' : World) (row : Item) (key : string) :
  table w !! fkey = Some row ->
  jsStr (row !! "s3Key") = Some key ->
  key ∈ bucket w ->
  fault env AtGetFileById = None ->
  fault env AtHeadObject = None ->
  fault env AtUpdateFileStatus = None ->
  FilesController.adjustStats env (userIdOf req) (projectId req) 1
    (jsNum (row !! "fileSize"))
    (setTable (<[fkey := <["status" := AStr "uploaded"]> row]> (table w)) w)
  = (Returns tt, w') ->
  FilesController.confirmUpload env req w
  = (Returns
       (sendSuccess (Row (Some (<["status" := AStr "uploaded"]> row))) 200),
     w').
Proof.
  intros Hrow Hkey Hin Hget Hhead Hupd Hadj.
  unfold FilesController.confirmUpload. unfold_primary.
  rewrite Hget, Hrow, Hkey, Hhead.
  destruct (decide (key ∈ bucket w)); [|contradiction].
  simpl. rewrite Hupd, Hrow. simpl. rewrite Hadj. reflexivity.
Qed.

(** X12: confirming and then soft-deleting a file leaves the counters
    where they were.  When the project row of the caller holds both
    counters and the services answer, [confirmUpload] followed by a soft
    [deleteFile] of the same file ends with the row [deleted] and with
    [fileCount] and [totalSize] back at their values before the
    confirm. *)
Theorem confirm_then_delete_restores_counters (env2 : Env) (w : World)
  (row prow : Item) (key : string) (size count total : Z) :
  table w !! fkey = Some row ->
  jsStr (row !! "s3Key") = Some key ->
  key ∈ bucket w ->
  jsNum (row !! "fileSize") = Some size ->
  table w !! pkey = Some prow ->
  prow !! "fileCount" = Some (ANum count) ->
  prow !! "totalSize" = Some (ANum total) ->
  FilesController.hardDelete req = false ->
  fault env AtGetFileById = None ->
  fault env AtHeadObject = None ->
  fault env AtUpdateFileStatus = None ->
  fault env AtUpdateProjectStats = None ->
  fault env2 AtGetFileById = None ->
  fault env2 AtUpdateFileStatus = None ->
  fault env2 AtUpdateProjectStats = None ->
  exists w1 w2 prow1 prow2,
    FilesController.confirmUpload env req w
    = (Returns
         (sendSuccess (Row (Some (<["status" := AStr "uploaded"]> row))) 200),
       w1)
    /\ table w1 !! pkey = Some prow1
    /\ prow1 !! "fileCount" = Some (ANum (count + 1))
    /\ prow1 !! "totalSize" = Some (ANum (total + size))
    /\ FilesController.deleteFile env2 req w1
       = (Returns (sendSuccess (Message "File deleted") 200), w2)
    /\ table w2 !! fkey = Some (<["status" := AStr "deleted"]> row)
    /\ table w2 !! pkey = Some prow2
    /\ prow2 !! "fileCount" = Some (ANum count)
    /\ prow2 !! "totalSize" = Some (ANum total).
Proof.
  intros Hrow Hkey Hin Hsize Hprow Hc Ht Hsoft Hget Hhead Hupd Hstats
    Hget2 Hupd2 Hstats2.
  set (row1 := <["status" := AStr "uploaded"]> row).
  set (prow1 := adjusted env prow (count + 1) (total + size)).
  set (w1 := setTable (<[pkey := prow1]> (<[fkey := row1]> (table w))) w).
  set (prow2 := adjusted env2 prow1 (count + 1 + -1) (total + size + - size)).
  set (w2 := setTable
               (<[pkey := prow2]>
                  (<[fkey := <["status" := AStr "deleted"]> row1]> (table w1)))
               w1).
  destruct (adjusted_lookup env prow (count + 1) (total + size))
    as (Hc1 & Ht1 & _).
  destruct (adjusted_lookup env2 prow1 (count + 1 + -1) (total + size + - size))
    as (Hc2 & Ht2 & _).
  assert (table w1 !! fkey = Some row1) as Hrow1.
  { simpl. rewrite lookup_insert_ne by apply projectKey_neq_fileKey.
    apply lookup_insert_eq. }
  assert (table w1 !! pkey = Some prow1) as Hprow1
    by (simpl; apply lookup_insert_eq).
  exists w1, w2, prow1, prow2.
  split; [|split; [exact Hprow1|split; [exact Hc1|split; [exact Ht1|]]]].
  { apply (confirm_run w w1 row key); try assumption.
    rewrite Hsize.
    rewrite (adjustStats_run env _ _ 1 size count total prow);
      [reflexivity|assumption| |assumption|assumption].
    simpl. rewrite lookup_insert_ne
      by (apply not_eq_sym, projectKey_neq_fileKey).
    exact Hprow. }
  split; [|split; [|split; [|split]]].
  - apply (soft_delete_run env2 req w1 w2 row1); try assumption.
    + apply statusIs_insert_other. discriminate.
    + unfold row1 at 1. rewrite lookup_insert_ne by discriminate.
      rewrite Hsize. simpl.
      rewrite (adjustStats_run env2 _ _ (-1) (- size) (count + 1)
                 (total + size) prow1);
        [reflexivity|assumption| |assumption|assumption].
      simpl. rewrite lookup_insert_ne
        by (apply not_eq_sym, projectKey_neq_fileKey).
      apply lookup_insert_eq.
  - simpl. rewrite lookup_insert_ne by apply projectKey_neq_fileKey.
    rewrite lookup_insert_eq. unfold row1. rewrite insert_insert_eq.
    reflexivity.
  - simpl. apply lookup_insert_eq.
  - unfold prow2. rewrite Hc2. do 2 f_equal. lia.
  - unfold prow2. rewrite Ht2. do 2 f_equal. lia.
Qed.

(** X13: the file handlers do not check who calls.  A caller who has no
    project row of that identifier (any caller but the owner) can
    soft-delete a file of the project: the handler answers 200, the row
    gets the status [deleted], and every other row, the project row of
    the owner with its counters included, is as before. *)
Theorem delete_by_caller_without_project (w : World) (row : Item) :
  table w !! fkey = Some row ->
  statusIs "deleted" row = false ->
  table w !! pkey = None ->
  FilesController.hardDelete req = false ->
  fault env AtGetFileById = None ->
  fault env AtUpdateFileStatus = None ->
  FilesController.deleteFile env req w
  = (Returns (sendSuccess (Message "File deleted") 200),
     setTable (<[fkey := <["status" := AStr "deleted"]> row]> (table w)) w).
Proof.
  intros Hrow Hlive Hnone Hsoft Hget Hupd.
  apply (soft_delete_run env req w _ row); try assumption.
  apply adjustStats_no_row. simpl.
  rewrite lookup_insert_ne by (apply not_eq_sym, projectKey_neq_fileKey).
  exact Hnone.
Qed.

(** X14: [confirmUpload] tells an absent object from a failing storage.
    When the HEAD request on the object of the row is rejected, the
    handler answers 400 [VALIDATION_ERROR] if the error is named
    [NotFound] and 500 [INTERNAL_ERROR] for any other error; in both
    cases the stores, hence the status of the row, are unchanged. *)
Theorem confirmUpload_storage_failure (w : World) (row : Item)
  (key e : string) :
  table w !! fkey = Some row ->
  jsStr (row !! "s3Key") = Some key ->
  fault env AtGetFileById = None ->
  fault env AtHeadObject = Some e ->
  FilesController.confirmUpload env req w
  = (Returns
       (if String.eqb e "NotFound"
        then sendError ErrorCodes.VALIDATION_ERROR
               "File has not been uploaded to storage" 400
        else sendError ErrorCodes.INTERNAL_ERROR
               "Failed to confirm upload" 500), w).
Proof.
  intros Hrow Hkey Hget Hhead.
  unfold FilesController.confirmUpload. unfold_primary.
  rewrite Hget, Hrow, Hkey, Hhead.
  destruct (String.eqb e "NotFound"); reflexivity.
Qed.

End ConfirmDelete.

Lemma confirm_then_delete_restores_counters_witness :
  let fkey :=
    DynamoDBService.fileKey (projectId demoRequest) (fileId demoRequest) in
  let pkey :=
    DynamoDBService.projectKey (userIdOf demoRequest) (projectId demoRequest) in
  let row := DynamoDBService.fileItem demoEnv demoFile in
  exists w1 w2 prow1 prow2,
    FilesController.confirmUpload demoEnv demoRequest storedWorld
    = (Returns
         (sendSuccess (Row (Some (<["status" := AStr "uploaded"]> row))) 200),
       w1)
    /\ table w1 !! pkey = Some prow1
    /\ prow1 !! "fileCount" = Some (ANum (0 + 1))
    /\ prow1 !! "totalSize" = Some (ANum (0 + 2048))
    /\ FilesController.deleteFile demoEnv demoRequest w1
       = (Returns (sendSuccess (Message "File deleted") 200), w2)
    /\ table w2 !! fkey = Some (<["status" := AStr "deleted"]> row)
    /\ table w2 !! pkey = Some prow2
    /\ prow2 !! "fileCount" = Some (ANum 0)
    /\ prow2 !! "totalSize" = Some (ANum 0).
Proof.
  apply (confirm_then_delete_restores_counters demoEnv demoRequest demoEnv
           storedWorld (DynamoDBService.fileItem demoEnv demoFile)
           (DynamoDBService.projectItem demoEnv "alice" "7d9f1c2e"
              "Site plans" None)
           (DynamoDBService.cfS3Key demoFile) 2048 0 0).
  - by_compute.
  - by_compute.
  - by_compute.
  - by_compute.
  - by_compute.
  - by_compute.
  - by_compute.
  - by_compute.
  - reflexivity.
  - reflexivity.
  - reflexivity.
  - reflexivity.
  - reflexivity.
  - reflexivity.
  - reflexivity.
Defined.

(** The confirmed file of alice, deleted by bob: the counters of alice
    stay at 1 and 2048. *)
Lemma delete_by_caller_without_project_witness :
  let bob := withUserId (Some "bob") demoRequest in
  FilesController.deleteFile demoEnv bob confirmedWorld
  = (Returns (sendSuccess (Message "File deleted") 200),
     setTable
       (<[DynamoDBService.fileKey (projectId bob) (fileId bob)
          := <["status" := AStr "deleted"]>
               (<["status" := AStr "uploaded"]>
                  (DynamoDBService.fileItem demoEnv demoFile))]>
          (table confirmedWorld)) confirmedWorld).
Proof.
  apply (delete_by_caller_without_project demoEnv
           (withUserId (Some "bob") demoRequest) confirmedWorld
           (<["status" := AStr "uploaded"]>
              (DynamoDBService.fileItem demoEnv demoFile))).
  - by_compute.
  - by_compute.
  - by_compute.
  - by_compute.
  - reflexivity.
  - reflexivity.
Defined.

Lemma confirmUpload_storage_failure_witness :
  FilesController.confirmUpload
    (withFault AtHeadObject (Some "AccessDenied") demoEnv) demoRequest
    storedWorld
  = (Returns
       (if String.eqb "AccessDenied" "NotFound"
        then sendError ErrorCodes.VALIDATION_ERROR
               "File has not been uploaded to storage" 400
        else sendError ErrorCodes.INTERNAL_ERROR
               "Failed to confirm upload" 500), storedWorld).
Proof.
  apply (confirmUpload_storage_failure
           (withFault AtHeadObject (Some "AccessDenied") demoEnv) demoRequest
           storedWorld (DynamoDBService.fileItem demoEnv demoFile)
           (DynamoDBService.cfS3Key demoFile) "AccessDenied").
  - by_compute.
  - by_compute.
  - reflexivity.
  - reflexivity.
Defined.

(** * Requesting an upload *)

Lemma JS_length_zero (s : string) : JS.length s = 0 <-> s = "".
Proof.
  unfold JS.length. destruct s; simpl; split; intros H;
    try reflexivity; try discriminate; lia.
Qed.

Lemma truthy_Some (s v : string) : truthy (Some s) = Some v -> s = v /\ s <> "".
Proof.
  simpl. destruct (String.eqb s "") eqn:E; [discriminate|].
  intros [= <-]. split; [reflexivity|].
  intros ->. discriminate.
Qed.

Lemma truthy_nonempty (s : string) : s <> "" -> truthy (Some s) = Some s.
Proof.
  intros H. simpl. destruct (String.eqb s "") eqn:E; [|reflexivity].
  apply String.eqb_eq in E. contradiction.
Qed.

Lemma isAllowedMimeType_In (type : string) :
  isAllowedMimeType type = true <-> In type ALLOWED_MIME_TYPES.
Proof.
  unfold isAllowedMimeType. rewrite existsb_exists. split.
  - intros (x & Hin & Heq). apply String.eqb_eq in Heq. subst x. exact Hin.
  - intros Hin. exists type. split; [exact Hin | apply String.eqb_refl].
Qed.

(** No allowed type is blank. *)
Lemma allowed_not_blank (type : string) :
  In type ALLOWED_MIME_TYPES ->
  type <> "" /\ (JS.length (JS.trim type) =? 0) = false.
Proof.
  unfold ALLOWED_MIME_TYPES. simpl.
  intros H.
  repeat (destruct H as [<-|H]; [split; [discriminate | reflexivity]|]).
  contradiction.
Qed.

(** What a valid request holds. *)
Lemma validateUploadRequest_accepts (env : Env)
  (fileName fileType : option string) (fileSize : option Z) :
  validateUploadRequest env fileName fileType fileSize = None ->
  exists name type size,
    fileName = Some name /\ fileType = Some type /\ fileSize = Some size
    /\ JS.trim name <> ""
    /\ In type ALLOWED_MIME_TYPES
    /\ 0 < size <= maxFileSize env.
Proof.
  unfold validateUploadRequest.
  destruct fileName as [name|]; [|discriminate].
  destruct (truthy (Some name)) as [name'|] eqn:Hname; [|discriminate].
  apply truthy_Some in Hname as [<- Hne].
  destruct (JS.length (JS.trim name) =? 0) eqn:Htrim; [discriminate|].
  destruct fileType as [type|]; [|discriminate].
  destruct (truthy (Some type)) as [type'|] eqn:Htype; [|discriminate].
  apply truthy_Some in Htype as [<- Hne'].
  destruct (JS.length (JS.trim type) =? 0); [discriminate|].
  destruct (isAllowedMimeType type) eqn:Hallowed; [|discriminate].
  simpl. destruct fileSize as [size|]; [|discriminate].
  destruct (size <=? 0) eqn:Hpos; [discriminate|].
  unfold isFileSizeAllowed.
  destruct (0 <? size) eqn:Hpos'; [|discriminate].
  destruct (size <=? maxFileSize env) eqn:Hmax; [|discriminate].
  intros _. exists name, type, size. repeat split.
  - intros Hblank. apply Z.eqb_neq in Htrim. apply Htrim.
    apply JS_length_zero. exact Hblank.
  - apply isAllowedMimeType_In. exact Hallowed.
  - apply Z.ltb_lt. exact Hpos'.
  - apply Z.leb_le. exact Hmax.
Qed.

Lemma validateUploadRequest_complete (env : Env) (name type : string)
  (size : Z) :
  JS.trim name <> "" ->
  In type ALLOWED_MIME_TYPES ->
  0 < size <= maxFileSize env ->
  validateUploadRequest env (Some name) (Some type) (Some size) = None.
Proof.
  intros Hname Htype [Hlo Hhi]. unfold validateUploadRequest.
  assert (name <> "") as Hne by (intros ->; apply Hname; reflexivity).
  rewrite (truthy_nonempty name Hne).
  destruct (JS.length (JS.trim name) =? 0) eqn:Htrim.
  { apply Z.eqb_eq, JS_length_zero in Htrim. contradiction. }
  destruct (allowed_not_blank type Htype) as [Hne' Hblank].
  rewrite (truthy_nonempty type Hne'), Hblank.
  apply isAllowedMimeType_In in Htype. rewrite Htype. simpl.
  destruct (size <=? 0) eqn:Hpos; [apply Z.leb_le in Hpos; lia|].
  unfold isFileSizeAllowed.
  destruct (0 <? size) eqn:Hpos'; [|apply Z.ltb_ge in Hpos'; lia].
  destruct (size <=? maxFileSize env) eqn:Hmax;
    [reflexivity | apply Z.leb_gt in Hmax; lia].
Qed.

(** X15: what [validateUploadRequest] accepts.  A request is valid
    exactly when the three fields are present, the file name is not
    blank, the type is one of [ALLOWED_MIME_TYPES] and the size is
    positive and at most [S3_CONFIG.maxFileSize]; the test for a blank
    type never decides. *)
Theorem validateUploadRequest_valid_iff (env : Env)
  (fileName fileType : option string) (fileSize : option Z) :
  validateUploadRequest env fileName fileType fileSize = None
  <-> exists name type size,
        fileName = Some name /\ fileType = Some type /\ fileSize = Some size
        /\ JS.trim name <> ""
        /\ In type ALLOWED_MIME_TYPES
        /\ 0 < size <= maxFileSize env.
Proof.
  split.
  - apply validateUploadRequest_accepts.
  - intros (name & type & size & -> & -> & -> & Hname & Htype & Hsize).
    apply validateUploadRequest_complete; assumption.
Qed.

Lemma keyOf_fileItem (env : Env) (m : DynamoDBService.CreateFileMetadata) :
  Ddb.keyOf (DynamoDBService.fileItem env m)
  = Some (DynamoDBService.fileKey (DynamoDBService.cfProjectId m)
            (DynamoDBService.cfFileId m)).
Proof. reflexivity. Qed.

Lemma notExists_keyed (old : Item) (k : Key) :
  Ddb.keyOf old = Some k -> DynamoDBService.notExists (Some old) = false.
Proof.
  unfold Ddb.keyOf, DynamoDBService.notExists, Ddb.attribute_not_exists.
  destruct (old !! "PK") as [[pk|]|]; try discriminate.
  intros _. reflexivity.
Qed.

Section RequestUpload.

Variable env : Env.
Variable req : Request.

#[local] Abbreviation newKey :=
  (DynamoDBService.fileKey (projectId req) (uuidv4 env)).
#[local] Abbreviation newRow :=
  (DynamoDBService.fileItem env (uploadMetadata env req)).
#[local] Abbreviation newS3Key :=
  (S3Service.generateS3Key (projectId req) (uuidv4 env)
     (sanitizeFileName (default "" (bFileName req)))).

(** The handler on a valid request when the signer answers: what is left
    is the conditional write of the row. *)
Lemma requestUpload_valid (w : World) :
  validateUploadRequest env (bFileName req) (bFileType req) (bFileSize req)
  = None ->
  fault env AtSignUrl = None ->
  FilesController.requestUpload env req w
  = match fault env AtCreateFileMetadata with
    | Some _ =>
        (Returns (sendError ErrorCodes.INTERNAL_ERROR
                    "Failed to generate upload URL" 500), w)
    | None =>
        if DynamoDBService.notExists (table w !! newKey)
        then (Returns
                (sendSuccess
                   (UploadFileResponse (uuidv4 env)
                      (getSignedUrl env "PUT" newS3Key None)
                      (presignedUrlExpiry env)) 201),
              setTable (<[newKey := newRow]> (table w)) w)
        else (Returns (sendError ErrorCodes.INTERNAL_ERROR
                         "Failed to generate upload URL" 500), w)
    end.
Proof.
  intros Hvalid Hsign.
  unfold FilesController.requestUpload. rewrite Hvalid.
  unfold S3Service.generateUploadUrl, DynamoDBService.createFileMetadata.
  unfold_primary. rewrite Hsign.
  destruct (fault env AtCreateFileMetadata); [reflexivity|].
  rewrite keyOf_fileItem. simpl.
  destruct (DynamoDBService.notExists _); reflexivity.
Qed.

(** X16: [requestUpload] always answers, never touches the bucket and
    writes no row but the one under the identity of the new file (the
    project of the route and the generated identifier).  In particular
    it creates no object: the upload itself is left to the client. *)
Theorem requestUpload_frame (w : World) :
  exists resp w',
    FilesController.requestUpload env req w = (Returns resp, w')
    /\ bucket w' = bucket w
    /\ base.delete newKey (table w') = base.delete newKey (table w).
Proof.
  destruct (validateUploadRequest env (bFileName req) (bFileType req)
              (bFileSize req)) as [error|] eqn:Hvalid.
  { unfold FilesController.requestUpload. rewrite Hvalid.
    unfold_monad. eauto. }
  destruct (fault env AtSignUrl) as [e|] eqn:Hsign.
  { unfold FilesController.requestUpload. rewrite Hvalid.
    unfold S3Service.generateUploadUrl. unfold_monad. rewrite Hsign. eauto. }
  rewrite (requestUpload_valid w Hvalid Hsign).
  destruct (fault env AtCreateFileMetadata); [eauto|].
  destruct (DynamoDBService.notExists _); [|eauto].
  eexists _, _. split; [reflexivity|]. simpl. split; [reflexivity|].
  apply delete_insert_eq.
Qed.

(** X17: a valid upload request for a fresh identifier stores one
    [pending] row and nothing else.  The handler answers 201 with the
    generated identifier and the signed PUT URL; the row holds the
    sanitized name, the status [pending] and the key that [generateS3Key]
    makes of the sanitized name: [projectId/fileId/] followed by that
    name with every character outside [[A-Za-z0-9._-]] replaced once
    more by an underscore, so that the last component of the key is the
    stored name only when the name has no such character; every other
    row and the bucket are as before; and the metadata handler, asked
    for that file, then returns the row.  No project row is asked for:
    the upload is accepted for a project that does not exist. *)
Theorem requestUpload_creates_pending_row (env2 : Env) (req2 : Request)
  (w : World) :
  validateUploadRequest env (bFileName req) (bFileType req) (bFileSize req)
  = None ->
  table w !! newKey = None ->
  fault env AtSignUrl = None ->
  fault env AtCreateFileMetadata = None ->
  projectId req2 = projectId req ->
  fileId req2 = uuidv4 env ->
  fault env2 AtGetFileById = None ->
  let w' := setTable (<[newKey := newRow]> (table w)) w in
  FilesController.requestUpload env req w
  = (Returns
       (sendSuccess
          (UploadFileResponse (uuidv4 env)
             (getSignedUrl env "PUT" newS3Key None)
             (presignedUrlExpiry env)) 201), w')
  /\ newRow !! "status" = Some (AStr "pending")
  /\ newRow !! "fileName"
     = Some (AStr (sanitizeFileName (default "" (bFileName req))))
  /\ newRow !! "s3Key" = Some (AStr newS3Key)
  /\ newS3Key
     = projectId req +:+ "/" +:+ uuidv4 env +:+ "/"
       +:+ string_of_list_ascii
             (replaceSpecial
                (list_ascii_of_string
                   (sanitizeFileName (default "" (bFileName req)))))
  /\ FilesController.getFileMetadata env2 req2 w'
     = (Returns (sendSuccess (Row (Some newRow)) 200), w').
Proof.
  intros Hvalid Hfresh Hsign Hput Hp Hf Hget w'.
  split;
    [|split; [reflexivity|split; [reflexivity|split; [reflexivity|
      split; [reflexivity|]]]]].
  - rewrite (requestUpload_valid w Hvalid Hsign), Hput, Hfresh. reflexivity.
  - unfold FilesController.getFileMetadata.
    unfold try_catch, mbind, M_bind, mret, M_ret.
    rewrite getFileById_run by exact Hget.
    rewrite Hp, Hf. unfold w'. simpl. rewrite lookup_insert_eq.
    reflexivity.
Qed.

(** X18: a clash of file identifiers is an internal error.  When a row
    is already stored under the identity of the new file, the
    conditional write of [createFileMetadata] is refused; unlike
    [createProject], the handler does not tell this error from any
    other: it answers 500 [INTERNAL_ERROR], and the stores, the old row
    included, are unchanged. *)
Theorem requestUpload_identifier_clash (w : World) (old : Item) :
  validateUploadRequest env (bFileName req) (bFileType req) (bFileSize req)
  = None ->
  table w !! newKey = Some old ->
  Ddb.keyOf old = Some newKey ->
  fault env AtSignUrl = None ->
  fault env AtCreateFileMetadata = None ->
  DynamoDBService.createFileMetadata env (uploadMetadata env req) w
  = (Throws "ConditionalCheckFailedException", w)
  /\ FilesController.requestUpload env req w
     = (Returns (sendError ErrorCodes.INTERNAL_ERROR
                   "Failed to generate upload URL" 500), w).
Proof.
  intros Hvalid Hold Hkey Hsign Hput. split.
  - unfold DynamoDBService.createFileMetadata. unfold_primary.
    rewrite Hput, keyOf_fileItem. simpl.
    rewrite Hold, (notExists_keyed old _ Hkey). reflexivity.
  - rewrite (requestUpload_valid w Hvalid Hsign), Hput, Hold.
    rewrite (notExists_keyed old _ Hkey). reflexivity.
Qed.

End RequestUpload.

Section Lifecycle.

Variable env : Env.
Variable req : Request.

#[local] Abbreviation newKey :=
  (DynamoDBService.fileKey (projectId req) (uuidv4 env)).
#[local] Abbreviation newRow :=
  (DynamoDBService.fileItem env (uploadMetadata env req)).
#[local] Abbreviation newName :=
  (sanitizeFileName (default "" (bFileName req))).
#[local] Abbreviation newS3Key :=
  (S3Service.generateS3Key (projectId req) (uuidv4 env) newName).

(** X19: the upload flow end to end.  After a valid upload request for a
    fresh identifier and a PUT of the client at the key of the row, the
    confirm route answers 200 with the row, now [uploaded], and the
    download route then answers 200 with a GET URL signed for that same
    key and for the sanitized name.  Neither step needs a project
    row. *)
Theorem upload_lifecycle (env2 env3 : Env) (req2 : Request) (w : World) :
  validateUploadRequest env (bFileName req) (bFileType req) (bFileSize req)
  = None ->
  table w !! newKey = None ->
  fault env AtSignUrl = None ->
  fault env AtCreateFileMetadata = None ->
  projectId req2 = projectId req ->
  fileId req2 = uuidv4 env ->
  fault env2 AtGetFileById = None ->
  fault env2 AtHeadObject = None ->
  fault env2 AtUpdateFileStatus = None ->
  fault env3 AtGetFileById = None ->
  fault env3 AtSignUrl = None ->
  let w2 := run [Api POST_files env req; ClientPut newS3Key] w in
  exists w3,
    dispatch POST_file_confirm env2 req2 w2
    = (Returns
         (sendSuccess (Row (Some (<["status" := AStr "uploaded"]> newRow)))
            200), w3)
    /\ dispatch GET_file env3 req2 w3
       = (Returns
            (sendSuccess
               (DownloadFileResponse (Some (AStr (uuidv4 env)))
                  (Some (AStr newName))
                  (getSignedUrl env3 "GET" newS3Key (truthy (Some newName)))
                  (presignedUrlExpiry env3)) 200), w3).
Proof.
  intros Hvalid Hfresh Hsign Hput Hp Hf Hget2 Hhead2 Hupd2 Hget3 Hsign3.
  intros w2'.
  set (w1 := setTable (<[newKey := newRow]> (table w)) w).
  set (w2 := setBucket ({[ newS3Key ]} ∪ bucket w1) w1).
  assert (w2' = w2) as Hw2.
  { unfold w2', run. cbn [fold_left happen dispatch].
    rewrite (requestUpload_valid env req w Hvalid Hsign), Hput, Hfresh.
    reflexivity. }
  clearbody w2'. subst w2'.
  assert (table w2
            !! DynamoDBService.fileKey (projectId req2) (fileId req2)
          = Some newRow) as Hrow2.
  { rewrite Hp, Hf. simpl. apply lookup_insert_eq. }
  destruct (adjustStats_frame env2 (userIdOf req2) (projectId req2) 1
              (jsNum (newRow !! "fileSize"))
              (setTable
                 (<[DynamoDBService.fileKey (projectId req2) (fileId req2)
                    := <["status" := AStr "uploaded"]> newRow]> (table w2))
                 w2))
    as (w3 & Hadj & Hb3 & Ht3).
  exists w3. split.
  - apply (confirm_run env2 req2 w2 w3 newRow newS3Key); try assumption.
    + reflexivity.
    + simpl. apply elem_of_union_l, elem_of_singleton. reflexivity.
  - assert (table w3
              !! DynamoDBService.fileKey (projectId req2) (fileId req2)
            = Some (<["status" := AStr "uploaded"]> newRow)) as Hrow3.
    { rewrite (agree_lookup _ _ _ _ Ht3)
        by (apply not_eq_sym, projectKey_neq_fileKey).
      simpl. apply lookup_insert_eq. }
    unfold dispatch, FilesController.getDownloadUrl.
    unfold try_catch, mbind, M_bind, mret, M_ret.
    rewrite getFileById_run by exact Hget3.
    rewrite Hrow3.
    rewrite statusIs_insert_other by discriminate.
    unfold FilesController.withString, S3Service.generateDownloadUrl.
    unfold mbind, M_bind, mret, M_ret.
    rewrite !lookup_insert_ne by discriminate.
    change (newRow !! "s3Key") with (Some (AStr newS3Key)).
    change (newRow !! "fileName") with (Some (AStr newName)).
    change (newRow !! "fileId") with (Some (AStr (uuidv4 env))).
    cbn [jsStr]. rewrite send_answers by exact Hsign3. reflexivity.
Qed.

End Lifecycle.

Lemma requestUpload_creates_pending_row_witness :
  let newKey := DynamoDBService.fileKey (projectId demoRequest)
                  (uuidv4 uploadEnv) in
  let newRow :=
    DynamoDBService.fileItem uploadEnv (uploadMetadata uploadEnv demoRequest) in
  let newS3Key :=
    S3Service.generateS3Key (projectId demoRequest) (uuidv4 uploadEnv)
      (sanitizeFileName (default "" (bFileName demoRequest))) in
  let w' := setTable (<[newKey := newRow]> (table emptyWorld)) emptyWorld in
  FilesController.requestUpload uploadEnv demoRequest emptyWorld
  = (Returns
       (sendSuccess
          (UploadFileResponse (uuidv4 uploadEnv)
             (getSignedUrl uploadEnv "PUT" newS3Key None)
             (presignedUrlExpiry uploadEnv)) 201), w')
  /\ newRow !! "status" = Some (AStr "pending")
  /\ newRow !! "fileName"
     = Some (AStr (sanitizeFileName (default "" (bFileName demoRequest))))
  /\ newRow !! "s3Key" = Some (AStr newS3Key)
  /\ newS3Key
     = projectId demoRequest +:+ "/" +:+ uuidv4 uploadEnv +:+ "/"
       +:+ string_of_list_ascii
             (replaceSpecial
                (list_ascii_of_string
                   (sanitizeFileName (default "" (bFileName demoRequest)))))
  /\ FilesController.getFileMetadata demoEnv demoRequest w'
     = (Returns (sendSuccess (Row (Some newRow)) 200), w').
Proof.
  apply (requestUpload_creates_pending_row uploadEnv demoRequest demoEnv
           demoRequest emptyWorld).
  - by_compute.
  - by_compute.
  - reflexivity.
  - reflexivity.
  - reflexivity.
  - reflexivity.
  - reflexivity.
Defined.

Lemma requestUpload_identifier_clash_witness :
  DynamoDBService.createFileMetadata uploadEnv
    (uploadMetadata uploadEnv demoRequest) pendingWorld
  = (Throws "ConditionalCheckFailedException", pendingWorld)
  /\ FilesController.requestUpload uploadEnv demoRequest pendingWorld
     = (Returns (sendError ErrorCodes.INTERNAL_ERROR
                   "Failed to generate upload URL" 500), pendingWorld).
Proof.
  apply (requestUpload_identifier_clash uploadEnv demoRequest pendingWorld
           (DynamoDBService.fileItem demoEnv demoFile)).
  - by_compute.
  - by_compute.
  - by_compute.
  - reflexivity.
  - reflexivity.
Defined.

Lemma upload_lifecycle_witness :
  let newRow :=
    DynamoDBService.fileItem uploadEnv (uploadMetadata uploadEnv demoRequest) in
  let newName := sanitizeFileName (default "" (bFileName demoRequest)) in
  let newS3Key :=
    S3Service.generateS3Key (projectId demoRequest) (uuidv4 uploadEnv)
      newName in
  let w2 :=
    run [Api POST_files uploadEnv demoRequest; ClientPut newS3Key]
      emptyWorld in
  exists w3,
    dispatch POST_file_confirm demoEnv demoRequest w2
    = (Returns
         (sendSuccess (Row (Some (<["status" := AStr "uploaded"]> newRow)))
            200), w3)
    /\ dispatch GET_file demoEnv demoRequest w3
       = (Returns
            (sendSuccess
               (DownloadFileResponse (Some (AStr (uuidv4 uploadEnv)))
                  (Some (AStr newName))
                  (getSignedUrl demoEnv "GET" newS3Key
                     (truthy (Some newName)))
                  (presignedUrlExpiry demoEnv)) 200), w3).
Proof.
  apply (upload_lifecycle uploadEnv demoRequest demoEnv demoEnv demoRequest
           emptyWorld).
  - by_compute.
  - by_compute.
  - reflexivity.
  - reflexivity.
  - reflexivity.
  - reflexivity.
  - reflexivity.
  - reflexivity.
  - reflexivity.
  - reflexivity.
  - reflexivity.
Defined.

(** * Projects *)

Lemma trimStart_length (s : list ascii) :
  (List.length (JS.trimStart s) <= List.length s)%nat.
Proof.
  induction s as [|c s IH]; simpl; [lia|].
  destruct (JS.isSpace c); simpl; lia.
Qed.

Lemma string_of_list_ascii_length (l : list ascii) :
  String.length (string_of_list_ascii l) = List.length l.
Proof. induction l as [|c l IH]; simpl; [reflexivity | rewrite IH; reflexivity]. Qed.

Lemma list_ascii_of_string_length (s : string) :
  List.length (list_ascii_of_string s) = String.length s.
Proof. induction s as [|c s IH]; simpl; [reflexivity | rewrite IH; reflexivity]. Qed.

(** Trimming never lengthens. *)
Lemma trim_length (s : string) : JS.length (JS.trim s) <= JS.length s.
Proof.
  unfold JS.length, JS.trim, JS.trimEnd.
  rewrite string_of_list_ascii_length, length_rev.
  pose proof (trimStart_length (rev (JS.trimStart (list_ascii_of_string s)))).
  pose proof (trimStart_length (list_ascii_of_string s)).
  rewrite length_rev in *. rewrite list_ascii_of_string_length in *. lia.
Qed.

Lemma trimmed_name_length (name : string) :
  JS.trim name <> "" -> JS.length name <= 100 ->
  1 <= JS.length (JS.trim name) <= 100.
Proof.
  intros Hne Hlen. pose proof (trim_length name) as Hle.
  assert (JS.length (JS.trim name) <> 0) as H0
    by (intros H; apply Hne, JS_length_zero, H).
  unfold JS.length in *. lia.
Qed.

(** The update of a project row that exists, when the store answers. *)
Lemma updateProject_run (env : Env) (u p : string)
  (updates : DynamoDBService.ProjectUpdates) (w : World) (row : Item) :
  fault env AtUpdateProject = None ->
  table w !! DynamoDBService.projectKey u p = Some row ->
  DynamoDBService.updateProject env u p updates w
  = (Returns (Some (Ddb.assign row (updateValues env updates))),
     setTable (<[DynamoDBService.projectKey u p
                 := Ddb.assign row (updateValues env updates)]> (table w)) w).
Proof.
  intros Hf Hrow. unfold DynamoDBService.updateProject. unfold_primary.
  rewrite Hf, Hrow. rewrite actionValues_updateExpressions.
  reflexivity.
Qed.

Section Projects.

Variable env : Env.
Variable req : Request.

#[local] Abbreviation pkey :=
  (DynamoDBService.projectKey (userIdOf req) (projectId req)).
#[local] Abbreviation newKey :=
  (DynamoDBService.projectKey (userIdOf req) (uuidv4 env)).

(** The updates that the PATCH handler hands to the service. *)
#[local] Abbreviation patch :=
  {| DynamoDBService.puName := JS.trim <$> bName req;
     DynamoDBService.puDescription := JS.trim <$> bDescription req;
     DynamoDBService.puStatus := bStatus req |}.

(** X20: [createProject] stores the trimmed name.  For a name that is
    not blank and of at most 100 characters, and a fresh identity, the
    handler answers 201 and the row holds the name without the white
    space around it, which is between 1 and 100 characters long; asked
    for by the same caller, [getProject] then returns that row. *)
Theorem createProject_stores_trimmed_name (env2 : Env) (req2 : Request)
  (w : World) (name : string) :
  bName req = Some name ->
  JS.trim name <> "" ->
  JS.length name <= 100 ->
  table w !! newKey = None ->
  fault env AtCreateProject = None ->
  userIdOf req2 = userIdOf req ->
  projectId req2 = uuidv4 env ->
  fault env2 AtGetProjectById = None ->
  let item :=
    DynamoDBService.projectItem env (userIdOf req) (uuidv4 env)
      (JS.trim name) (JS.trim <$> bDescription req) in
  let w' := setTable (<[newKey := item]> (table w)) w in
  ProjectsController.createProject env req w
  = (Returns
       (sendSuccess
          (CreateProjectResponse (uuidv4 env) (JS.trim name)
             (JS.trim <$> bDescription req) (now env)) 201), w')
  /\ item !! "name" = Some (AStr (JS.trim name))
  /\ 1 <= JS.length (JS.trim name) <= 100
  /\ ProjectsController.getProject env2 req2 w'
     = (Returns (sendSuccess (Row (Some item)) 200), w').
Proof.
  intros Hname Htrim Hlen Hfresh Hput Hu Hp Hget item w'.
  assert (name <> "") as Hne by (intros ->; apply Htrim; reflexivity).
  split; [|split; [|split]].
  - unfold ProjectsController.createProject.
    unfold try_catch, mbind, M_bind, mret, M_ret.
    rewrite Hname, (truthy_nonempty name Hne).
    destruct (JS.length (JS.trim name) =? 0) eqn:E.
    { apply Z.eqb_eq, JS_length_zero in E. contradiction. }
    destruct (100 <? JS.length name) eqn:E';
      [apply Z.ltb_lt in E'; lia|].
    rewrite createProject_service by exact Hput.
    rewrite Hfresh. reflexivity.
  - unfold item. destruct (bDescription req); reflexivity.
  - apply trimmed_name_length; assumption.
  - unfold ProjectsController.getProject.
    unfold try_catch, mbind, M_bind, mret, M_ret.
    rewrite getProjectById_run by exact Hget.
    rewrite Hu, Hp. unfold w'. simpl. rewrite lookup_insert_eq.
    assert (statusIs "deleted" item = false) as ->
      by (unfold item; destruct (bDescription req); reflexivity).
    reflexivity.
Qed.

(** The PATCH handler on a live row, for a body whose name, if any, is
    acceptable. *)
Lemma updateProject_live (w : World) (row : Item) :
  table w !! pkey = Some row ->
  statusIs "deleted" row = false ->
  match bName req with
  | Some n => JS.trim n <> "" /\ JS.length n <= 100
  | None => True
  end ->
  fault env AtGetProjectById = None ->
  fault env AtUpdateProject = None ->
  ProjectsController.updateProject env req w
  = (Returns
       (sendSuccess (Row (Some (Ddb.assign row (updateValues env patch))))
          200),
     setTable (<[pkey := Ddb.assign row (updateValues env patch)]> (table w))
       w).
Proof.
  intros Hrow Hlive Hname Hget Hupd.
  unfold ProjectsController.updateProject.
  unfold try_catch, mbind, M_bind, mret, M_ret.
  rewrite getProjectById_run by exact Hget. rewrite Hrow, Hlive.
  assert (match bName req with
          | Some name => JS.length (JS.trim name) =? 0
          | None => false
          end = false) as ->.
  { destruct (bName req) as [n|]; [|reflexivity].
    destruct Hname as [Hne _]. apply Z.eqb_neq. intros H.
    apply Hne, JS_length_zero, H. }
  assert (match bName req with
          | Some name => 100 <? JS.length name
          | None => false
          end = false) as ->.
  { destruct (bName req) as [n|]; [|reflexivity].
    destruct Hname as [_ Hlen]. apply Z.ltb_ge. exact Hlen. }
  rewrite (updateProject_run env _ _ patch w row Hupd Hrow). reflexivity.
Qed.

(** X21: a PATCH changes what it names and nothing else.  On a row that
    exists and is not deleted, [updateProject] answers 200 with the
    updated row, which is stored under the same identity: [updatedAt] is
    the current time; [name], [description] and [status] are the supplied
    values (name and description trimmed, the status as it came,
    unchecked) and stay as they were when not supplied; every other
    field, the two counters and the owner included, is as before, and so
    is every other row. *)
Theorem updateProject_changes_supplied_fields (w : World) (row : Item) :
  table w !! pkey = Some row ->
  statusIs "deleted" row = false ->
  match bName req with
  | Some n => JS.trim n <> "" /\ JS.length n <= 100
  | None => True
  end ->
  fault env AtGetProjectById = None ->
  fault env AtUpdateProject = None ->
  exists row',
    ProjectsController.updateProject env req w
    = (Returns (sendSuccess (Row (Some row')) 200),
       setTable (<[pkey := row']> (table w)) w)
    /\ row' !! "updatedAt" = Some (AStr (now env))
    /\ row' !! "name"
       = match bName req with
         | Some n => Some (AStr (JS.trim n))
         | None => row !! "name"
         end
    /\ row' !! "description"
       = match bDescription req with
         | Some d => Some (AStr (JS.trim d))
         | None => row !! "description"
         end
    /\ row' !! "status"
       = match bStatus req with
         | Some s => Some (AStr s)
         | None => row !! "status"
         end
    /\ forall a,
         a <> "updatedAt" -> a <> "name" -> a <> "description"
         -> a <> "status" -> row' !! a = row !! a.
Proof.
  intros Hrow Hlive Hname Hget Hupd.
  exists (Ddb.assign row (updateValues env patch)).
  split; [apply updateProject_live; assumption|].
  destruct (assign_updateValues env row patch) as (H1 & H2 & H3 & H4 & H5).
  split; [exact H1|]. split.
  { rewrite H2. simpl. destruct (bName req); reflexivity. }
  split.
  { rewrite H3. simpl. destruct (bDescription req); reflexivity. }
  split; [exact H4 | exact H5].
Qed.

(** The DELETE handler on a live row. *)
Lemma deleteProject_live (w : World) (row : Item) :
  table w !! pkey = Some row ->
  statusIs "deleted" row = false ->
  fault env AtGetProjectById = None ->
  fault env AtUpdateProject = None ->
  ProjectsController.deleteProject env req w
  = (Returns (sendSuccess (Message "Project deleted") 200),
     setTable
       (<[pkey := <["status" := AStr "deleted"]>
                    (<["updatedAt" := AStr (now env)]> row)]> (table w)) w).
Proof.
  intros Hrow Hlive Hget Hupd.
  unfold ProjectsController.deleteProject.
  unfold try_catch, mbind, M_bind, mret, M_ret.
  rewrite getProjectById_run by exact Hget. rewrite Hrow, Hlive.
  unfold DynamoDBService.deleteProject.
  rewrite (updateProject_run env _ _ _ w row Hupd Hrow). reflexivity.
Qed.

(** The three handlers on a row whose status is [deleted]. *)
Lemma project_deleted_not_found (w : World) (row : Item) :
  table w !! pkey = Some row ->
  statusIs "deleted" row = true ->
  fault env AtGetProjectById = None ->
  ProjectsController.getProject env req w
  = (Returns (sendError ErrorCodes.PROJECT_NOT_FOUND
                "Project has been deleted" 404), w)
  /\ ProjectsController.updateProject env req w
     = (Returns (sendError ErrorCodes.PROJECT_NOT_FOUND
                   "Cannot update deleted project" 404), w)
  /\ ProjectsController.deleteProject env req w
     = (Returns (sendError ErrorCodes.PROJECT_NOT_FOUND
                   "Project already deleted" 404), w).
Proof.
  intros Hrow Hdel Hget. unfold_handler.
  rewrite getProjectById_run by exact Hget. rewrite Hrow, Hdel. auto.
Qed.

End Projects.

Section ProjectWrites.

Variable env : Env.
Variable req : Request.

#[local] Abbreviation pkey :=
  (DynamoDBService.projectKey (userIdOf req) (projectId req)).

(** The service method [updateProject] writes to one row. *)
Lemma updateProject_frame (u p : string)
  (updates : DynamoDBService.ProjectUpdates) (w : World) :
  exists r w',
    DynamoDBService.updateProject env u p updates w = (r, w')
    /\ bucket w' = bucket w
    /\ base.delete (DynamoDBService.projectKey u p) (table w')
       = base.delete (DynamoDBService.projectKey u p) (table w).
Proof.
  unfold DynamoDBService.updateProject. unfold_primary.
  destruct (fault env AtUpdateProject); [eauto|].
  rewrite actionValues_updateExpressions.
  eexists _, _. split; [reflexivity|]. simpl. split; [reflexivity|].
  apply delete_insert_eq.
Qed.

Lemma createProject_frame (w : World) :
  exists resp w',
    ProjectsController.createProject env req w = (Returns resp, w')
    /\ bucket w' = bucket w
    /\ base.delete (DynamoDBService.projectKey (userIdOf req) (uuidv4 env))
         (table w')
       = base.delete (DynamoDBService.projectKey (userIdOf req) (uuidv4 env))
           (table w).
Proof.
  unfold ProjectsController.createProject.
  unfold try_catch, mbind, M_bind, mret, M_ret.
  destruct (truthy (bName req)) as [name|]; [|eauto].
  destruct (JS.length (JS.trim name) =? 0); [eauto|].
  destruct (100 <? JS.length name); [eauto|].
  unfold DynamoDBService.createProject. unfold_primary.
  destruct (fault env AtCreateProject) as [e|].
  { destruct (String.eqb e "ConditionalCheckFailedException"); eauto. }
  rewrite keyOf_projectItem.
  destruct (DynamoDBService.notExists _); [|simpl; eauto].
  eexists _, _. split; [reflexivity|]. simpl. split; [reflexivity|].
  apply delete_insert_eq.
Qed.

Lemma updateProject_handler_frame (w : World) :
  exists resp w',
    ProjectsController.updateProject env req w = (Returns resp, w')
    /\ bucket w' = bucket w
    /\ base.delete pkey (table w') = base.delete pkey (table w).
Proof.
  unfold ProjectsController.updateProject.
  unfold try_catch, mbind, M_bind, mret, M_ret.
  unfold DynamoDBService.getProjectById, send, Ddb.get.
  destruct (fault env AtGetProjectById); [eauto|].
  destruct (table w !! pkey) as [row|]; [|eauto].
  destruct (statusIs "deleted" row); [eauto|].
  destruct (match bName req with
            | Some name => JS.length (JS.trim name) =? 0
            | None => false
            end); [eauto|].
  destruct (match bName req with
            | Some name => 100 <? JS.length name
            | None => false
            end); [eauto|].
  match goal with
  | |- context [DynamoDBService.updateProject env ?u ?p ?up w] =>
      destruct (updateProject_frame u p up w)
        as ([r|e] & w' & -> & Hb & Ht)
  end; eauto.
Qed.

Lemma deleteProject_handler_frame (w : World) :
  exists resp w',
    ProjectsController.deleteProject env req w = (Returns resp, w')
    /\ bucket w' = bucket w
    /\ base.delete pkey (table w') = base.delete pkey (table w).
Proof.
  unfold ProjectsController.deleteProject.
  unfold try_catch, mbind, M_bind, mret, M_ret.
  unfold DynamoDBService.getProjectById, send, Ddb.get.
  destruct (fault env AtGetProjectById); [eauto|].
  destruct (table w !! pkey) as [row|]; [|eauto].
  destruct (statusIs "deleted" row); [eauto|].
  unfold DynamoDBService.deleteProject.
  match goal with
  | |- context [DynamoDBService.updateProject env ?u ?p ?up w] =>
      destruct (updateProject_frame u p up w)
        as ([r|e] & w' & -> & Hb & Ht)
  end; eauto.
Qed.

(** X22: deleting a project marks its row and is final.  On a row that
    exists and is not deleted, [deleteProject] answers 200; the row stays
    stored with the status [deleted], a new [updatedAt] and every other
    field as before; the bucket and every file row are untouched, so the
    files of the project are neither deleted nor marked.  From then on
    [getProject], [updateProject] and [deleteProject] answer 404
    [PROJECT_NOT_FOUND] for that project and change nothing. *)
Theorem deleteProject_marks_row_and_is_final (env2 : Env) (w : World)
  (row : Item) :
  table w !! pkey = Some row ->
  statusIs "deleted" row = false ->
  fault env AtGetProjectById = None ->
  fault env AtUpdateProject = None ->
  fault env2 AtGetProjectById = None ->
  exists w1 row1,
    ProjectsController.deleteProject env req w
    = (Returns (sendSuccess (Message "Project deleted") 200), w1)
    /\ table w1 !! pkey = Some row1
    /\ row1 !! "status" = Some (AStr "deleted")
    /\ (forall a, a <> "status" -> a <> "updatedAt" -> row1 !! a = row !! a)
    /\ bucket w1 = bucket w
    /\ (forall p f,
          table w1 !! DynamoDBService.fileKey p f
          = table w !! DynamoDBService.fileKey p f)
    /\ ProjectsController.getProject env2 req w1
       = (Returns (sendError ErrorCodes.PROJECT_NOT_FOUND
                     "Project has been deleted" 404), w1)
    /\ ProjectsController.updateProject env2 req w1
       = (Returns (sendError ErrorCodes.PROJECT_NOT_FOUND
                     "Cannot update deleted project" 404), w1)
    /\ ProjectsController.deleteProject env2 req w1
       = (Returns (sendError ErrorCodes.PROJECT_NOT_FOUND
                     "Project already deleted" 404), w1).
Proof.
  intros Hrow Hlive Hget Hupd Hget2.
  set (row1 := <["status" := AStr "deleted"]>
                 (<["updatedAt" := AStr (now env)]> row)).
  set (w1 := setTable (<[pkey := row1]> (table w)) w).
  assert (table w1 !! pkey = Some row1) as Hrow1
    by (simpl; apply lookup_insert_eq).
  exists w1, row1.
  split; [apply deleteProject_live; assumption|].
  split; [exact Hrow1|].
  split; [apply lookup_insert_eq|].
  split.
  { intros a H1 H2. unfold row1.
    rewrite !lookup_insert_ne by congruence. reflexivity. }
  split; [reflexivity|].
  split.
  { intros p f. simpl. apply lookup_insert_ne, projectKey_neq_fileKey. }
  apply (project_deleted_not_found env2 req w1 row1 Hrow1);
    [apply statusIs_insert | exact Hget2].
Qed.

(** X23: a PATCH with the status [deleted] is a delete.  The body of a
    PATCH is not checked against the statuses of a project, and the
    delete is an update that sets the status: for a body with the status
    [deleted] and neither name nor description, [updateProject] leaves
    the stores exactly as [deleteProject] does. *)
Theorem patch_status_deleted_is_delete (w : World) :
  bName req = None ->
  bDescription req = None ->
  bStatus req = Some "deleted" ->
  snd (ProjectsController.updateProject env req w)
  = snd (ProjectsController.deleteProject env req w).
Proof.
  intros Hn Hd Hs.
  unfold ProjectsController.updateProject, ProjectsController.deleteProject.
  unfold try_catch, mbind, M_bind, mret, M_ret.
  rewrite Hn, Hd, Hs.
  destruct (DynamoDBService.getProjectById env (userIdOf req) (projectId req) w)
    as [[[row|]|e] w0]; try reflexivity.
  destruct (statusIs "deleted" row); [reflexivity|].
  unfold DynamoDBService.deleteProject. simpl.
  destruct (DynamoDBService.updateProject _ _ _ _ _) as [[r|e] w']; reflexivity.
Qed.

End ProjectWrites.

Lemma createProject_stores_trimmed_name_witness :
  let req := withUserId (Some "bob") demoRequest in
  let item :=
    DynamoDBService.projectItem demoEnv (userIdOf req) (uuidv4 demoEnv)
      (JS.trim "Site plans") (JS.trim <$> bDescription req) in
  let w' :=
    setTable
      (<[DynamoDBService.projectKey (userIdOf req) (uuidv4 demoEnv) := item]>
         (table projectWorld)) projectWorld in
  ProjectsController.createProject demoEnv req projectWorld
  = (Returns
       (sendSuccess
          (CreateProjectResponse (uuidv4 demoEnv) (JS.trim "Site plans")
             (JS.trim <$> bDescription req) (now demoEnv)) 201), w')
  /\ item !! "name" = Some (AStr (JS.trim "Site plans"))
  /\ 1 <= JS.length (JS.trim "Site plans") <= 100
  /\ ProjectsController.getProject demoEnv req w'
     = (Returns (sendSuccess (Row (Some item)) 200), w').
Proof.
  apply (createProject_stores_trimmed_name demoEnv
           (withUserId (Some "bob") demoRequest) demoEnv
           (withUserId (Some "bob") demoRequest) projectWorld "Site plans").
  - reflexivity.
  - vm_compute. discriminate.
  - vm_compute. discriminate.
  - by_compute.
  - reflexivity.
  - reflexivity.
  - reflexivity.
  - reflexivity.
Defined.

Lemma updateProject_changes_supplied_fields_witness :
  let row :=
    DynamoDBService.projectItem demoEnv "alice" "7d9f1c2e" "Site plans" None in
  exists row',
    ProjectsController.updateProject demoEnv demoRequest projectWorld
    = (Returns (sendSuccess (Row (Some row')) 200),
       setTable
         (<[DynamoDBService.projectKey (userIdOf demoRequest)
              (projectId demoRequest) := row']> (table projectWorld))
         projectWorld)
    /\ row' !! "updatedAt" = Some (AStr (now demoEnv))
    /\ row' !! "name"
       = match bName demoRequest with
         | Some n => Some (AStr (JS.trim n))
         | None => row !! "name"
         end
    /\ row' !! "description"
       = match bDescription demoRequest with
         | Some d => Some (AStr (JS.trim d))
         | None => row !! "description"
         end
    /\ row' !! "status"
       = match bStatus demoRequest with
         | Some s => Some (AStr s)
         | None => row !! "status"
         end
    /\ forall a,
         a <> "updatedAt" -> a <> "name" -> a <> "description"
         -> a <> "status" -> row' !! a = row !! a.
Proof.
  apply (updateProject_changes_supplied_fields demoEnv demoRequest
           projectWorld
           (DynamoDBService.projectItem demoEnv "alice" "7d9f1c2e"
              "Site plans" None)).
  - by_compute.
  - by_compute.
  - split; [vm_compute; discriminate | vm_compute; discriminate].
  - reflexivity.
  - reflexivity.
Defined.

Lemma deleteProject_marks_row_and_is_final_witness :
  let pkey :=
    DynamoDBService.projectKey (userIdOf demoRequest) (projectId demoRequest) in
  let row :=
    DynamoDBService.projectItem demoEnv "alice" "7d9f1c2e" "Site plans" None in
  exists w1 row1,
    ProjectsController.deleteProject demoEnv demoRequest storedWorld
    = (Returns (sendSuccess (Message "Project deleted") 200), w1)
    /\ table w1 !! pkey = Some row1
    /\ row1 !! "status" = Some (AStr "deleted")
    /\ (forall a, a <> "status" -> a <> "updatedAt" -> row1 !! a = row !! a)
    /\ bucket w1 = bucket storedWorld
    /\ (forall p f,
          table w1 !! DynamoDBService.fileKey p f
          = table storedWorld !! DynamoDBService.fileKey p f)
    /\ ProjectsController.getProject demoEnv demoRequest w1
       = (Returns (sendError ErrorCodes.PROJECT_NOT_FOUND
                     "Project has been deleted" 404), w1)
    /\ ProjectsController.updateProject demoEnv demoRequest w1
       = (Returns (sendError ErrorCodes.PROJECT_NOT_FOUND
                     "Cannot update deleted project" 404), w1)
    /\ ProjectsController.deleteProject demoEnv demoRequest w1
       = (Returns (sendError ErrorCodes.PROJECT_NOT_FOUND
                     "Project already deleted" 404), w1).
Proof.
  apply (deleteProject_marks_row_and_is_final demoEnv demoRequest demoEnv
           storedWorld
           (DynamoDBService.projectItem demoEnv "alice" "7d9f1c2e"
              "Site plans" None)).
  - by_compute.
  - by_compute.
  - reflexivity.
  - reflexivity.
  - reflexivity.
Defined.

Lemma patch_status_deleted_is_delete_witness :
  let req :=
    {| reqUserId := Some "alice"; projectId := "7d9f1c2e"; fileId := "";
       qStatus := None; qFileType := None; qLimit := None; qLastKey := None;
       qHard := None; bName := None; bDescription := None;
       bStatus := Some "deleted"; bFileName := None; bFileType := None;
       bFileSize := None |} in
  snd (ProjectsController.updateProject demoEnv req projectWorld)
  = snd (ProjectsController.deleteProject demoEnv req projectWorld).
Proof.
  apply (patch_status_deleted_is_delete demoEnv
           {| reqUserId := Some "alice"; projectId := "7d9f1c2e"; fileId := "";
              qStatus := None; qFileType := None; qLimit := None;
              qLastKey := None; qHard := None; bName := None;
              bDescription := None; bStatus := Some "deleted";
              bFileName := None; bFileType := None; bFileSize := None |}
           projectWorld); reflexivity.
Defined.

(** * Every handler, as a sequence of writes *)

Section Effects.

Variable env : Env.
Variable req : Request.

#[local] Abbreviation fkey :=
  (DynamoDBService.fileKey (projectId req) (fileId req)).
#[local] Abbreviation pkey :=
  (DynamoDBService.projectKey (userIdOf req) (projectId req)).

Lemma adjustStats_writes (u p : string) (d : Z) (s : option Z) (w : World) :
  exists w',
    FilesController.adjustStats env u p d s w = (Returns tt, w')
    /\ bucket w' = bucket w
    /\ rtc Write (table w) (table w').
Proof.
  destruct (adjustStats_cases env u p d s w)
    as [H|(prow & c & t & s' & _ & Hrow & Hc & Ht & H)]; rewrite H.
  - exists w. auto using rtc_refl.
  - eexists. split; [reflexivity|]. split; [reflexivity|].
    simpl. apply rtc_once.
    apply (WriteCounters _ env u p prow c t); assumption.
Qed.

Lemma confirmUpload_effect (w : World) :
  exists resp w',
    FilesController.confirmUpload env req w = (Returns resp, w')
    /\ bucket w' ⊆ bucket w
    /\ rtc Write (table w) (table w').
Proof.
  unfold FilesController.confirmUpload. unfold_primary.
  destruct (fault env AtGetFileById); [eauto 10 using rtc_refl|].
  destruct (table w !! fkey) as [row|] eqn:Hrow; [|eauto 10 using rtc_refl].
  destruct (jsStr (row !! "s3Key")) as [key|]; [|eauto 10 using rtc_refl].
  destruct (fault env AtHeadObject) as [e|].
  { destruct (String.eqb e "NotFound"); eauto 10 using rtc_refl. }
  destruct (decide (key ∈ bucket w)); [|simpl; eauto 10 using rtc_refl].
  simpl. destruct (fault env AtUpdateFileStatus); [eauto 10 using rtc_refl|].
  simpl. rewrite Hrow. simpl.
  match goal with
  | |- context [FilesController.adjustStats ?e1 ?u ?p ?d ?s ?wa] =>
      destruct (adjustStats_writes u p d s wa) as (wa' & -> & Hb & Hw)
  end.
  eexists _, wa'. split; [reflexivity|]. simpl in *.
  split; [rewrite Hb; reflexivity|].
  eapply rtc_l; [|exact Hw].
  apply WriteFileStatus; [exact Hrow | left; reflexivity].
Qed.

Lemma deleteFile_effect (w : World) :
  exists resp w',
    FilesController.deleteFile env req w = (Returns resp, w')
    /\ bucket w' ⊆ bucket w
    /\ rtc Write (table w) (table w').
Proof.
  unfold FilesController.deleteFile. unfold_primary.
  destruct (fault env AtGetFileById); [eauto 10 using rtc_refl|].
  destruct (table w !! fkey) as [row|] eqn:Hrow; [|eauto 10 using rtc_refl].
  destruct (statusIs "deleted" row && negb (FilesController.hardDelete req));
    [eauto 10 using rtc_refl|].
  destruct (FilesController.hardDelete req).
  - destruct (jsStr (row !! "s3Key")) as [key|]; [|eauto 10 using rtc_refl].
    destruct (fault env AtDeleteObject); [eauto 10 using rtc_refl|].
    simpl. destruct (fault env AtHardDeleteFile).
    { eexists _, _. split; [reflexivity|]. simpl.
      split; [apply subseteq_difference_l; reflexivity | apply rtc_refl]. }
    simpl.
    match goal with
    | |- context [FilesController.adjustStats ?e1 ?u ?p ?d ?s ?wa] =>
        destruct (adjustStats_writes u p d s wa) as (wa' & -> & Hb & Hw)
    end.
    eexists _, wa'. split; [reflexivity|]. simpl in *.
    split; [rewrite Hb; apply subseteq_difference_l; reflexivity|].
    eapply rtc_l; [|exact Hw]. apply WriteFileRemoved.
  - destruct (fault env AtUpdateFileStatus); [eauto 10 using rtc_refl|].
    simpl. rewrite Hrow. simpl.
    match goal with
    | |- context [FilesController.adjustStats ?e1 ?u ?p ?d ?s ?wa] =>
        destruct (adjustStats_writes u p d s wa) as (wa' & -> & Hb & Hw)
    end.
    eexists _, wa'. split; [reflexivity|]. simpl in *.
    split; [rewrite Hb; reflexivity|].
    eapply rtc_l; [|exact Hw].
    apply WriteFileStatus; [exact Hrow | right; reflexivity].
Qed.

Lemma requestUpload_effect (w : World) :
  exists resp w',
    FilesController.requestUpload env req w = (Returns resp, w')
    /\ bucket w' ⊆ bucket w
    /\ rtc Write (table w) (table w').
Proof.
  destruct (validateUploadRequest env (bFileName req) (bFileType req)
              (bFileSize req)) as [error|] eqn:Hvalid.
  { unfold FilesController.requestUpload. rewrite Hvalid.
    unfold_monad. eauto 10 using rtc_refl. }
  destruct (fault env AtSignUrl) as [e|] eqn:Hsign.
  { unfold FilesController.requestUpload. rewrite Hvalid.
    unfold S3Service.generateUploadUrl. unfold_monad. rewrite Hsign.
    eauto 10 using rtc_refl. }
  rewrite (requestUpload_valid env req w Hvalid Hsign).
  destruct (fault env AtCreateFileMetadata); [eauto 10 using rtc_refl|].
  destruct (DynamoDBService.notExists _) eqn:Hfresh;
    [|eauto 10 using rtc_refl].
  eexists _, _. split; [reflexivity|]. simpl. split; [reflexivity|].
  apply rtc_once. apply WriteFileCreated; assumption.
Qed.

Lemma createProject_effect (w : World) :
  exists resp w',
    ProjectsController.createProject env req w = (Returns resp, w')
    /\ bucket w' ⊆ bucket w
    /\ rtc Write (table w) (table w').
Proof.
  unfold ProjectsController.createProject.
  unfold try_catch, mbind, M_bind, mret, M_ret.
  destruct (truthy (bName req)) as [name|] eqn:Hname;
    [|eauto 10 using rtc_refl].
  destruct (JS.length (JS.trim name) =? 0) eqn:Htrim;
    [eauto 10 using rtc_refl|].
  destruct (100 <? JS.length name) eqn:Hlen; [eauto 10 using rtc_refl|].
  unfold DynamoDBService.createProject. unfold_primary.
  destruct (fault env AtCreateProject) as [e|].
  { destruct (String.eqb e "ConditionalCheckFailedException");
      eauto 10 using rtc_refl. }
  rewrite keyOf_projectItem.
  destruct (DynamoDBService.notExists _) eqn:Hfresh;
    [|simpl; eauto 10 using rtc_refl].
  eexists _, _. split; [reflexivity|]. simpl. split; [reflexivity|].
  apply rtc_once. apply WriteProjectCreated; [|exact Hfresh].
  apply trimmed_name_length.
  - intros H. apply Z.eqb_neq in Htrim. apply Htrim, JS_length_zero, H.
  - apply Z.ltb_ge. exact Hlen.
Qed.

Lemma updateProject_effect (w : World) :
  exists resp w',
    ProjectsController.updateProject env req w = (Returns resp, w')
    /\ bucket w' ⊆ bucket w
    /\ rtc Write (table w) (table w').
Proof.
  unfold ProjectsController.updateProject.
  unfold try_catch, mbind, M_bind, mret, M_ret.
  unfold DynamoDBService.getProjectById, send, Ddb.get.
  destruct (fault env AtGetProjectById); [eauto 10 using rtc_refl|].
  destruct (table w !! pkey) as [row|] eqn:Hrow; [|eauto 10 using rtc_refl].
  destruct (statusIs "deleted" row) eqn:Hlive; [eauto 10 using rtc_refl|].
  destruct (match bName req with
            | Some name => JS.length (JS.trim name) =? 0
            | None => false
            end) eqn:Htrim; [eauto 10 using rtc_refl|].
  destruct (match bName req with
            | Some name => 100 <? JS.length name
            | None => false
            end) eqn:Hlen; [eauto 10 using rtc_refl|].
  destruct (fault env AtUpdateProject) as [e|] eqn:Hupd.
  { unfold DynamoDBService.updateProject. unfold_primary. rewrite Hupd.
    eauto 10 using rtc_refl. }
  rewrite (updateProject_run env _ _ _ w row Hupd Hrow).
  eexists _, _. split; [reflexivity|]. cbn [table bucket setTable].
  split; [reflexivity|].
  apply rtc_once. apply WriteProjectUpdated; [exact Hrow | exact Hlive |].
  simpl. destruct (bName req) as [n|]; simpl; [|exact I].
  apply trimmed_name_length.
  - intros H. apply Z.eqb_neq in Htrim. apply Htrim, JS_length_zero, H.
  - apply Z.ltb_ge. exact Hlen.
Qed.

Lemma deleteProject_effect (w : World) :
  exists resp w',
    ProjectsController.deleteProject env req w = (Returns resp, w')
    /\ bucket w' ⊆ bucket w
    /\ rtc Write (table w) (table w').
Proof.
  unfold ProjectsController.deleteProject.
  unfold try_catch, mbind, M_bind, mret, M_ret.
  unfold DynamoDBService.getProjectById, send, Ddb.get.
  destruct (fault env AtGetProjectById); [eauto 10 using rtc_refl|].
  destruct (table w !! pkey) as [row|] eqn:Hrow; [|eauto 10 using rtc_refl].
  destruct (statusIs "deleted" row) eqn:Hlive; [eauto 10 using rtc_refl|].
  unfold DynamoDBService.deleteProject.
  destruct (fault env AtUpdateProject) as [e|] eqn:Hupd.
  { unfold DynamoDBService.updateProject. unfold_primary. rewrite Hupd.
    eauto 10 using rtc_refl. }
  rewrite (updateProject_run env _ _ _ w row Hupd Hrow).
  eexists _, _. split; [reflexivity|]. cbn [table bucket setTable].
  split; [reflexivity|].
  apply rtc_once. apply WriteProjectUpdated; [exact Hrow | exact Hlive |].
  exact I.
Qed.

Lemma read_effect (h : Env -> Request -> M Response) (w : World) :
  (exists resp, h env req w = (Returns resp, w)) ->
  exists resp w',
    h env req w = (Returns resp, w')
    /\ bucket w' ⊆ bucket w
    /\ rtc Write (table w) (table w').
Proof. intros [resp H]. exists resp, w. auto using rtc_refl. Qed.

(** Every route answers; it adds no object to the bucket, and what it
    does to the table is a sequence of the writes of [Write]. *)
Lemma dispatch_effect (r : Route) (w : World) :
  exists resp w',
    dispatch r env req w = (Returns resp, w')
    /\ bucket w' ⊆ bucket w
    /\ rtc Write (table w) (table w').
Proof.
  destruct r; simpl.
  - apply read_effect, listProjects_reads.
  - apply createProject_effect.
  - apply read_effect, getProject_reads.
  - apply updateProject_effect.
  - apply deleteProject_effect.
  - apply read_effect, listFiles_reads.
  - apply requestUpload_effect.
  - apply read_effect, getDownloadUrl_reads.
  - apply read_effect, getFileMetadata_reads.
  - apply confirmUpload_effect.
  - apply deleteFile_effect.
Qed.

End Effects.

(** X24: no exception escapes a handler, and the service never stores an
    object.  Whatever the request, the stores and the failures of the
    two services, every route returns a response, and every object in
    the bucket afterwards was there before: objects come from the
    clients only. *)
Theorem every_route_answers (r : Route) (env : Env) (req : Request)
  (w : World) :
  exists resp w',
    dispatch r env req w = (Returns resp, w') /\ bucket w' ⊆ bucket w.
Proof.
  destruct (dispatch_effect env req r w) as (resp & w' & H & Hb & _).
  eauto.
Qed.

Lemma happen_writes (e : Event) (w : World) :
  rtc Write (table w) (table (happen w e)).
Proof.
  destruct e as [r env req|k]; simpl; [|apply rtc_refl].
  destruct (dispatch_effect env req r w) as (resp & w' & -> & _ & Hw).
  exact Hw.
Qed.

Lemma run_writes (es : list Event) (w : World) :
  rtc Write (table w) (table (run es w)).
Proof.
  revert w. induction es as [|e es IH]; intros w; [apply rtc_refl|].
  simpl. etransitivity; [apply happen_writes | apply IH].
Qed.

(** An invariant of the writes holds along every history. *)
Lemma run_invariant (P : Table -> Prop) :
  (forall t t', Write t t' -> P t -> P t') ->
  forall es w, P (table w) -> P (table (run es w)).
Proof.
  intros Hstep es w HP.
  induction (run_writes es w) as [t|t t' t'' Hw _ IH]; [exact HP|].
  apply IH, (Hstep t t' Hw HP).
Qed.

(** * Invariants of the table *)


Lemma keyOf_agree (row row' : Item) :
  row' !! "PK" = row !! "PK" -> row' !! "SK" = row !! "SK" ->
  Ddb.keyOf row' = Ddb.keyOf row.
Proof. intros H1 H2. unfold Ddb.keyOf. rewrite H1, H2. reflexivity. Qed.

Lemma statusIs_agree (s : string) (row row' : Item) :
  row' !! "status" = row !! "status" -> statusIs s row' = statusIs s row.
Proof. intros H. unfold statusIs. rewrite H. reflexivity. Qed.

Section ProjectRowPersists.

Variable u p : string.
Variable row : Item.

#[local] Abbreviation k := (DynamoDBService.projectKey u p).

Hypothesis row_keyed : Ddb.keyOf row = Some k.

Lemma projectRowKept_keyed (row' : Item) :
  (forall a,
      a <> "name" -> a <> "description" -> a <> "status"
      -> a <> "updatedAt" -> a <> "fileCount" -> a <> "totalSize"
      -> row' !! a = row !! a) ->
  Ddb.keyOf row' = Some k.
Proof.
  intros H. rewrite <- row_keyed.
  apply keyOf_agree; apply H; discriminate.
Qed.

Lemma projectRowKept_step (t t' : Table) :
  Write t t' -> projectRowKept k row t -> projectRowKept k row t'.
Proof.
  intros Hw (row' & Hrow' & Hsame & Hdel).
  pose proof (projectRowKept_keyed row' Hsame) as Hkey.
  destruct Hw as [env req Hvalid Hfresh
                 |env u0 p0 name description Hname Hfresh
                 |p0 f s row0 Hrow0 Hs
                 |p0 f
                 |env u0 p0 row0 updates Hrow0 Hlive Hname
                 |env u0 p0 prow count total newCount newTotal Hprow Hc Ht].
  - exists row'. split; [|auto].
    rewrite lookup_insert_ne; [exact Hrow'|].
    apply not_eq_sym, projectKey_neq_fileKey.
  - destruct (decide (DynamoDBService.projectKey u0 p0 = k)) as [Heq|Hne].
    + rewrite Heq, Hrow' in Hfresh.
      rewrite (notExists_keyed row' _ Hkey) in Hfresh. discriminate.
    + exists row'. split; [|auto]. rewrite lookup_insert_ne; assumption.
  - exists row'. split; [|auto].
    rewrite lookup_insert_ne; [exact Hrow'|].
    apply not_eq_sym, projectKey_neq_fileKey.
  - exists row'. split; [|auto].
    rewrite lookup_delete_ne; [exact Hrow'|].
    apply not_eq_sym, projectKey_neq_fileKey.
  - destruct (decide (DynamoDBService.projectKey u0 p0 = k)) as [Heq|Hne].
    + rewrite Heq in *. rewrite Hrow0 in Hrow'. injection Hrow' as ->.
      destruct (assign_updateValues env row' updates)
        as (_ & _ & _ & _ & Hother).
      eexists. split; [apply lookup_insert_eq|]. split.
      * intros a H1 H2 H3 H4 H5 H6. rewrite Hother by assumption. auto.
      * intros Hd. rewrite (Hdel Hd) in Hlive. discriminate.
    + exists row'. split; [|auto]. rewrite lookup_insert_ne; assumption.
  - destruct (decide (DynamoDBService.projectKey u0 p0 = k)) as [Heq|Hne].
    + rewrite Heq in *. rewrite Hprow in Hrow'. injection Hrow' as ->.
      eexists. split; [apply lookup_insert_eq|]. split.
      * intros a H1 H2 H3 H4 H5 H6.
        rewrite adjusted_other by assumption. auto.
      * intros Hd.
        rewrite (statusIs_agree _ row' _
                   (adjusted_other env row' newCount newTotal "status"
                      ltac:(discriminate) ltac:(discriminate)
                      ltac:(discriminate))).
        auto.
    + exists row'. split; [|auto]. rewrite lookup_insert_ne; assumption.
Qed.

(** X25: a project row is never removed, and [deleted] is final.  Take a
    project row stored with its key attributes.  After any history of
    requests, on any platforms, with any failures, and of client uploads,
    a row is still stored under that identity; it differs from the
    original in [name], [description], [status], [updatedAt],
    [fileCount] and [totalSize] at most, so the owner, the identifier
    and the creation time never change; and if the original was
    [deleted], so is the row now: the interface has no way to restore a
    deleted project. *)
Theorem project_row_persists (es : list Event) (w : World) :
  table w !! k = Some row ->
  exists row',
    table (run es w) !! k = Some row'
    /\ (forall a,
          a <> "name" -> a <> "description" -> a <> "status"
          -> a <> "updatedAt" -> a <> "fileCount" -> a <> "totalSize"
          -> row' !! a = row !! a)
    /\ (statusIs "deleted" row = true -> statusIs "deleted" row' = true).
Proof.
  intros Hrow.
  apply (run_invariant (projectRowKept k row) projectRowKept_step es w).
  exists row. auto.
Qed.

End ProjectRowPersists.





Lemma projectRowOk_created (env : Env) (u p name : string)
  (description : option string) :
  1 <= JS.length name <= 100 ->
  ProjectRowOk u p (DynamoDBService.projectItem env u p name description).
Proof.
  intros Hname. split.
  - apply keyOf_projectItem.
  - destruct description; reflexivity.
  - destruct description; reflexivity.
  - exists name. split; [destruct description; reflexivity | exact Hname].
  - exists "active". destruct description; reflexivity.
  - exists 0, 0. destruct description; split; reflexivity.
Qed.

Lemma projectRowOk_updated (env : Env) (u p : string) (row : Item)
  (updates : DynamoDBService.ProjectUpdates) :
  ProjectRowOk u p row ->
  match DynamoDBService.puName updates with
  | Some n => 1 <= JS.length n <= 100
  | None => True
  end ->
  ProjectRowOk u p (Ddb.assign row (updateValues env updates)).
Proof.
  intros [Hkey Ho Hp Hname Hst Hcnt] Hn.
  destruct (assign_updateValues env row updates)
    as (_ & Hname' & _ & Hst' & Hother).
  split.
  - rewrite <- Hkey. apply keyOf_agree; apply Hother; discriminate.
  - rewrite Hother by discriminate. exact Ho.
  - rewrite Hother by discriminate. exact Hp.
  - rewrite Hname'. destruct (DynamoDBService.puName updates) as [n|].
    + exists n. auto.
    + exact Hname.
  - rewrite Hst'. destruct (DynamoDBService.puStatus updates) as [s|].
    + exists s. reflexivity.
    + exact Hst.
  - destruct Hcnt as (c & t & Hc & Ht). exists c, t.
    rewrite !Hother by discriminate. auto.
Qed.

Lemma projectRowOk_adjusted (env : Env) (u p : string) (row : Item)
  (c t : Z) :
  ProjectRowOk u p row -> ProjectRowOk u p (adjusted env row c t).
Proof.
  intros [Hkey Ho Hp Hname Hst Hcnt].
  destruct (adjusted_lookup env row c t) as (Hc & Ht & _).
  split.
  - rewrite <- Hkey. apply keyOf_agree; apply adjusted_other; discriminate.
  - rewrite adjusted_other by discriminate. exact Ho.
  - rewrite adjusted_other by discriminate. exact Hp.
  - rewrite adjusted_other by discriminate. exact Hname.
  - rewrite adjusted_other by discriminate. exact Hst.
  - exists c, t. auto.
Qed.

Lemma projectRows_step (t t' : Table) :
  Write t t' ->
  (forall u p row,
      t !! DynamoDBService.projectKey u p = Some row -> ProjectRowOk u p row) ->
  forall u p row,
    t' !! DynamoDBService.projectKey u p = Some row -> ProjectRowOk u p row.
Proof.
  intros Hw Hall u p row.
  destruct Hw as [env req Hvalid Hfresh
                 |env u0 p0 name description Hname Hfresh
                 |p0 f0 s row0 Hrow0 Hs
                 |p0 f0
                 |env u0 p0 row0 updates Hrow0 Hlive Hname
                 |env u0 p0 prow count total newCount newTotal Hprow Hc Ht].
  - rewrite lookup_insert_ne
      by (apply not_eq_sym, projectKey_neq_fileKey).
    apply Hall.
  - destruct (decide (DynamoDBService.projectKey u0 p0
                      = DynamoDBService.projectKey u p)) as [Heq|Hne].
    + rewrite Heq, lookup_insert_eq. intros [= <-].
      apply projectKey_inj in Heq as [<- <-].
      apply projectRowOk_created, Hname.
    + rewrite lookup_insert_ne by exact Hne. apply Hall.
  - rewrite lookup_insert_ne
      by (apply not_eq_sym, projectKey_neq_fileKey).
    apply Hall.
  - rewrite lookup_delete_ne
      by (apply not_eq_sym, projectKey_neq_fileKey).
    apply Hall.
  - destruct (decide (DynamoDBService.projectKey u0 p0
                      = DynamoDBService.projectKey u p)) as [Heq|Hne].
    + rewrite Heq, lookup_insert_eq. intros [= <-].
      apply projectRowOk_updated; [|exact Hname].
      apply Hall. rewrite <- Heq. exact Hrow0.
    + rewrite lookup_insert_ne by exact Hne. apply Hall.
  - destruct (decide (DynamoDBService.projectKey u0 p0
                      = DynamoDBService.projectKey u p)) as [Heq|Hne].
    + rewrite Heq, lookup_insert_eq. intros [= <-].
      apply projectRowOk_adjusted.
      apply Hall. rewrite <- Heq. exact Hprow.
    + rewrite lookup_insert_ne by exact Hne. apply Hall.
Qed.

(** X27: every project row is well formed, always.  If every project
    row of the table is well formed, then so is every project row after
    any history of requests and client uploads.  A well-formed row
    carries its key attributes, its owner and its identifier as in its
    identity, a name of 1 to 100 characters, a status and the two
    counters as numbers.  In particular no request leaves behind the
    partial row that the service method [updateProject] creates for an
    absent identity: the handlers never call it for one. *)
Theorem project_rows_well_formed (es : list Event) (w : World)
  (u p : string) (row : Item) :
  (forall u p row,
      table w !! DynamoDBService.projectKey u p = Some row
      -> ProjectRowOk u p row) ->
  table (run es w) !! DynamoDBService.projectKey u p = Some row ->
  ProjectRowOk u p row.
Proof.
  intros Hall.
  apply (run_invariant
           (fun t => forall u p row,
                t !! DynamoDBService.projectKey u p = Some row
                -> ProjectRowOk u p row)
           projectRows_step es w Hall).
Qed.

(** The project deleted in the scenario stays deleted through the
    attempts to revive it, and loses the count of its file. *)
Lemma project_row_persists_witness :
  exists row',
    table (run reviveHistory deletedProjectWorld)
      !! DynamoDBService.projectKey "alice" "7d9f1c2e" = Some row'
    /\ (forall a,
          a <> "name" -> a <> "description" -> a <> "status"
          -> a <> "updatedAt" -> a <> "fileCount" -> a <> "totalSize"
          -> row' !! a = deletedProjectRow !! a)
    /\ (statusIs "deleted" deletedProjectRow = true
        -> statusIs "deleted" row' = true).
Proof.
  apply (project_row_persists "alice" "7d9f1c2e" deletedProjectRow).
  - by_compute.
  - by_compute.
Defined.


Lemma project_rows_well_formed_witness :
  ProjectRowOk "alice" "7d9f1c2e"
    (adjusted demoEnv
       (DynamoDBService.projectItem demoEnv "alice" "7d9f1c2e" "Site plans"
          None) 1 2048).
Proof.
  apply (project_rows_well_formed uploadHistory emptyWorld).
  - intros u p row H. simpl in H. rewrite lookup_empty in H. discriminate.
  - by_compute.
Defined.

(** * What a listing returns *)

Lemma In_insertBySK (r x : Key * Item) (l : list (Key * Item)) :
  In x (Ddb.insertBySK r l) <-> x = r \/ In x l.
Proof.
  induction l as [|y l IH]; simpl.
  - split; intros [H|H]; auto.
  - destruct (String.leb (snd (fst r)) (snd (fst y))); simpl.
    + split; intros [H|H]; auto.
    + rewrite IH. split; intros [H|[H|H]]; auto.
Qed.

Lemma In_sortBySK (x : Key * Item) (l : list (Key * Item)) :
  In x (Ddb.sortBySK l) <-> In x l.
Proof.
  induction l as [|y l IH]; simpl; [reflexivity|].
  rewrite In_insertBySK, IH. split; intros [H|H]; auto.
Qed.

(** The rows that a query ranges over are the rows stored under the
    partition key with the prefix of the sort key. *)
Lemma In_partition (pk skPrefix : string) (t : Table) (k : Key) (i : Item) :
  In (k, i) (Ddb.partition pk skPrefix t)
  <-> t !! k = Some i /\ fst k = pk /\ String.prefix skPrefix (snd k) = true.
Proof.
  unfold Ddb.partition. rewrite In_sortBySK, List.filter_In.
  rewrite <- list_elem_of_In, elem_of_map_to_list. simpl.
  rewrite andb_true_iff, String.eqb_eq. tauto.
Qed.

Lemma prefix_app (a s : string) :
  String.prefix a s = true -> exists r, s = a +:+ r.
Proof.
  revert s. induction a as [|c a IH]; intros s H.
  - exists s. reflexivity.
  - destruct s as [|d s]; simpl in H; [discriminate|].
    destruct (Ascii.ascii_dec c d) as [->|]; [|discriminate].
    destruct (IH s H) as [r ->]. exists r. reflexivity.
Qed.

Lemma prefix_app_refl (a r : string) : String.prefix a (a +:+ r) = true.
Proof.
  induction a as [|c a IH]; simpl; [destruct r; reflexivity|].
  destruct (Ascii.ascii_dec c c); [exact IH | contradiction].
Qed.

Lemma In_firstn_In {A} (n : nat) (l : list A) (x : A) :
  In x (firstn n l) -> In x l.
Proof.
  revert l. induction n as [|n IH]; intros [|y l]; simpl; try tauto.
  intros [H|H]; auto.
Qed.

Lemma In_page (filters : list Ddb.Cond) (rows : list (Key * Item)) (i : Item)
  (scanned : list (Key * Item)) :
  (forall r, In r scanned -> In r rows) ->
  In i (List.filter (Ddb.evalFilter filters) (map snd scanned)) ->
  exists k, In (k, i) rows /\ Ddb.evalFilter filters i = true.
Proof.
  intros Hsub Hin. apply List.filter_In in Hin as [Hin Hf].
  apply in_map_iff in Hin as ([k i'] & Heq & Hin). simpl in Heq. subst i'.
  exists k. auto.
Qed.

(** Whatever the limit and the start key, a query returns stored rows
    of its range that pass its filter. *)
Lemma query_sound (pk skPrefix : string) (filters : list Ddb.Cond)
  (limit : option Z) (start : option Json) (w w' : World)
  (items : list Item) (lk : option Key) (i : Item) :
  Ddb.query pk skPrefix filters limit start w = (Returns (items, lk), w') ->
  In i items ->
  exists k,
    table w !! k = Some i /\ fst k = pk
    /\ String.prefix skPrefix (snd k) = true
    /\ Ddb.evalFilter filters i = true.
Proof.
  unfold Ddb.query. intros Hq Hin.
  assert (exists k, In (k, i) (Ddb.partition pk skPrefix (table w))
                    /\ Ddb.evalFilter filters i = true) as (k & Hk & Hf).
  { destruct start as [[p s|]|].
    - destruct (String.eqb p pk && String.prefix skPrefix s); [|discriminate].
      destruct limit as [n|].
      + destruct (n <=? 0); [discriminate|].
        injection Hq as <- _ _.
        apply (In_page filters (Ddb.partition pk skPrefix (table w)) i) in Hin; [exact Hin|].
        intros r Hr. apply In_firstn_In in Hr.
        apply List.filter_In in Hr. tauto.
      + injection Hq as <- _ _.
        apply (In_page filters (Ddb.partition pk skPrefix (table w)) i) in Hin; [exact Hin|].
        intros r Hr. apply List.filter_In in Hr. tauto.
    - discriminate.
    - destruct limit as [n|].
      + destruct (n <=? 0); [discriminate|].
        injection Hq as <- _ _.
        apply (In_page filters (Ddb.partition pk skPrefix (table w)) i) in Hin; [exact Hin|].
        intros r Hr. apply In_firstn_In in Hr. exact Hr.
      + injection Hq as <- _ _.
        apply (In_page filters (Ddb.partition pk skPrefix (table w)) i) in Hin; [exact Hin|]. auto. }
  apply In_partition in Hk. exists k. tauto.
Qed.

(** The filter of [getFilesByProject], read on a row. *)
Lemma fileFilters_spec (options : DynamoDBService.FileListOptions)
  (i : Item) :
  Ddb.evalFilter (DynamoDBService.fileFilters options) i = true
  <-> match truthy (DynamoDBService.foFileType options) with
      | Some t => i !! "fileType" = Some (AStr t)
      | None => True
      end
      /\ match truthy (DynamoDBService.foStatus options) with
         | Some s => i !! "status" = Some (AStr s)
         | None => i !! "status" <> Some (AStr "deleted")
         end.
Proof.
  unfold DynamoDBService.fileFilters. rewrite evalFilter_app, andb_true_iff.
  unfold Ddb.evalFilter.
  destruct (truthy (DynamoDBService.foFileType options));
    destruct (truthy (DynamoDBService.foStatus options)); simpl;
    rewrite ?andb_true_r, ?negb_true_iff, ?bool_decide_eq_true,
      ?bool_decide_eq_false; tauto.
Qed.

(** The filter of [getProjectsByUser], read on a row. *)
Lemma projectFilters_spec (options : DynamoDBService.ProjectListOptions)
  (i : Item) :
  Ddb.evalFilter (DynamoDBService.projectFilters options) i = true
  <-> match truthy (DynamoDBService.poStatus options) with
      | Some s => i !! "status" = Some (AStr s)
      | None => i !! "status" <> Some (AStr "deleted")
      end.
Proof.
  unfold DynamoDBService.projectFilters, Ddb.evalFilter.
  destruct (truthy (DynamoDBService.poStatus options)); simpl;
    rewrite ?andb_true_r, ?negb_true_iff, ?bool_decide_eq_true,
      ?bool_decide_eq_false; tauto.
Qed.

Lemma filter_length_le {A} (f : A -> bool) (l : list A) :
  (List.length (List.filter f l) <= List.length l)%nat.
Proof.
  induction l as [|x l IH]; simpl; [lia|].
  destruct (f x); simpl; lia.
Qed.

(** A query with a limit returns at most that many rows. *)
Lemma query_length (pk skPrefix : string) (filters : list Ddb.Cond)
  (n : Z) (start : option Json) (w w' : World) (items : list Item)
  (lk : option Key) :
  Ddb.query pk skPrefix filters (Some n) start w = (Returns (items, lk), w') ->
  (List.length items <= Z.to_nat n)%nat.
Proof.
  unfold Ddb.query. intros Hq.
  destruct start as [[p s|]|].
  - destruct (String.eqb p pk && String.prefix skPrefix s); [|discriminate].
    destruct (n <=? 0); [discriminate|]. injection Hq as <- _ _.
    etransitivity; [apply filter_length_le|].
    rewrite length_map, length_firstn. lia.
  - discriminate.
  - destruct (n <=? 0); [discriminate|]. injection Hq as <- _ _.
    etransitivity; [apply filter_length_le|].
    rewrite length_map, length_firstn. lia.
Qed.

Lemma limitOption_le (limit : option string) (n : Z) :
  limitOption limit = Some n -> n <= 100.
Proof.
  unfold limitOption. destruct (truthy limit); [|discriminate].
  intros [= <-]. lia.
Qed.

Section Listings.

Variable env : Env.
Variable req : Request.
Variable w : World.

(** What [listFiles] may show of the project of the route. *)
#[local] Abbreviation fileShown := (fun row : Item =>
  (exists f,
      table w !! DynamoDBService.fileKey (projectId req) f = Some row)
  /\ match truthy (qFileType req) with
     | Some t => row !! "fileType" = Some (AStr t)
     | None => True
     end
  /\ match truthy (qStatus req) with
     | Some s => row !! "status" = Some (AStr s)
     | None => row !! "status" <> Some (AStr "deleted")
     end).

(** What [listProjects] may show to the caller. *)
#[local] Abbreviation projectShown := (fun row : Item =>
  (exists p,
      table w !! DynamoDBService.projectKey (userIdOf req) p = Some row)
  /\ match truthy (qStatus req) with
     | Some s => row !! "status" = Some (AStr s)
     | None => row !! "status" <> Some (AStr "deleted")
     end).

(** X28: a listing shows stored rows of its own range only.  Whatever
    the filters, the limit, the cursor and the failures, every row that
    [listFiles] returns is stored as a file row of the project of the
    route, has the requested type if a type was asked for, and has the
    requested status, or any status but [deleted] if none was asked
    for; every row that [listProjects] returns is stored as a project
    row of the caller and meets the same condition on the status.  No
    row of another project or of another owner is ever listed. *)
Theorem listings_show_own_rows :
  (exists resp,
      FilesController.listFiles env req w = (Returns resp, w)
      /\ Forall fileShown (listedRows resp))
  /\ (exists resp,
         ProjectsController.listProjects env req w = (Returns resp, w)
         /\ Forall projectShown (listedRows resp)).
Proof.
  split.
  - unfold FilesController.listFiles, try_catch, mbind, M_bind, mret, M_ret.
    unfold DynamoDBService.getFilesByProject, send.
    destruct (fault env AtGetFilesByProject);
      [eexists; split; [reflexivity | constructor]|].
    match goal with
    | |- context [Ddb.query ?a ?b ?c ?d ?e w] =>
        pose proof (query_reads w a b c d e) as Hw;
        pose proof (query_sound a b c d e w) as Hs;
        destruct (Ddb.query a b c d e w) as [[[items lk]|err] w']
    end; simpl in Hw; subst w';
      (eexists; split; [reflexivity|]); [|constructor].
    simpl. apply List.Forall_forall. intros row Hin.
    destruct (Hs w items lk row eq_refl Hin) as ([pk sk] & Hrow & Hpk & Hsk & Hf).
    simpl in Hpk, Hsk. subst pk.
    apply prefix_app in Hsk as [f ->].
    apply fileFilters_spec in Hf. simpl in Hf. rewrite !truthy_idem in Hf.
    split; [exists f; exact Hrow | exact Hf].
  - unfold ProjectsController.listProjects, try_catch, mbind, M_bind,
      mret, M_ret.
    unfold DynamoDBService.getProjectsByUser, send.
    destruct (fault env AtGetProjectsByUser);
      [eexists; split; [reflexivity | constructor]|].
    match goal with
    | |- context [Ddb.query ?a ?b ?c ?d ?e w] =>
        pose proof (query_reads w a b c d e) as Hw;
        pose proof (query_sound a b c d e w) as Hs;
        destruct (Ddb.query a b c d e w) as [[[items lk]|err] w']
    end; simpl in Hw; subst w';
      (eexists; split; [reflexivity|]); [|constructor].
    simpl. apply List.Forall_forall. intros row Hin.
    destruct (Hs w items lk row eq_refl Hin) as ([pk sk] & Hrow & Hpk & Hsk & Hf).
    simpl in Hpk, Hsk. subst pk.
    apply prefix_app in Hsk as [p ->].
    apply projectFilters_spec in Hf. simpl in Hf. rewrite truthy_idem in Hf.
    split; [exists p; exact Hrow | exact Hf].
Qed.

(** X29: a page has at most as many rows as the limit handed to the
    store, and never more than 100.  When the request carries a [limit]
    and the limit handed to the store is a number [n] of at least 1
    (the parsed value, 50 when it does not parse or is 0, capped at 100),
    [listFiles] and [listProjects] return at most [n] rows.  For such
    [n] the integer of the model is the number that the handler
    computes, whatever the length of the digit string; limits below 1
    are outside the statement. *)
Theorem listings_page_size (n : Z) :
  limitOption (qLimit req) = Some n ->
  1 <= n ->
  n <= 100
  /\ (exists resp,
         FilesController.listFiles env req w = (Returns resp, w)
         /\ (List.length (listedRows resp) <= Z.to_nat n)%nat)
  /\ (exists resp,
         ProjectsController.listProjects env req w = (Returns resp, w)
         /\ (List.length (listedRows resp) <= Z.to_nat n)%nat).
Proof.
  intros Hlimit _. split; [apply (limitOption_le _ _ Hlimit)|]. split.
  - unfold FilesController.listFiles, try_catch, mbind, M_bind, mret, M_ret.
    unfold DynamoDBService.getFilesByProject, send.
    destruct (fault env AtGetFilesByProject);
      [eexists; split; [reflexivity | simpl; lia]|].
    cbn [DynamoDBService.foLimit FilesController.listOptions].
    rewrite Hlimit.
    match goal with
    | |- context [Ddb.query ?a ?b ?c ?d ?e w] =>
        pose proof (query_reads w a b c d e) as Hw;
        pose proof (query_length a b c n e w) as Hs;
        destruct (Ddb.query a b c d e w) as [[[items lk]|err] w']
    end; simpl in Hw; subst w';
      (eexists; split; [reflexivity|]); [|simpl; lia].
    simpl. apply (Hs w items lk eq_refl).
  - unfold ProjectsController.listProjects, try_catch, mbind, M_bind,
      mret, M_ret.
    unfold DynamoDBService.getProjectsByUser, send.
    destruct (fault env AtGetProjectsByUser);
      [eexists; split; [reflexivity | simpl; lia]|].
    cbn [DynamoDBService.poLimit ProjectsController.listOptions].
    rewrite Hlimit.
    match goal with
    | |- context [Ddb.query ?a ?b ?c ?d ?e w] =>
        pose proof (query_reads w a b c d e) as Hw;
        pose proof (query_length a b c n e w) as Hs;
        destruct (Ddb.query a b c d e w) as [[[items lk]|err] w']
    end; simpl in Hw; subst w';
      (eexists; split; [reflexivity|]); [|simpl; lia].
    simpl. apply (Hs w items lk eq_refl).
Qed.

End Listings.

(** A page of one row out of the stores of the scenario. *)
Lemma listings_page_size_witness :
  let req := withLimit (Some "1") demoRequest in
  1 <= 100
  /\ (exists resp,
         FilesController.listFiles demoEnv req storedWorld
         = (Returns resp, storedWorld)
         /\ (List.length (listedRows resp) <= Z.to_nat 1)%nat)
  /\ (exists resp,
         ProjectsController.listProjects demoEnv req storedWorld
         = (Returns resp, storedWorld)
         /\ (List.length (listedRows resp) <= Z.to_nat 1)%nat).
Proof.
  apply (listings_page_size demoEnv (withLimit (Some "1") demoRequest)
           storedWorld 1).
  - reflexivity.
  - lia.
Defined.

(** * Categories of the allowed types *)

(** X30: the order of the tests in [getMimeTypeCategory] hides two of
    its categories from the modern Office types.  Among the types of
    [ALLOWED_MIME_TYPES], [spreadsheet] is the category of
    [application/vnd.ms-excel] alone and [presentation] that of
    [application/vnd.ms-powerpoint] alone: the OpenXML types of
    spreadsheets and presentations contain [document] in their names
    and are classified as [document] by the earlier test. *)
Theorem office_categories (mimeType : string) :
  In mimeType ALLOWED_MIME_TYPES ->
  (getMimeTypeCategory mimeType = "spreadsheet"
   <-> mimeType = "application/vnd.ms-excel")
  /\ (getMimeTypeCategory mimeType = "presentation"
      <-> mimeType = "application/vnd.ms-powerpoint")
  /\ (includes "officedocument" mimeType = true
      -> getMimeTypeCategory mimeType = "document").
Proof.
  unfold ALLOWED_MIME_TYPES. simpl. intros H.
  repeat (destruct H as [<-|H];
          [vm_compute;
           split; [split; intros E; first [reflexivity | discriminate E]|];
           split; [split; intros E; first [reflexivity | discriminate E]|];
           intros E; first [reflexivity | discriminate E]|]).
  contradiction.
Qed.

Lemma office_categories_witness :
  let xlsx :=
    "application/vnd.openxmlformats-officedocument.spreadsheetml.sheet" in
  (getMimeTypeCategory xlsx = "spreadsheet"
   <-> xlsx = "application/vnd.ms-excel")
  /\ (getMimeTypeCategory xlsx = "presentation"
      <-> xlsx = "application/vnd.ms-powerpoint")
  /\ (includes "officedocument" xlsx = true
      -> getMimeTypeCategory xlsx = "document").
Proof.
  apply (office_categories
           "application/vnd.openxmlformats-officedocument.spreadsheetml.sheet").
  unfold ALLOWED_MIME_TYPES. do 9 right. left. reflexivity.
Defined.
